(** * OpenDeck buttons: message translation and register-chromatic engine

    A shallow embedding of [Buttons] (firmware/application/io/buttons):
    the pressed/latching bit store, [processButton], [sendMessage],
    [processSaxRegisterChromatic] and the configuration adapter, followed by
    the properties of the design document that concern them.

    Integers are [Z] with the width of the C++ type written out as a cast
    ([u8], [u16], [u32], [i16]); fixed-size arrays are lists read and
    written by index; the database, the program/tempo singletons and the
    increment helper are interfaces, as they are for the C++ class. *)

From Stdlib Require Import ZArith Bool Lia.
From stdpp Require Import base tactics option list numbers.

Local Open Scope Z_scope.

(** ** Fixed-width integers *)

Definition u8 (x : Z) : Z := x mod 256.
Definition u16 (x : Z) : Z := x mod 65536.
Definition u32 (x : Z) : Z := x mod 4294967296.
Definition i16 (x : Z) : Z := (x + 32768) mod 65536 - 32768.
Definition i32 (x : Z) : Z := (x + 2147483648) mod 4294967296 - 2147483648.

(** ** core::util bit helpers (on one byte of a bit-packed array) *)

(** Modelled from the spec: core::util::BIT_READ, which the core library
    defines; it reads bit [bit] of [v] (bit-index addressing, §9). *)
Definition BIT_READ (v bit : Z) : bool := Z.testbit v bit.

(** Modelled from the spec: core::util::BIT_WRITE, which the core library
    defines; it sets or clears bit [bit] of [v]. *)
Definition BIT_WRITE (v bit : Z) (s : bool) : Z :=
  if s then Z.lor v (Z.shiftl 1 bit) else Z.land v (Z.lnot (Z.shiftl 1 bit)).

(** ** Enumerations *)

(** The enumerators of the header, without the count AMOUNT. *)
Inductive type_t := MOMENTARY | LATCHING.

(** The enumerators of the header, without the count AMOUNT.
    [CUSTOM_SYS_EX] is used by [sendMessage]; it is listed after them. *)
Inductive messageType_t :=
  | NOTE | PROGRAM_CHANGE | CONTROL_CHANGE | CONTROL_CHANGE_RESET
  | MMC_STOP | MMC_PLAY | MMC_RECORD | MMC_PAUSE
  | REAL_TIME_CLOCK | REAL_TIME_START | REAL_TIME_CONTINUE | REAL_TIME_STOP
  | REAL_TIME_ACTIVE_SENSING | REAL_TIME_SYSTEM_RESET
  | PROGRAM_CHANGE_INC | PROGRAM_CHANGE_DEC | NONE | PRESET_CHANGE
  | MULTI_VAL_INC_RESET_NOTE | MULTI_VAL_INC_DEC_NOTE
  | MULTI_VAL_INC_RESET_CC | MULTI_VAL_INC_DEC_CC
  | NOTE_OFF_ONLY | CONTROL_CHANGE0_ONLY | BANK_SELECT_PROGRAM_CHANGE
  | PROGRAM_CHANGE_OFFSET_INC | PROGRAM_CHANGE_OFFSET_DEC
  | BPM_INC | BPM_DEC | MMC_PLAY_STOP | NOTE_LEGATO | CUSTOM_SYS_EX.

Module midi.
(** Modelled from the spec: protocol::midi::messageType_t, the outbound
    message kinds, declared in the MIDI protocol header; the enumerators are
    those the source names, and the ones the pass-through kinds map to. *)
Inductive messageType_t :=
  | INVALID | NOTE_ON | NOTE_OFF | CONTROL_CHANGE | PROGRAM_CHANGE | SYS_EX
  | SYS_REAL_TIME_CLOCK | SYS_REAL_TIME_START | SYS_REAL_TIME_CONTINUE
  | SYS_REAL_TIME_STOP | SYS_REAL_TIME_ACTIVE_SENSING
  | SYS_REAL_TIME_SYSTEM_RESET
  | MMC_PLAY | MMC_STOP | MMC_PAUSE | MMC_RECORD_START | MMC_RECORD_STOP.
End midi.

Module messaging.
(** Modelled from the spec: the event kinds of the bus (§6), declared in the
    messaging header. *)
Inductive eventType_t := ANALOG_BUTTON | TOUCHSCREEN_BUTTON | BUTTON | SYSTEM.

(** Modelled from the spec: the system messages this unit names;
    [NO_SYSTEM_MESSAGE] stands for the enumerator a value-initialised event
    holds. *)
Inductive systemMessage_t :=
  | NO_SYSTEM_MESSAGE | FORCE_IO_REFRESH | PRESET_CHANGE_DIRECT_REQ.

(** What [Event::sysEx], a pointer to bytes, holds in this unit: the null
    pointer of a value-initialised event, or the address of an array that
    is a local variable of [sendMessage].  A pointer to such an array is
    modelled by the bytes of the array and by the lifetime of the array:
    [alive] is true while the block that declares the array is being
    executed and false from its closing brace on, when the pointer dangles
    and reading through it is undefined. *)
Inductive Pointer :=
  | nullptr
  | local (array : list Z) (alive : bool).

(** Modelled from the spec: the event published on the bus (§6: channel,
    identifier, value, outbound message kind, and for SysEx a byte payload
    with explicit length), declared in the messaging header; the fields are
    those the source assigns. *)
Record Event := mkEvent {
  componentIndex : Z;
  channel : Z;
  index : Z;
  value : Z;
  sysEx : Pointer;
  sysExLength : Z;
  forcedRefresh : bool;
  systemMessage : systemMessage_t;
  message : midi.messageType_t;
}.

(** What a reader of the event gets through [sysEx]: the first
    [sysExLength] bytes of the array, when the pointer is to a living
    array, and nothing that the code determines otherwise. *)
Definition bytes (e : Event) : option (list Z) :=
  match sysEx e with
  | local array true => Some (take (Z.to_nat (sysExLength e)) array)
  | local _ false => None
  | nullptr => None
  end.

(** [messaging::Event event = {}] *)
Definition empty : Event :=
  mkEvent 0 0 0 0 nullptr 0 false NO_SYSTEM_MESSAGE midi.INVALID.

Definition with_componentIndex v e :=
  mkEvent v (channel e) (index e) (value e) (sysEx e) (sysExLength e)
          (forcedRefresh e) (systemMessage e) (message e).
Definition with_channel v e :=
  mkEvent (componentIndex e) v (index e) (value e) (sysEx e) (sysExLength e)
          (forcedRefresh e) (systemMessage e) (message e).
Definition with_index v e :=
  mkEvent (componentIndex e) (channel e) v (value e) (sysEx e) (sysExLength e)
          (forcedRefresh e) (systemMessage e) (message e).
Definition with_value v e :=
  mkEvent (componentIndex e) (channel e) (index e) v (sysEx e) (sysExLength e)
          (forcedRefresh e) (systemMessage e) (message e).
Definition with_sysEx buf len e :=
  mkEvent (componentIndex e) (channel e) (index e) (value e) buf len
          (forcedRefresh e) (systemMessage e) (message e).
Definition with_systemMessage v e :=
  mkEvent (componentIndex e) (channel e) (index e) (value e) (sysEx e)
          (sysExLength e) (forcedRefresh e) v (message e).
Definition with_message v e :=
  mkEvent (componentIndex e) (channel e) (index e) (value e) (sysEx e)
          (sysExLength e) (forcedRefresh e) (systemMessage e) v.
End messaging.

(** One call of [MidiDispatcher.notify(eventType, event)]. *)
Definition Publication : Type := messaging.eventType_t * messaging.Event.

(** Modelled from the spec: the transient descriptor of an input (§4.2: type,
    message kind, and the event to publish), declared in the header of the
    class. *)
Record Descriptor := mkDescriptor {
  type : type_t;
  messageType : messageType_t;
  event : messaging.Event;
}.

Definition with_event (e : messaging.Event) (d : Descriptor) : Descriptor :=
  mkDescriptor (type d) (messageType d) e.

#[global] Instance type_t_eq_dec : EqDecision type_t.
Proof. solve_decision. Defined.
#[global] Instance messageType_t_eq_dec : EqDecision messageType_t.
Proof. solve_decision. Defined.
#[global] Instance midi_messageType_t_eq_dec : EqDecision midi.messageType_t.
Proof. solve_decision. Defined.

(** ** Database addresses

    [_database.read(section, index)]: a section and an index in it.  For the
    settings sections the index is an enumerator. *)

(** Modelled from the spec: the sections of the store this unit reads and
    writes (§6), declared in the database layout; [SYSEX_DATA n] is
    [SYSEX_DATA_0 + n]. *)
Inductive button_t :=
  | TYPE | MESSAGE_TYPE | CHANNEL | MIDI_ID | VALUE
  | SYSEX_LENGTH | SYSEX_DATA (word : Z) | SAX_REGISTER_KEY_MAP.

Inductive systemSetting_t :=
  | SAX_REGISTER_CHROMATIC_ENABLE | SAX_REGISTER_CHROMATIC_BASE_NOTE
  | SAX_REGISTER_CHROMATIC_TRANSPOSE | SAX_REGISTER_CHROMATIC_INPUT_INVERT.

Inductive global_t :=
  | SAX_FINGERING_MASK_LO14 | SAX_FINGERING_MASK_HI10_ENABLE | SAX_FINGERING_NOTE.

Inductive Address :=
  | button (s : button_t) (i : Z)
  | SYSTEM_SETTINGS (s : systemSetting_t)
  | MIDI_SETTINGS_GLOBAL_CHANNEL
  | global (s : global_t) (entry : Z)
  | encoder_ENABLE (i : Z).

#[global] Instance button_t_eq_dec : EqDecision button_t.
Proof. solve_decision. Defined.
#[global] Instance systemSetting_t_eq_dec : EqDecision systemSetting_t.
Proof. solve_decision. Defined.
#[global] Instance global_t_eq_dec : EqDecision global_t.
Proof. solve_decision. Defined.
#[global] Instance Address_eq_dec : EqDecision Address.
Proof. solve_decision. Defined.

(** ** Interfaces of the collaborators *)

(** The persistent store: [read] and [update] (which reports success). *)
Class Database (DB : Type) := {
  db_read : DB -> Address -> Z;
  db_update : DB -> Address -> Z -> bool * DB;
}.

(** The [MidiProgram] and [Bpm] singletons, as operations on their state. *)
Class Globals (G : Type) := {
  MidiProgram_offset : G -> Z;
  MidiProgram_program : G -> Z -> Z;
  MidiProgram_incrementProgram : G -> Z -> Z -> bool * G;
  MidiProgram_decrementProgram : G -> Z -> Z -> bool * G;
  MidiProgram_incrementOffset : G -> Z -> bool * G;
  MidiProgram_decrementOffset : G -> Z -> bool * G;
  Bpm_increment : G -> Z -> bool * G;
  Bpm_decrement : G -> Z -> bool * G;
  Bpm_value : G -> Z;
}.

Inductive incDecType_t := OVERFLOW | EDGE.

(** Modelled from the spec: sys::Config::Status (§6: acknowledge, read
    error, write error), declared in the configuration protocol. *)
Inductive Status := ACK | ERROR_READ | ERROR_WRITE.

#[global] Instance Status_eq_dec : EqDecision Status.
Proof. solve_decision. Defined.

(** Build constants and pure helpers declared outside this unit. *)
Record Target := mkTarget {
  (** Collection::SIZE(GROUP_DIGITAL_INPUTS) *)
  DIGITAL_INPUTS : Z;
  (** database::Config::SAX_FINGERING_KEYS *)
  SAX_FINGERING_KEYS : Z;
  (** database::Config::SAX_FINGERING_TABLE_ENTRIES *)
  SAX_FINGERING_TABLE_ENTRIES : Z;
  (** #ifdef PROJECT_TARGET_SAX_REGISTER_CHROMATIC *)
  SAX_REGISTER_CHROMATIC : bool;
  (** #ifdef OPENDECK_DEBUG_SYSEX_TRACE *)
  OPENDECK_DEBUG_SYSEX_TRACE : bool;
  (** ValueIncDecMIDI7Bit::increment(value, step, type) *)
  ValueIncDecMIDI7Bit_increment : Z -> Z -> incDecType_t -> Z;
  (** util::Conversion::SYS_2_DB_SECTION *)
  SYS_2_DB_SECTION : button_t -> button_t;
}.

(** ** The state owned by [Buttons] *)

(** Modelled from the spec: the members of the class, declared in its header
    (§3: pressed bits and latching bits packed in bytes, a 7-bit counter per
    input, a press-reference count and a sounding note per MIDI channel, the
    register-chromatic flag and note).  The per-channel arrays hold bytes,
    like the [uint8_t] locals the source reads them into. *)
Record Buttons := mkButtons {
  _buttonPressed : list Z;
  _lastLatchingState : list Z;
  _incDecValue : list Z;
  _legatoActiveNote : list Z;
  _legatoButtonCount : list Z;
  _saxNoteOn : bool;
  _saxActiveNote : Z;
}.

(** Array access: [a[i]] and [a[i] = v]. *)
Definition at_ (a : list Z) (i : Z) : Z := default 0 (a !! Z.to_nat i).
Definition put (a : list Z) (i v : Z) : list Z := <[Z.to_nat i := v]> a.

Definition with_buttonPressed (a : list Z) (b : Buttons) : Buttons :=
  mkButtons a (_lastLatchingState b) (_incDecValue b) (_legatoActiveNote b)
            (_legatoButtonCount b) (_saxNoteOn b) (_saxActiveNote b).
Definition with_lastLatchingState (a : list Z) (b : Buttons) : Buttons :=
  mkButtons (_buttonPressed b) a (_incDecValue b) (_legatoActiveNote b)
            (_legatoButtonCount b) (_saxNoteOn b) (_saxActiveNote b).
Definition with_incDecValue (a : list Z) (b : Buttons) : Buttons :=
  mkButtons (_buttonPressed b) (_lastLatchingState b) a (_legatoActiveNote b)
            (_legatoButtonCount b) (_saxNoteOn b) (_saxActiveNote b).
Definition with_legatoActiveNote (a : list Z) (b : Buttons) : Buttons :=
  mkButtons (_buttonPressed b) (_lastLatchingState b) (_incDecValue b) a
            (_legatoButtonCount b) (_saxNoteOn b) (_saxActiveNote b).
Definition with_legatoButtonCount (a : list Z) (b : Buttons) : Buttons :=
  mkButtons (_buttonPressed b) (_lastLatchingState b) (_incDecValue b)
            (_legatoActiveNote b) a (_saxNoteOn b) (_saxActiveNote b).
Definition with_sax (on : bool) (note : Z) (b : Buttons) : Buttons :=
  mkButtons (_buttonPressed b) (_lastLatchingState b) (_incDecValue b)
            (_legatoActiveNote b) (_legatoButtonCount b) on note.

(** ** State store *)

Definition setState (index : Z) (s : bool) (b : Buttons) : Buttons :=
  let arrayIndex := u8 (index / 8) in
  let bit := u8 (index - 8 * arrayIndex) in
  with_buttonPressed
    (put (_buttonPressed b) arrayIndex
         (u8 (BIT_WRITE (at_ (_buttonPressed b) arrayIndex) bit s))) b.

Definition state (index : Z) (b : Buttons) : bool :=
  let arrayIndex := u8 (index / 8) in
  let bit := u8 (index - 8 * arrayIndex) in
  BIT_READ (at_ (_buttonPressed b) arrayIndex) bit.

Definition setLatchingState (index : Z) (s : bool) (b : Buttons) : Buttons :=
  let arrayIndex := u8 (index / 8) in
  let bit := u8 (index - 8 * arrayIndex) in
  with_lastLatchingState
    (put (_lastLatchingState b) arrayIndex
         (u8 (BIT_WRITE (at_ (_lastLatchingState b) arrayIndex) bit s))) b.

Definition latchingState (index : Z) (b : Buttons) : bool :=
  let arrayIndex := u8 (index / 8) in
  let bit := u8 (index - 8 * arrayIndex) in
  BIT_READ (at_ (_lastLatchingState b) arrayIndex) bit.

Definition reset (index : Z) (b : Buttons) : Buttons :=
  setLatchingState index false (setState index false b).

(** ** Register-chromatic engine: the pure part *)

(** [popcount32]: the [while (v)] loop, one iteration per unit of fuel. *)
Fixpoint popcount_loop (fuel : nat) (v c : Z) : Z :=
  match fuel with
  | O => c
  | S fuel' =>
      if v =? 0 then c
      else popcount_loop fuel' (Z.shiftr v 1) (u8 (c + u8 (Z.land v 1)))
  end.

(** A [uint32_t] is zero after at most 32 right shifts. *)
Definition popcount32 (v : Z) : Z := popcount_loop 32 v 0.

Definition saxPressed (b : Buttons) (invertInputs : bool) (i : Z) : bool :=
  let pressed := state i b in
  if invertInputs then negb pressed else pressed.

(** [for (i = digitalCount - 1; i >= 0; i--) if (saxPressed(i)) { activeKey = i; break; }]
    starting from [activeKey = -1]. *)
Fixpoint highestPressed (pressed : Z -> bool) (n : nat) : Z :=
  match n with
  | O => -1
  | S k => if pressed (Z.of_nat k) then Z.of_nat k else highestPressed pressed k
  end.

(** [for (i = 0; i < saxKeyCount; i++) if (saxPressed(i)) currentMask |= (1UL << i);] *)
Definition buildMask (pressed : Z -> bool) (saxKeyCount : Z) : Z :=
  foldl (fun m i => if pressed i then u32 (Z.lor m (u32 (Z.shiftl 1 i))) else m)
        0 (seqZ 0 saxKeyCount).

(** The locals of the fingering-table loop that survive an iteration. *)
Record Scan := mkScan {
  anyEnabled : bool;
  hasMatch : bool;
  bestScore : Z;
  bestNote : Z;
}.

Definition clampNote (noteWide : Z) : Z :=
  if noteWide <? 0 then 0 else if 127 <? noteWide then 127 else noteWide.

(** ** The engine *)

Section Engine.
Context {DB G : Type} `{!Database DB} `{!Globals G} (T : Target).

(** Everything a call can read or change. *)
Record World := mkWorld {
  buttons : Buttons;
  database : DB;
  globals : G;
}.

(** A call returns a result, the world after it, and what it published on
    the bus, in order. *)
Definition M (A : Type) : Type := World -> A * World * list Publication.

#[global] Instance M_ret : MRet M := fun A a w => (a, w, []).
#[global] Instance M_bind : MBind M := fun A B f m w =>
  let '(a, w1, o1) := m w in
  let '(b, w2, o2) := f a w1 in
  (b, w2, o1 ++ o2).

Definition notify (t : messaging.eventType_t) (e : messaging.Event) : M unit :=
  fun w => (tt, w, [(t, e)]).
Definition getButtons : M Buttons := fun w => (buttons w, w, []).
Definition modifyButtons (f : Buttons -> Buttons) : M unit :=
  fun w => (tt, mkWorld (f (buttons w)) (database w) (globals w), []).
Definition read (a : Address) : M Z :=
  fun w => (db_read (database w) a, w, []).
Definition update (a : Address) (v : Z) : M bool :=
  fun w => let '(ok, db') := db_update (database w) a v in
           (ok, mkWorld (buttons w) db' (globals w), []).
Definition getGlobals : M G := fun w => (globals w, w, []).
Definition onGlobals (f : G -> bool * G) : M bool :=
  fun w => let '(ok, g') := f (globals w) in
           (ok, mkWorld (buttons w) (database w) g', []).

Definition result {A} (r : A * World * list Publication) : A := r.1.1.
Definition after {A} (r : A * World * list Publication) : World := r.1.2.
Definition published {A} (r : A * World * list Publication) : list Publication := r.2.

(** *** processSaxRegisterChromatic *)

Definition saxChannel : M Z :=
  raw ← read MIDI_SETTINGS_GLOBAL_CHANNEL;
  let raw := u8 raw in
  if (1 <=? raw) && (raw <=? 16) then mret (u8 (raw - 1)) else mret 0.

Definition saxKeyCount : Z :=
  if DIGITAL_INPUTS T <? SAX_FINGERING_KEYS T
  then DIGITAL_INPUTS T else SAX_FINGERING_KEYS T.

Definition HI_BITS : Z := u8 (SAX_FINGERING_KEYS T - 14).
Definition HI_MASK : Z := u16 (u32 (u32 (Z.shiftl 1 HI_BITS) - 1)).
Definition ENABLE_MASK : Z := u16 (u32 (Z.shiftl 1 HI_BITS)).

(** [(hiEn & ENABLE_MASK) != 0] for one table entry. *)
Definition entryEnabled (db : DB) (entry : Z) : bool :=
  let hiEn := u16 (db_read db (global SAX_FINGERING_MASK_HI10_ENABLE entry)) in
  negb (Z.land hiEn ENABLE_MASK =? 0).

(** The entry's mask, restricted to the active key count. *)
Definition entryMask (db : DB) (entry : Z) : Z :=
  let hiEn := u16 (db_read db (global SAX_FINGERING_MASK_HI10_ENABLE entry)) in
  let lo14 := u16 (db_read db (global SAX_FINGERING_MASK_LO14 entry)) in
  let hi := u16 (Z.land hiEn HI_MASK) in
  let mask := Z.lor (u32 lo14) (u32 (Z.shiftl (u32 hi) 14)) in
  if saxKeyCount <? SAX_FINGERING_KEYS T then
    let allowedMask :=
      if saxKeyCount =? 0 then 0 else u32 (u32 (Z.shiftl 1 saxKeyCount) - 1) in
    Z.land mask allowedMask
  else
    Z.land mask (if 32 <=? SAX_FINGERING_KEYS T then 4294967295
                 else u32 (u32 (Z.shiftl 1 (SAX_FINGERING_KEYS T)) - 1)).

Definition entryNote (db : DB) (entry : Z) : Z :=
  u16 (db_read db (global SAX_FINGERING_NOTE entry)).

(** One iteration of the loop over the table entries. *)
Definition scanEntry (db : DB) (currentMask : Z) (acc : Scan) (entry : Z) : Scan :=
  if negb (entryEnabled db entry) then acc
  else
    let acc := mkScan true (hasMatch acc) (bestScore acc) (bestNote acc) in
    let mask := entryMask db entry in
    if negb (Z.land mask currentMask =? mask) then acc
    else
      let score := popcount32 mask in
      if negb (hasMatch acc) || (bestScore acc <? score) then
        let noteWide := entryNote db entry in
        if 127 <? noteWide then acc
        else mkScan true true score (u8 noteWide)
      else acc.

Definition scanTable (db : DB) (currentMask : Z) : Scan :=
  foldl (scanEntry db currentMask) (mkScan false false 0 0)
        (seqZ 0 (SAX_FINGERING_TABLE_ENTRIES T)).

Definition saxNoteOff (channel note : Z) : messaging.Event :=
  messaging.with_message midi.NOTE_OFF
    (messaging.with_value 0
      (messaging.with_index note
        (messaging.with_channel channel
          (messaging.with_componentIndex 0 messaging.empty)))).

Definition saxNoteOn (channel note : Z) : messaging.Event :=
  messaging.with_message midi.NOTE_ON
    (messaging.with_value 127
      (messaging.with_index note
        (messaging.with_channel channel
          (messaging.with_componentIndex 0 messaging.empty)))).

(** [if (_saxNoteOn) { notify(NOTE_OFF of _saxActiveNote); _saxNoteOn = false; } return;] *)
Definition saxSilence (channel : Z) : M unit :=
  b ← getButtons;
  if _saxNoteOn b then
    notify messaging.BUTTON (saxNoteOff channel (_saxActiveNote b));;
    modifyButtons (with_sax false (_saxActiveNote b))
  else mret tt.

(** The tail shared by both modes: nothing when the target is already
    sounding, otherwise Note Off of the old note (if any), Note On of the
    new one, and the new note recorded. *)
Definition saxSound (channel noteWide : Z) : M unit :=
  let newNote := u8 (clampNote noteWide) in
  b ← getButtons;
  if _saxNoteOn b && (_saxActiveNote b =? newNote) then mret tt
  else
    (if _saxNoteOn b
     then notify messaging.BUTTON (saxNoteOff channel (_saxActiveNote b))
     else mret tt);;
    notify messaging.BUTTON (saxNoteOn channel newNote);;
    modifyButtons (with_sax true newNote).

Definition processSaxRegisterChromatic : M unit :=
  base ← read (SYSTEM_SETTINGS SAX_REGISTER_CHROMATIC_BASE_NOTE);
  let base := u8 base in
  transposeRaw ← read (SYSTEM_SETTINGS SAX_REGISTER_CHROMATIC_TRANSPOSE);
  let transposeRaw := u16 transposeRaw in
  let transpose := i16 (i16 transposeRaw - 24) in
  invert ← read (SYSTEM_SETTINGS SAX_REGISTER_CHROMATIC_INPUT_INVERT);
  let invertInputs := negb (invert =? 0) in
  let digitalCount := DIGITAL_INPUTS T in
  b ← getButtons;
  let activeKey :=
    highestPressed (saxPressed b invertInputs) (Z.to_nat (i32 digitalCount)) in
  channel ← saxChannel;
  let currentMask := buildMask (saxPressed b invertInputs) saxKeyCount in
  db ← (fun w => (database w, w, []));
  let scan := scanTable db currentMask in
  if anyEnabled scan then
    if negb (hasMatch scan) || (currentMask =? 0) then saxSilence channel
    else saxSound channel (i16 (i16 (bestNote scan) + transpose))
  else if activeKey <? 0 then saxSilence channel
  else
    mapRaw ← read (button SAX_REGISTER_KEY_MAP activeKey);
    let mapRaw := u8 mapRaw in
    let mappedKey := if mapRaw =? 0 then u16 activeKey else u16 (mapRaw - 1) in
    let mappedKey := if digitalCount <=? mappedKey then u16 activeKey else mappedKey in
    saxSound channel (i16 (i16 base + i16 mappedKey + transpose)).

(** *** sendMessage *)

(** The two multi-value NOTE kinds: step the per-button counter, publish
    only when it changed, Note Off at zero and Note On otherwise. *)
Definition multiValNote (index : Z) (d : Descriptor) (t : incDecType_t)
  : M (bool * messaging.eventType_t * Descriptor) :=
  b ← getButtons;
  let newValue :=
    ValueIncDecMIDI7Bit_increment T (at_ (_incDecValue b) index)
                                  (messaging.value (event d)) t in
  if negb (newValue =? at_ (_incDecValue b) index) then
    let msg := if newValue =? 0 then midi.NOTE_OFF else midi.NOTE_ON in
    modifyButtons (with_incDecValue (put (_incDecValue b) index newValue));;
    mret (true, messaging.BUTTON,
          with_event (messaging.with_value newValue
                        (messaging.with_message msg (event d))) d)
  else mret (false, messaging.BUTTON, d).

Definition multiValCC (index : Z) (d : Descriptor) (t : incDecType_t)
  : M (bool * messaging.eventType_t * Descriptor) :=
  b ← getButtons;
  let newValue :=
    ValueIncDecMIDI7Bit_increment T (at_ (_incDecValue b) index)
                                  (messaging.value (event d)) t in
  if negb (newValue =? at_ (_incDecValue b) index) then
    modifyButtons (with_incDecValue (put (_incDecValue b) index newValue));;
    mret (true, messaging.BUTTON,
          with_event (messaging.with_value newValue (event d)) d)
  else mret (false, messaging.BUTTON, d).

Definition MAX_TOTAL_LEN : Z := 16.
Definition MAX_PAYLOAD_LEN : Z := MAX_TOTAL_LEN - 2.
Definition CUSTOM_SYSEX_WORDS : Z := MAX_TOTAL_LEN / 2.

(** One iteration of the loop that unpacks the stored words. *)
Definition unpackWord (db : DB) (index : Z) (payloadBuf : list Z) (wordIndex : Z)
  : list Z :=
  let word := u16 (db_read db (button (SYSEX_DATA wordIndex) index)) in
  let b0 := u8 (Z.land word 127) in
  let b1 := u8 (Z.land (Z.shiftr word 7) 127) in
  let outIndex0 := u8 (2 * wordIndex) in
  let outIndex1 := u8 (2 * wordIndex + 1) in
  let payloadBuf :=
    if outIndex0 <? MAX_PAYLOAD_LEN then put payloadBuf outIndex0 b0 else payloadBuf in
  if outIndex1 <? MAX_PAYLOAD_LEN then put payloadBuf outIndex1 b1 else payloadBuf.

Definition payloadOf (db : DB) (index : Z) : list Z :=
  foldl (unpackWord db index) (replicate (Z.to_nat MAX_PAYLOAD_LEN) 0)
        (seqZ 0 CUSTOM_SYSEX_WORDS).

(** [sysExBuf] after framing and variable substitution. *)
Definition frameOf (payloadBuf : list Z) (payloadLen varPos varValue : Z) : list Z :=
  let sysExBuf := replicate (Z.to_nat MAX_TOTAL_LEN) 0 in
  let length := u8 (payloadLen + 2) in
  let sysExBuf := put sysExBuf 0 240 in
  let sysExBuf :=
    foldl (fun buf i => put buf (1 + i) (at_ payloadBuf i)) sysExBuf
          (seqZ 0 payloadLen) in
  let sysExBuf := put sysExBuf (1 + payloadLen) 247 in
  if negb (varPos =? 0) && (varPos <? length - 1)
  then put sysExBuf varPos varValue else sysExBuf.

(** [traceBuf[traceLen++] = v] *)
Definition traceByte (acc : list Z * Z) (v : Z) : list Z * Z :=
  (put acc.1 acc.2 v, u8 (acc.2 + 1)).

(** The block under OPENDECK_DEBUG_SYSEX_TRACE: [traceBuf] and [traceLen]
    as the block leaves them. *)
Definition traceOf (index length varPos varValue : Z) (sysExBuf : list Z)
  : list Z * Z :=
  let acc :=
    foldl traceByte (replicate 64 0, 0)
          [240; 125; 79; 68; 1;
           u8 (Z.land index 127); u8 (Z.land length 127);
           u8 (Z.land varPos 127); u8 (Z.land varValue 127)] in
  let traceBytes := if length <? 8 then length else 8 in
  let acc :=
    foldl (fun acc i =>
             traceByte
               (traceByte acc (u8 (Z.land (Z.shiftr (at_ sysExBuf i) 4) 15)))
               (u8 (Z.land (at_ sysExBuf i) 15)))
          acc (seqZ 0 traceBytes) in
  traceByte acc 247.

(** The press column of the switch: [send], [eventType] and the descriptor
    as the case leaves them.  In the CUSTOM_SYS_EX case [payloadBuf],
    [sysExBuf] and [traceBuf] are local to the block of the case: the trace
    event is published inside the block, with [traceBuf] alive, and the
    descriptor leaves the block with [event.sysEx] pointing at [sysExBuf],
    whose lifetime the closing brace of the block has ended.  The call of
    the logging macro LOG_INF is left out. *)
Definition onPress (index : Z) (d : Descriptor)
  : M (bool * messaging.eventType_t * Descriptor) :=
  let ev := event d in
  match messageType d with
  | NOTE | CONTROL_CHANGE | CONTROL_CHANGE_RESET
  | REAL_TIME_CLOCK | REAL_TIME_START | REAL_TIME_CONTINUE | REAL_TIME_STOP
  | REAL_TIME_ACTIVE_SENSING | REAL_TIME_SYSTEM_RESET
  | MMC_PLAY | MMC_STOP | MMC_PAUSE | MMC_RECORD | MMC_PLAY_STOP =>
      mret (true, messaging.BUTTON, d)
  | NOTE_LEGATO =>
      let channel := u8 (Z.land (messaging.channel ev) 15) in
      let newNote := u8 (Z.land (messaging.index ev) 127) in
      b ← getButtons;
      let count := u8 (at_ (_legatoButtonCount b) channel + 1) in
      modifyButtons (with_legatoButtonCount (put (_legatoButtonCount b) channel count));;
      (if 1 <? count then
         let prevNote := at_ (_legatoActiveNote b) channel in
         if negb (prevNote =? newNote) then
           notify messaging.BUTTON
             (messaging.with_message midi.NOTE_OFF
                (messaging.with_value 0 (messaging.with_index prevNote ev)))
         else mret tt
       else mret tt);;
      b ← getButtons;
      modifyButtons (with_legatoActiveNote (put (_legatoActiveNote b) channel newNote));;
      mret (true, messaging.BUTTON,
            with_event (messaging.with_message midi.NOTE_ON ev) d)
  | PROGRAM_CHANGE =>
      g ← getGlobals;
      mret (true, messaging.BUTTON,
            with_event
              (messaging.with_index
                 (Z.land (messaging.index ev + MidiProgram_offset g) 127)
                 (messaging.with_value 0 ev)) d)
  | PROGRAM_CHANGE_INC =>
      ok ← onGlobals (fun g => MidiProgram_incrementProgram g (messaging.channel ev) 1);
      g ← getGlobals;
      mret (ok, messaging.BUTTON,
            with_event
              (messaging.with_index (MidiProgram_program g (messaging.channel ev))
                 (messaging.with_value 0 ev)) d)
  | PROGRAM_CHANGE_DEC =>
      ok ← onGlobals (fun g => MidiProgram_decrementProgram g (messaging.channel ev) 1);
      g ← getGlobals;
      mret (ok, messaging.BUTTON,
            with_event
              (messaging.with_index (MidiProgram_program g (messaging.channel ev))
                 (messaging.with_value 0 ev)) d)
  | MULTI_VAL_INC_RESET_NOTE => multiValNote index d OVERFLOW
  | MULTI_VAL_INC_DEC_NOTE => multiValNote index d EDGE
  | MULTI_VAL_INC_RESET_CC => multiValCC index d OVERFLOW
  | MULTI_VAL_INC_DEC_CC => multiValCC index d EDGE
  | NOTE_OFF_ONLY =>
      mret (true, messaging.BUTTON,
            with_event (messaging.with_message midi.NOTE_OFF
                          (messaging.with_value 0 ev)) d)
  | CONTROL_CHANGE0_ONLY =>
      mret (true, messaging.BUTTON, with_event (messaging.with_value 0 ev) d)
  | BANK_SELECT_PROGRAM_CHANGE =>
      let bank := u16 (Z.land (messaging.value ev) 16383) in
      let bankMsb := u8 (Z.land (Z.shiftr bank 7) 127) in
      let bankLsb := u8 (Z.land bank 127) in
      notify messaging.BUTTON
        (messaging.with_value bankMsb
           (messaging.with_index 0
              (messaging.with_message midi.CONTROL_CHANGE ev)));;
      notify messaging.BUTTON
        (messaging.with_value bankLsb
           (messaging.with_index 32
              (messaging.with_message midi.CONTROL_CHANGE ev)));;
      notify messaging.BUTTON
        (messaging.with_value 0
           (messaging.with_index (Z.land (messaging.index ev) 127)
              (messaging.with_message midi.PROGRAM_CHANGE ev)));;
      mret (false, messaging.BUTTON, d)
  | CUSTOM_SYS_EX =>
      payloadLen ← read (button SYSEX_LENGTH index);
      let payloadLen := u8 payloadLen in
      if (payloadLen =? 0) || (MAX_PAYLOAD_LEN <? payloadLen) then
        mret (false, messaging.BUTTON, d)
      else
        db ← (fun w => (database w, w, []));
        let payloadBuf := payloadOf db index in
        let length := u8 (payloadLen + 2) in
        let varPos := u8 (Z.land (messaging.index ev) 255) in
        let varValue := u8 (Z.land (messaging.value ev) 127) in
        let sysExBuf := frameOf payloadBuf payloadLen varPos varValue in
        (if OPENDECK_DEBUG_SYSEX_TRACE T then
           let '(traceBuf, traceLen) := traceOf index length varPos varValue sysExBuf in
           notify messaging.BUTTON
             (messaging.with_message midi.SYS_EX
                (messaging.with_sysEx (messaging.local traceBuf true) traceLen ev))
         else mret tt);;
        mret (true, messaging.BUTTON,
              with_event
                (messaging.with_message midi.SYS_EX
                   (messaging.with_sysEx (messaging.local sysExBuf false) length ev)) d)
  | PROGRAM_CHANGE_OFFSET_INC =>
      onGlobals (fun g => MidiProgram_incrementOffset g (messaging.value ev));;
      mret (true, messaging.BUTTON, d)
  | PROGRAM_CHANGE_OFFSET_DEC =>
      onGlobals (fun g => MidiProgram_decrementOffset g (messaging.value ev));;
      mret (true, messaging.BUTTON, d)
  | PRESET_CHANGE =>
      mret (true, messaging.SYSTEM,
            with_event (messaging.with_systemMessage
                          messaging.PRESET_CHANGE_DIRECT_REQ ev) d)
  | BPM_INC =>
      ok ← onGlobals (fun g => Bpm_increment g 1);
      g ← getGlobals;
      mret (ok, messaging.BUTTON,
            with_event (messaging.with_index (Bpm_value g)
                          (messaging.with_value 0 ev)) d)
  | BPM_DEC =>
      ok ← onGlobals (fun g => Bpm_decrement g 1);
      g ← getGlobals;
      mret (ok, messaging.BUTTON,
            with_event (messaging.with_index (Bpm_value g)
                          (messaging.with_value 0 ev)) d)
  | NONE => mret (false, messaging.BUTTON, d)
  end.

(** The release column of the switch. *)
Definition onRelease (index : Z) (d : Descriptor)
  : M (bool * messaging.eventType_t * Descriptor) :=
  let ev := event d in
  match messageType d with
  | NOTE =>
      mret (true, messaging.BUTTON,
            with_event (messaging.with_message midi.NOTE_OFF
                          (messaging.with_value 0 ev)) d)
  | NOTE_LEGATO =>
      let channel := u8 (Z.land (messaging.channel ev) 15) in
      b ← getButtons;
      (if 0 <? at_ (_legatoButtonCount b) channel then
         modifyButtons
           (with_legatoButtonCount
              (put (_legatoButtonCount b) channel
                   (u8 (at_ (_legatoButtonCount b) channel - 1))))
       else mret tt);;
      b ← getButtons;
      if at_ (_legatoButtonCount b) channel =? 0 then
        modifyButtons (with_legatoActiveNote (put (_legatoActiveNote b) channel 0));;
        mret (true, messaging.BUTTON,
              with_event
                (messaging.with_message midi.NOTE_OFF
                   (messaging.with_value 0
                      (messaging.with_index (at_ (_legatoActiveNote b) channel) ev))) d)
      else mret (false, messaging.BUTTON, d)
  | CONTROL_CHANGE_RESET =>
      mret (true, messaging.BUTTON, with_event (messaging.with_value 0 ev) d)
  | MMC_RECORD =>
      mret (true, messaging.BUTTON,
            with_event (messaging.with_message midi.MMC_RECORD_STOP ev) d)
  | MMC_PLAY_STOP =>
      mret (true, messaging.BUTTON,
            with_event (messaging.with_message midi.MMC_STOP ev) d)
  | _ => mret (false, messaging.BUTTON, d)
  end.

Definition sendMessage (index : Z) (state : bool) (d : Descriptor) : M Descriptor :=
  '(send, eventType, d) ← (if state then onPress index d else onRelease index d);
  if send : bool then notify eventType (event d);; mret d else mret d.

(** *** processButton *)

Definition processButton (index : Z) (reading : bool) (d : Descriptor) : M Descriptor :=
  b ← getButtons;
  if bool_decide (reading = state index b) then mret d
  else
    modifyButtons (setState index reading);;
    sax ← (if SAX_REGISTER_CHROMATIC T && (index <? DIGITAL_INPUTS T) then
             enable ← read (SYSTEM_SETTINGS SAX_REGISTER_CHROMATIC_ENABLE);
             mret (negb (enable =? 0))
           else mret false);
    if sax : bool then processSaxRegisterChromatic;; mret d
    else if bool_decide (messageType d = NONE) then mret d
    else if bool_decide (type d = LATCHING) && negb (bool_decide (messageType d = NOTE_LEGATO))
    then
      if reading then
        b ← getButtons;
        if latchingState index b then
          modifyButtons (setLatchingState index false);;
          sendMessage index false d
        else
          modifyButtons (setLatchingState index true);;
          sendMessage index true d
      else mret d
    else sendMessage index reading d.

(** *** Descriptor resolver and configuration adapter *)

(** [static_cast<type_t>] of a stored value: the value is cut to the
    [uint8_t] that underlies the enumeration, and 1 is LATCHING.  The unit
    does nothing with a type but compare it with LATCHING, so every other
    byte, the count AMOUNT among them, is kept as MOMENTARY, which it acts
    as. *)
Definition typeOf (v : Z) : type_t := if u8 v =? 1 then LATCHING else MOMENTARY.

(** [INTERNAL_MSG_TO_MIDI_TYPE] and the decoding of the stored message
    kind are tables of the header; they are arguments here. *)
Definition fillDescriptor (messageTypeOf : Z -> messageType_t)
    (INTERNAL_MSG_TO_MIDI_TYPE : messageType_t -> midi.messageType_t)
    (index : Z) : M Descriptor :=
  t ← read (button TYPE index);
  mt ← read (button MESSAGE_TYPE index);
  ch ← read (button CHANNEL index);
  id ← read (button MIDI_ID index);
  v ← read (button VALUE index);
  mret (mkDescriptor (typeOf t) (messageTypeOf mt)
          (messaging.with_message (INTERNAL_MSG_TO_MIDI_TYPE (messageTypeOf mt))
             (messaging.with_value v
                (messaging.with_index id
                   (messaging.with_channel ch
                      (messaging.with_componentIndex index messaging.empty)))))).

Definition sysConfigSet (section : button_t) (index value : Z) : M (option Status) :=
  ok ← update (button (SYS_2_DB_SECTION T section) index) value;
  let result := if ok : bool then ACK else ERROR_WRITE in
  (if bool_decide (result = ACK) then
     if bool_decide (section = TYPE) || bool_decide (section = MESSAGE_TYPE)
     then modifyButtons (reset index)
     else mret tt
   else mret tt);;
  mret (Some result).

Definition init (size : nat) : M bool :=
  modifyButtons (fun b => foldl (fun b i => reset i b) b (seqZ 0 (Z.of_nat size)));;
  mret true.

End Engine.

Arguments mkWorld {DB G} _ _ _.
Arguments buttons {DB G} _.
Arguments database {DB G} _.
Arguments globals {DB G} _.

(** A run of the dispatcher: each edge is handed to [processButton] with a
    freshly resolved descriptor; the result lists what each edge published. *)
Fixpoint edges {DB G} `{!Database DB} `{!Globals G} (T : Target)
    (es : list (Z * bool * Descriptor)) (w : @World DB G)
    : list (list Publication) * @World DB G :=
  match es with
  | [] => ([], w)
  | (index, reading, d) :: es' =>
      let r := processButton T index reading d w in
      let '(outs, w') := edges T es' (after r) in
      (published r :: outs, w')
  end.

(** ** Stand-ins used to run the engine on concrete inputs *)

Module Bench.

(** A store kept as a list of written cells, newest first; a cell never
    written reads 0.  Values are limited to 14 bits, which is what the
    configuration protocol can carry: a wider value is refused. *)
Definition Store : Type := list (Address * Z).

Fixpoint lookup_cell (s : Store) (a : Address) : Z :=
  match s with
  | [] => 0
  | (a', v) :: s' => if decide (a' = a) then v else lookup_cell s' a
  end.

#[global] Instance Store_database : Database Store := {|
  db_read := lookup_cell;
  db_update := fun s a v =>
    if (0 <=? v) && (v <=? 16383) then (true, (a, v) :: s) else (false, s);
|}.

(** Modelled from the spec: the program counter, the program offset and the
    tempo, which are singletons defined outside this unit.  Each is a
    clamped counter that refuses a step across its boundary. *)
Record Counters := mkCounters {
  offset : Z;
  program : list Z;
  bpm : Z;
}.

Definition step (lo hi cur delta : Z) : bool * Z :=
  if (lo <=? cur + delta) && (cur + delta <=? hi) then (true, cur + delta)
  else (false, cur).

#[global] Instance Counters_globals : Globals Counters := {|
  MidiProgram_offset := offset;
  MidiProgram_program := fun g ch => at_ (program g) ch;
  MidiProgram_incrementProgram := fun g ch n =>
    let '(ok, p) := step 0 127 (at_ (program g) ch) n in
    (ok, mkCounters (offset g) (put (program g) ch p) (bpm g));
  MidiProgram_decrementProgram := fun g ch n =>
    let '(ok, p) := step 0 127 (at_ (program g) ch) (- n) in
    (ok, mkCounters (offset g) (put (program g) ch p) (bpm g));
  MidiProgram_incrementOffset := fun g n =>
    let '(ok, o) := step 0 127 (offset g) n in
    (ok, mkCounters o (program g) (bpm g));
  MidiProgram_decrementOffset := fun g n =>
    let '(ok, o) := step 0 127 (offset g) (- n) in
    (ok, mkCounters o (program g) (bpm g));
  Bpm_increment := fun g n =>
    let '(ok, v) := step 10 255 (bpm g) n in
    (ok, mkCounters (offset g) (program g) v);
  Bpm_decrement := fun g n =>
    let '(ok, v) := step 10 255 (bpm g) (- n) in
    (ok, mkCounters (offset g) (program g) v);
  Bpm_value := bpm;
|}.

(** Modelled from the spec: the 7-bit step helper, defined outside this
    unit.  OVERFLOW wraps to zero past 127, EDGE holds at 127. *)
Definition increment7 (value stepBy : Z) (t : incDecType_t) : Z :=
  if value + stepBy <=? 127 then value + stepBy
  else match t with OVERFLOW => 0 | EDGE => 127 end.

(** A board with [n] digital inputs, 24 fingering keys and 8 table
    entries; [sax] says whether the register-chromatic code is built in.
    The SysEx trace is not. *)
Definition board (n : Z) (sax : bool) : Target :=
  mkTarget n 24 8 sax false increment7 (fun s => s).

(** The same board built with OPENDECK_DEBUG_SYSEX_TRACE. *)
Definition tracing (n : Z) (sax : bool) : Target :=
  mkTarget n 24 8 sax true increment7 (fun s => s).

Definition counters0 : Counters := mkCounters 0 (replicate 16 0) 120.

(** The state after [init] on a board with up to 64 inputs. *)
Definition buttons0 : Buttons :=
  mkButtons (replicate 9 0) (replicate 9 0) (replicate 64 0)
            (replicate 16 0) (replicate 16 0) false 0.

Definition world0 (s : Store) : World := mkWorld buttons0 s counters0.

Definition descriptor (t : type_t) (m : messageType_t) (out : midi.messageType_t)
    (component ch id v : Z) : Descriptor :=
  mkDescriptor t m
    (messaging.with_message out
       (messaging.with_value v
          (messaging.with_index id
             (messaging.with_channel ch
                (messaging.with_componentIndex component messaging.empty))))).

End Bench.


(** * Vocabulary of the properties *)

(** The body shared by [setState] and [setLatchingState], and the one shared
    by [state] and [latchingState]. *)
Definition packedWrite (a : list Z) (index : Z) (s : bool) : list Z :=
  let arrayIndex := u8 (index / 8) in
  let bit := u8 (index - 8 * arrayIndex) in
  put a arrayIndex (u8 (BIT_WRITE (at_ a arrayIndex) bit s)).

Definition packedRead (a : list Z) (index : Z) : bool :=
  let arrayIndex := u8 (index / 8) in
  let bit := u8 (index - 8 * arrayIndex) in
  BIT_READ (at_ a arrayIndex) bit.

(** [index] addresses a bit of the array, and the byte index fits the
    [uint8_t] the code computes it in. *)
Definition addresses (a : list Z) (index : Z) : Prop :=
  0 <= index < 8 * Z.of_nat (length a) /\ (length a <= 256)%nat.

(** The three events of a bank select, from the configured event. *)
Definition bankSelectEvents (ev : messaging.Event) : list Publication :=
  [ (messaging.BUTTON,
     messaging.with_value (Z.land (Z.shiftr (messaging.value ev) 7) 127)
       (messaging.with_index 0 (messaging.with_message midi.CONTROL_CHANGE ev)));
    (messaging.BUTTON,
     messaging.with_value (Z.land (messaging.value ev) 127)
       (messaging.with_index 32 (messaging.with_message midi.CONTROL_CHANGE ev)));
    (messaging.BUTTON,
     messaging.with_value 0
       (messaging.with_index (Z.land (messaging.index ev) 127)
          (messaging.with_message midi.PROGRAM_CHANGE ev))) ].

(** The copy loop of the framing: [sysExBuf[1 + i] = payloadBuf[i]] for
    [i < n]. *)
Definition copyPayload (payloadBuf sysExBuf : list Z) (n : Z) : list Z :=
  foldl (fun buf i => put buf (1 + i) (at_ payloadBuf i)) sysExBuf (seqZ 0 n).

Definition varPosOf (d : Descriptor) : Z := u8 (Z.land (messaging.index (event d)) 255).

Definition varValueOf (d : Descriptor) : Z := u8 (Z.land (messaging.value (event d)) 127).

(** The frame a CUSTOM_SYS_EX press assembles for a payload length [L]. *)
Definition sysExFrame {DB : Type} `{!Database DB} (db : DB) (index : Z)
    (d : Descriptor) (L : Z) : list Z :=
  frameOf (payloadOf db index) L (varPosOf d) (varValueOf d).

(** The trace frame of a build with OPENDECK_DEBUG_SYSEX_TRACE, byte by
    byte: F0 7D 'O' 'D' 01, the input, the length of the frame, the variable
    position and value (seven bits each), the first eight bytes of the
    frame at most, each as its high and its low nibble, and F7. *)
Definition traceFrame (index len varPos varValue : Z) (frame : list Z) : list Z :=
  [240; 125; 79; 68; 1; index mod 128; len mod 128; varPos mod 128; varValue mod 128]
  ++ flat_map (fun b => [b / 16 mod 16; b mod 16])
              (take (Z.to_nat (Z.min len 8)) frame)
  ++ [247].

Definition legatoChannel (d : Descriptor) : Z :=
  u8 (Z.land (messaging.channel (event d)) 15).

Definition legatoNote (d : Descriptor) : Z :=
  u8 (Z.land (messaging.index (event d)) 127).

(** The Note Off of [note], built from the event of the input that caused it. *)
Definition noteOffOf (note : Z) (ev : messaging.Event) : messaging.Event :=
  messaging.with_message midi.NOTE_OFF
    (messaging.with_value 0 (messaging.with_index note ev)).

Definition noteOnOf (ev : messaging.Event) : messaging.Event :=
  messaging.with_message midi.NOTE_ON ev.

Definition byteCounts (b : Buttons) : Prop :=
  Forall (fun c => 0 <= c < 256) (_legatoButtonCount b).

(** The number of set bits among the low [n] bits of [v]. *)
Fixpoint bitsSet (n : nat) (v : Z) : Z :=
  match n with
  | O => 0
  | S k => Z.b2z (Z.testbit v 0) + bitsSet k (Z.shiftr v 1)
  end.

(** The two events of the register-chromatic voice, field by field:
    component 0, the channel, the note, velocity 127 for a Note On and 0
    for a Note Off, and nothing else set. *)
Definition voiceOn (channel note : Z) : messaging.Event :=
  messaging.mkEvent 0 channel note 127 messaging.nullptr 0 false
                    messaging.NO_SYSTEM_MESSAGE midi.NOTE_ON.

Definition voiceOff (channel note : Z) : messaging.Event :=
  messaging.mkEvent 0 channel note 0 messaging.nullptr 0 false
                    messaging.NO_SYSTEM_MESSAGE midi.NOTE_OFF.

(** What a change of target publishes: nothing when the target is already
    sounding, otherwise the Note Off of the sounding note, if any, and then
    the Note On of the target. *)
Definition transition (channel : Z) (b : Buttons) (target : Z) : list Publication :=
  if _saxNoteOn b && (_saxActiveNote b =? target) then []
  else (if _saxNoteOn b
        then [(messaging.BUTTON, voiceOff channel (_saxActiveNote b))] else [])
       ++ [(messaging.BUTTON, voiceOn channel target)].

(** What silence publishes: the Note Off of the sounding note, if any. *)
Definition silence (channel : Z) (b : Buttons) : list Publication :=
  if _saxNoteOn b
  then [(messaging.BUTTON, voiceOff channel (_saxActiveNote b))] else [].

Section FrameWords.
Context {DB G : Type} `{!Database DB} `{!Globals G} (T : Target).

(** The parts of the world no message kind touches. *)
Definition sameStore (w w' : @World DB G) : Prop :=
  _buttonPressed (buttons w') = _buttonPressed (buttons w) /\
  _lastLatchingState (buttons w') = _lastLatchingState (buttons w) /\
  database w' = database w.

End FrameWords.

Section DispatchWords.
Context {DB G : Type} `{!Database DB} `{!Globals G} (T : Target).

(** The register-chromatic override takes the edges of [index]. *)
Definition overridden (index : Z) (w : @World DB G) : bool :=
  SAX_REGISTER_CHROMATIC T && (index <? DIGITAL_INPUTS T)
  && negb (db_read (database w) (SYSTEM_SETTINGS SAX_REGISTER_CHROMATIC_ENABLE) =? 0).

Definition commit (index : Z) (reading : bool) (w : @World DB G) : World :=
  mkWorld (setState index reading (buttons w)) (database w) (globals w).

Definition latch (index : Z) (s : bool) (w : @World DB G) : World :=
  mkWorld (setLatchingState index s (buttons w)) (database w) (globals w).

(** What [processButton] does with an edge the override leaves alone. *)
Definition translate (index : Z) (reading : bool) (d : Descriptor) : M Descriptor :=
  fun w =>
    if bool_decide (messageType d = NONE) then (d, w, [])
    else if bool_decide (type d = LATCHING)
            && negb (bool_decide (messageType d = NOTE_LEGATO)) then
      if reading then
        let phase := negb (latchingState index (buttons w)) in
        sendMessage T index phase d (latch index phase w)
      else (d, w, [])
    else sendMessage T index reading d w.

End DispatchWords.

Section LatchingWords.
Context {DB G : Type} `{!Database DB} `{!Globals G} (T : Target).

(** One press followed by one release of the same input. *)
Definition pressRelease (index : Z) (d : Descriptor) (w : @World DB G) : World :=
  after (processButton T index false d (after (processButton T index true d w))).

(** What the toggle needs of a world: the override leaves the input
    alone, the input is released, and its bits exist. *)
Definition idle (index : Z) (w : @World DB G) : Prop :=
  overridden T index w = false /\
  addresses (_buttonPressed (buttons w)) index /\
  addresses (_lastLatchingState (buttons w)) index /\
  state index (buttons w) = false.

End LatchingWords.

Section LegatoWords.
Context {DB G : Type} `{!Database DB} `{!Globals G} (T : Target).

(** A release edge of a NOTE_LEGATO input that is at hand in [w]. *)
Definition releasable (ch : Z) (w : @World DB G) (e : Z * bool * Descriptor) : Prop :=
  e.1.2 = false /\ messageType e.2 = NOTE_LEGATO /\ legatoChannel e.2 = ch
  /\ state e.1.1 (buttons w) = true /\ 0 <= e.1.1 < 2048
  /\ overridden T e.1.1 w = false.

End LegatoWords.

Section SaxWords.
Context {DB G : Type} `{!Database DB} `{!Globals G} (T : Target).

(** [processSaxRegisterChromatic] without the plumbing. *)
Definition saxBase (db : DB) : Z :=
  u8 (db_read db (SYSTEM_SETTINGS SAX_REGISTER_CHROMATIC_BASE_NOTE)).

Definition saxTranspose (db : DB) : Z :=
  i16 (i16 (u16 (db_read db (SYSTEM_SETTINGS SAX_REGISTER_CHROMATIC_TRANSPOSE))) - 24).

Definition saxInvert (db : DB) : bool :=
  negb (db_read db (SYSTEM_SETTINGS SAX_REGISTER_CHROMATIC_INPUT_INVERT) =? 0).

Definition saxKeys (w : @World DB G) : Z -> bool :=
  saxPressed (buttons w) (saxInvert (database w)).

Definition saxMask (w : @World DB G) : Z := buildMask (saxKeys w) (saxKeyCount T).

Definition saxActiveKey (w : @World DB G) : Z :=
  highestPressed (saxKeys w) (Z.to_nat (i32 (DIGITAL_INPUTS T))).

Definition saxChannelOf (db : DB) : Z :=
  let raw := u8 (db_read db MIDI_SETTINGS_GLOBAL_CHANNEL) in
  if (1 <=? raw) && (raw <=? 16) then u8 (raw - 1) else 0.

Definition saxMapped (w : @World DB G) : Z :=
  let activeKey := saxActiveKey w in
  let mapRaw := u8 (db_read (database w) (button SAX_REGISTER_KEY_MAP activeKey)) in
  let mappedKey := if mapRaw =? 0 then u16 activeKey else u16 (mapRaw - 1) in
  if DIGITAL_INPUTS T <=? mappedKey then u16 activeKey else mappedKey.

End SaxWords.

Section ModeWords.
Context {DB G : Type} `{!Database DB} `{!Globals G} (T : Target).

Definition tableMode (db : DB) : Prop :=
  exists e, 0 <= e < SAX_FINGERING_TABLE_ENTRIES T /\ entryEnabled T db e = true.

Definition legacyMode (db : DB) : Prop :=
  forall e, 0 <= e < SAX_FINGERING_TABLE_ENTRIES T -> entryEnabled T db e = false.

(** A key counts as pressed when its pressed bit differs from the
    input-invert setting. *)
Definition countsAsPressed (w : @World DB G) (i : Z) : bool :=
  xorb (state i (buttons w))
       (negb (db_read (database w)
                (SYSTEM_SETTINGS SAX_REGISTER_CHROMATIC_INPUT_INVERT) =? 0)).

(** [k] is the highest-index digital key that counts as pressed. *)
Definition activeKey (w : @World DB G) (k : Z) : Prop :=
  0 <= k < DIGITAL_INPUTS T /\ countsAsPressed w k = true
  /\ forall j, k < j < DIGITAL_INPUTS T -> countsAsPressed w j = false.

(** The remap table: 0 is identity, otherwise stored - 1, and identity
    again when that is not a digital input. *)
Definition remap (db : DB) (k : Z) : Z :=
  let stored := db_read db (button SAX_REGISTER_KEY_MAP k) in
  if decide (stored = 0) then k
  else if decide (DIGITAL_INPUTS T <= stored - 1) then k
  else stored - 1.

End ModeWords.

Section ScanWords.
Context {DB : Type} `{!Database DB} (T : Target) (db : DB) (currentMask : Z).

Definition entryScore (entry : Z) : Z := popcount32 (entryMask T db entry).

(** An entry the scan can choose: enabled, its mask within the current
    mask, and a note that is set (0 to 127). *)
Definition qualifies (entry : Z) : bool :=
  entryEnabled T db entry
  && (Z.land (entryMask T db entry) currentMask =? entryMask T db entry)
  && (entryNote db entry <=? 127).

Definition scanUpTo (n : nat) : Scan :=
  foldl (scanEntry T db currentMask) (mkScan false false 0 0) (seqZ 0 (Z.of_nat n)).

(** What the scan holds after [n] iterations: no qualifying entry so far,
    or the first of the qualifying entries with the highest score. *)
Definition chosen (n : nat) (acc : Scan) (e : Z) : Prop :=
  0 <= e < Z.of_nat n /\ qualifies e = true
  /\ bestNote acc = u8 (entryNote db e) /\ bestScore acc = entryScore e
  /\ (forall e', 0 <= e' < Z.of_nat n -> qualifies e' = true ->
      entryScore e' <= entryScore e)
  /\ (forall e', 0 <= e' < e -> qualifies e' = true -> entryScore e' < entryScore e).

(** The entry that supplies the note: it qualifies, no qualifying entry
    has a higher score, and no earlier qualifying entry has the same. *)
Definition winner (e : Z) : Prop :=
  0 <= e < SAX_FINGERING_TABLE_ENTRIES T /\ qualifies e = true
  /\ forall e', 0 <= e' < SAX_FINGERING_TABLE_ENTRIES T -> qualifies e' = true ->
       entryScore e' <= entryScore e /\ (entryScore e' = entryScore e -> e <= e').

End ScanWords.

(** [winner], checked by running through the entries. *)
Definition isWinner {DB : Type} `{!Database DB} (T : Target) (db : DB)
    (currentMask e : Z) : bool :=
  (0 <=? e) && (e <? SAX_FINGERING_TABLE_ENTRIES T)
  && qualifies T db currentMask e
  && forallb (fun e' =>
                negb (qualifies T db currentMask e')
                || (entryScore T db e' <? entryScore T db e)
                || ((entryScore T db e' =? entryScore T db e) && (e <=? e')))
             (seqZ 0 (SAX_FINGERING_TABLE_ENTRIES T)).

Definition sysexStore : Bench.Store :=
  [ (button SYSEX_LENGTH 0, 3);
    (button (SYSEX_DATA 0) 0, 513);
    (button (SYSEX_DATA 1) 0, 3) ].

Definition legatoButton (component ch note : Z) : Descriptor :=
  Bench.descriptor MOMENTARY NOTE_LEGATO midi.NOTE_ON component ch note 100.

(** Register-chromatic mode switched on, base note 60, no transposition
    (stored 24), global channel 1. *)
Definition saxStore : Bench.Store :=
  [ (SYSTEM_SETTINGS SAX_REGISTER_CHROMATIC_ENABLE, 1);
    (SYSTEM_SETTINGS SAX_REGISTER_CHROMATIC_BASE_NOTE, 60);
    (SYSTEM_SETTINGS SAX_REGISTER_CHROMATIC_TRANSPOSE, 24);
    (MIDI_SETTINGS_GLOBAL_CHANNEL, 1) ].

(** A table of two entries on top of [saxStore]: masks are given by their
    low 14 bits, and 1024 is the enable bit of a 24-key build. *)
Definition tableStore (mask0 note0 mask1 note1 : Z) : Bench.Store :=
  [ (global SAX_FINGERING_MASK_HI10_ENABLE 0, 1024);
    (global SAX_FINGERING_MASK_LO14 0, mask0);
    (global SAX_FINGERING_NOTE 0, note0);
    (global SAX_FINGERING_MASK_HI10_ENABLE 1, 1024);
    (global SAX_FINGERING_MASK_LO14 1, mask1);
    (global SAX_FINGERING_NOTE 1, note1) ] ++ saxStore.

(** Keys 0, 1 and 2 pressed, nothing sounding. *)
Definition keys012 (s : Bench.Store) : World :=
  mkWorld (setState 2 true (setState 1 true (setState 0 true Bench.buttons0)))
          s Bench.counters0.

(** * The update loop, the listeners and the table capture *)

(** Collection::SIZE() and Collection::START_INDEX(group) of the I/O
    collections, declared outside this unit. *)
Record Collection := mkCollection {
  SIZE : Z;
  START_INDEX_ANALOG_INPUTS : Z;
  START_INDEX_TOUCHSCREEN_COMPONENTS : Z;
}.

(** The two tables [fillDescriptor] goes through: the decoding of the stored
    message kind and [INTERNAL_MSG_TO_MIDI_TYPE]. *)
Record Tables := mkTables {
  messageTypeOf : Z -> messageType_t;
  INTERNAL_MSG_TO_MIDI_TYPE : messageType_t -> midi.messageType_t;
}.

(** The hardware abstraction of the inputs.  [state(index, numberOfReadings,
    states)] answers false, or true with the number of buffered readings
    and their bits (newest reading in bit 0). *)
Class Hwa (H : Type) := {
  hwa_state : H -> Z -> option (Z * Z) * H;
  hwa_buttonToEncoderIndex : H -> Z -> Z;
}.

(** The debouncing filter.  [isFiltered(index, state)] says whether the
    reading is to be processed; the second component is the reading as the
    call leaves it, the third the filter after the call. *)
Class Filter (F : Type) := {
  filter_isFiltered : F -> Z -> bool -> bool * bool * F;
}.

Section Update.
Context {DB G H F : Type} `{!Database DB} `{!Globals G} `{!Hwa H} `{!Filter F}.
Context (T : Target) (C : Collection) (tables : Tables).

(** The engine together with the two collaborators of the update loop. *)
Record Rig := mkRig {
  rig_world : @World DB G;
  rig_hwa : H;
  rig_filter : F;
}.

Definition maxComponentUpdateIndex : Z := DIGITAL_INPUTS T.

(** [bool Buttons::state(size_t index, uint8_t& numberOfReadings, uint16_t& states)] *)
Definition state_readings (index : Z) (r : Rig) : option (Z * Z) * Rig :=
  if negb (db_read (database (rig_world r))
             (encoder_ENABLE (hwa_buttonToEncoderIndex (rig_hwa r) index)) =? 0)
  then (None, r)
  else
    let '(answer, h) := hwa_state (rig_hwa r) index in
    (answer, mkRig (rig_world r) h (rig_filter r)).

(** The forced-refresh branch, which [updateSingle] and the ANALOG_BUTTON
    listener share: the stored state is sent again, the latching bit for a
    LATCHING input and the pressed bit otherwise. *)
Definition resend (index : Z) (d : Descriptor) : M Descriptor :=
  b ← getButtons;
  if bool_decide (type d = LATCHING)
  then sendMessage T index (latchingState index b) d
  else sendMessage T index (state index b) d.

(** One iteration of the loop over the buffered readings; the descriptor is
    the one object all iterations work on. *)
Definition processReading (index numberOfReadings states : Z)
    (acc : Descriptor * Rig * list Publication) (reading : Z)
    : Descriptor * Rig * list Publication :=
  let '(d, r, out) := acc in
  let processIndex := u8 (numberOfReadings - 1 - reading) in
  let state := negb (Z.land (Z.shiftr states processIndex) 1 =? 0) in
  let '(accepted, state, f) := filter_isFiltered (rig_filter r) index state in
  if negb accepted then (d, mkRig (rig_world r) (rig_hwa r) f, out)
  else
    let '(d', w, o) := processButton T index state d (rig_world r) in
    (d', mkRig w (rig_hwa r) f, out ++ o).

Definition updateSingle (index : Z) (forceRefresh : bool) (r : Rig)
  : Rig * list Publication :=
  if maxComponentUpdateIndex <=? index then (r, [])
  else if negb forceRefresh then
    match state_readings index r with
    | (None, r) => (r, [])
    | (Some (numberOfReadings, states), r) =>
        let numberOfReadings := u8 numberOfReadings in
        let states := u16 states in
        let '(d, w, o) :=
          fillDescriptor (messageTypeOf tables) (INTERNAL_MSG_TO_MIDI_TYPE tables)
                         index (rig_world r) in
        let '(_, r', out) :=
          foldl (processReading index numberOfReadings states)
                (d, mkRig w (rig_hwa r) (rig_filter r), o)
                (seqZ 0 numberOfReadings) in
        (r', out)
    end
  else
    let '(_, w, o) :=
      (d ← fillDescriptor (messageTypeOf tables) (INTERNAL_MSG_TO_MIDI_TYPE tables) index;
       resend index d) (rig_world r) in
    (mkRig w (rig_hwa r) (rig_filter r), o).

Definition updateAll (forceRefresh : bool) (r : Rig) : Rig * list Publication :=
  foldl (fun acc i =>
           let '(r', o) := updateSingle i forceRefresh acc.1 in (r', acc.2 ++ o))
        (r, []) (seqZ 0 (DIGITAL_INPUTS T)).

(** The listener of ANALOG_BUTTON events. *)
Definition onAnalogButton (e : messaging.Event) : M Descriptor :=
  let index := messaging.componentIndex e + START_INDEX_ANALOG_INPUTS C in
  d ← fillDescriptor (messageTypeOf tables) (INTERNAL_MSG_TO_MIDI_TYPE tables) index;
  if negb (messaging.forcedRefresh e)
  then processButton T index (negb (messaging.value e =? 0)) d
  else resend index d.

(** The listener of TOUCHSCREEN_BUTTON events. *)
Definition onTouchscreenButton (e : messaging.Event) : M Descriptor :=
  let index := messaging.componentIndex e + START_INDEX_TOUCHSCREEN_COMPONENTS C in
  d ← fillDescriptor (messageTypeOf tables) (INTERNAL_MSG_TO_MIDI_TYPE tables) index;
  processButton T index (negb (messaging.value e =? 0)) d.

(** The listener of SYSTEM events. *)
Definition onSystem (e : messaging.Event) (r : Rig) : Rig * list Publication :=
  match messaging.systemMessage e with
  | messaging.FORCE_IO_REFRESH => updateAll true r
  | _ => (r, [])
  end.

(** [ok &= update(...)] evaluates every update, whatever [ok] holds. *)
Definition captureSaxFingeringTableEntry (entryIndex noteValue : Z) : @M DB G bool :=
  if SAX_FINGERING_TABLE_ENTRIES T <=? entryIndex then mret false
  else
    invert ← read (SYSTEM_SETTINGS SAX_REGISTER_CHROMATIC_INPUT_INVERT);
    let invertInputs := negb (invert =? 0) in
    b ← getButtons;
    let currentMask := buildMask (saxPressed b invertInputs) (saxKeyCount T) in
    let lo14 := u16 (Z.land currentMask 16383) in
    let hi := u16 (Z.land (Z.shiftr currentMask 14) (HI_MASK T)) in
    let hiEn := u16 (Z.lor hi (ENABLE_MASK T)) in
    ok1 ← update (global SAX_FINGERING_MASK_LO14 entryIndex) lo14;
    ok2 ← update (global SAX_FINGERING_MASK_HI10_ENABLE entryIndex) hiEn;
    if noteValue <=? 127 then
      ok3 ← update (global SAX_FINGERING_NOTE entryIndex) noteValue;
      mret (ok1 && ok2 && ok3)
    else mret (ok1 && ok2).

End Update.

Arguments mkRig {DB G H F} _ _ _.
Arguments rig_world {DB G H F} _.
Arguments rig_hwa {DB G H F} _.
Arguments rig_filter {DB G H F} _.

(** The loop of [init], after [n] iterations. *)
Definition resetUpTo (n : nat) (b : Buttons) : Buttons :=
  foldl (fun b i => reset i b) b (seqZ 0 (Z.of_nat n)).

(** The message kinds whose release publishes. *)
Definition releaseKinds : list messageType_t :=
  [NOTE; NOTE_LEGATO; CONTROL_CHANGE_RESET; MMC_RECORD; MMC_PLAY_STOP].

(** The four kinds that step the per-input counter. *)
Definition multiValueKinds : list messageType_t :=
  [MULTI_VAL_INC_RESET_NOTE; MULTI_VAL_INC_DEC_NOTE;
   MULTI_VAL_INC_RESET_CC; MULTI_VAL_INC_DEC_CC].

(** The step mode and the outbound message of a multi-value kind. *)
Definition stepMode (k : messageType_t) : incDecType_t :=
  match k with
  | MULTI_VAL_INC_RESET_NOTE | MULTI_VAL_INC_RESET_CC => OVERFLOW
  | _ => EDGE
  end.

Definition stepMessage (k : messageType_t) (configured : midi.messageType_t)
    (newValue : Z) : midi.messageType_t :=
  match k with
  | MULTI_VAL_INC_RESET_NOTE | MULTI_VAL_INC_DEC_NOTE =>
      if newValue =? 0 then midi.NOTE_OFF else midi.NOTE_ON
  | _ => configured
  end.

Definition with_type (t : type_t) (d : Descriptor) : Descriptor :=
  mkDescriptor t (messageType d) (event d).

(** The note the register-chromatic engine holds as sounding. *)
Definition saxSounding (b : Buttons) : option Z :=
  if _saxNoteOn b then Some (_saxActiveNote b) else None.

(** A stream of note events read as one voice: a Note On is in order when
    nothing sounds, a Note Off when it names the sounding note.  The
    result is the note left sounding, or [None] for a stream that is not
    monophonic. *)
Fixpoint monophonic (sounding : option Z) (stream : list Publication)
  : option (option Z) :=
  match stream with
  | [] => Some sounding
  | (_, e) :: rest =>
      match messaging.message e, sounding with
      | midi.NOTE_ON, None => monophonic (Some (messaging.index e)) rest
      | midi.NOTE_OFF, Some n =>
          if messaging.index e =? n then monophonic None rest else None
      | _, _ => None
      end
  end.

(** What the register-chromatic engine may publish in a world: a Note On
    of a note from 0 to 127 with velocity 127, or the Note Off of the note
    that sounds, on the global channel. *)
Definition saxEvent {DB G : Type} `{!Database DB} (w : @World DB G)
    (p : Publication) : Prop :=
  p.1 = messaging.BUTTON
  /\ messaging.channel p.2 = saxChannelOf (database w)
  /\ 0 <= messaging.channel p.2 <= 15
  /\ messaging.componentIndex p.2 = 0
  /\ ((messaging.message p.2 = midi.NOTE_ON /\ messaging.value p.2 = 127
       /\ 0 <= messaging.index p.2 <= 127)
      \/ (messaging.message p.2 = midi.NOTE_OFF /\ messaging.value p.2 = 0
          /\ saxSounding (buttons w) = Some (messaging.index p.2))).

(** What the capture and the scan need of the store: a successful update
    is read back, and an update, successful or not, changes no other
    cell. *)
Class DatabaseLaws (DB : Type) `{!Database DB} : Prop := {
  read_updated : forall (db db' : DB) a v,
    db_update db a v = (true, db') -> db_read db' a = v;
  read_other : forall (db db' : DB) a a' v ok,
    db_update db a v = (ok, db') -> a' <> a -> db_read db' a' = db_read db a';
}.

(** What [fillDescriptor] resolves for an input from the store. *)
Definition stored {DB : Type} `{!Database DB} (tables : Tables) (db : DB)
    (index : Z) : Descriptor :=
  mkDescriptor (typeOf (db_read db (button TYPE index)))
    (messageTypeOf tables (db_read db (button MESSAGE_TYPE index)))
    (messaging.with_message
       (INTERNAL_MSG_TO_MIDI_TYPE tables
          (messageTypeOf tables (db_read db (button MESSAGE_TYPE index))))
       (messaging.with_value (db_read db (button VALUE index))
          (messaging.with_index (db_read db (button MIDI_ID index))
             (messaging.with_channel (db_read db (button CHANNEL index))
                (messaging.with_componentIndex index messaging.empty))))).

(** A filter that lets every reading through as it is. *)
Definition passesAll (F : Type) `{!Filter F} : Prop :=
  forall (f : F) (index : Z) (s : bool),
    exists f', filter_isFiltered f index s = (true, s, f').

(** ** Stand-ins for the collaborators of the update loop *)

Module Panel.

(** A port that answers every input with the same buffered readings; two
    inputs share an encoder. *)
Definition Samples : Type := option (Z * Z).

#[global] Instance Samples_hwa : Hwa Samples := {|
  hwa_state := fun h _ => (h, h);
  hwa_buttonToEncoderIndex := fun _ index => index / 2;
|}.

(** A filter that lets every reading through. *)
Definition Through : Type := unit.

#[global] Instance Through_filter : Filter Through := {|
  filter_isFiltered := fun f _ s => (true, s, f);
|}.

(** The decoding of the stored message kind, in the order of the
    enumerators of the header; a value past the last one is read as NONE. *)
Definition kindOf (v : Z) : messageType_t :=
  default NONE
    ([ NOTE; PROGRAM_CHANGE; CONTROL_CHANGE; CONTROL_CHANGE_RESET;
       MMC_STOP; MMC_PLAY; MMC_RECORD; MMC_PAUSE;
       REAL_TIME_CLOCK; REAL_TIME_START; REAL_TIME_CONTINUE; REAL_TIME_STOP;
       REAL_TIME_ACTIVE_SENSING; REAL_TIME_SYSTEM_RESET;
       PROGRAM_CHANGE_INC; PROGRAM_CHANGE_DEC; NONE; PRESET_CHANGE;
       MULTI_VAL_INC_RESET_NOTE; MULTI_VAL_INC_DEC_NOTE;
       MULTI_VAL_INC_RESET_CC; MULTI_VAL_INC_DEC_CC;
       NOTE_OFF_ONLY; CONTROL_CHANGE0_ONLY; BANK_SELECT_PROGRAM_CHANGE;
       PROGRAM_CHANGE_OFFSET_INC; PROGRAM_CHANGE_OFFSET_DEC;
       BPM_INC; BPM_DEC; MMC_PLAY_STOP; NOTE_LEGATO ] !! Z.to_nat v).

(** The outbound message of the kinds used here. *)
Definition outboundOf (k : messageType_t) : midi.messageType_t :=
  match k with
  | NOTE | NOTE_LEGATO => midi.NOTE_ON
  | CONTROL_CHANGE => midi.CONTROL_CHANGE
  | _ => midi.INVALID
  end.

Definition tables : Tables := mkTables kindOf outboundOf.

(** Input 3 configured as a momentary NOTE on channel 1, note 60,
    velocity 127. *)
Definition noteStore : Bench.Store :=
  [ (button MESSAGE_TYPE 3, 0); (button CHANNEL 3, 1);
    (button MIDI_ID 3, 60); (button VALUE 3, 127) ].

(** Input 3 configured as NOTE_LEGATO on channel 1, note 60. *)
Definition legatoStore : Bench.Store :=
  [ (button MESSAGE_TYPE 3, 30); (button CHANNEL 3, 1);
    (button MIDI_ID 3, 60); (button VALUE 3, 100) ].

End Panel.

(** The kinds whose press publishes the configured event and whose release
    publishes a counterpart of it, and that counterpart. *)
Definition pairedKinds : list messageType_t :=
  [NOTE; CONTROL_CHANGE_RESET; MMC_RECORD; MMC_PLAY_STOP].

Definition releaseCounterpart (k : messageType_t) (ev : messaging.Event)
  : messaging.Event :=
  match k with
  | NOTE => messaging.with_message midi.NOTE_OFF (messaging.with_value 0 ev)
  | CONTROL_CHANGE_RESET => messaging.with_value 0 ev
  | MMC_RECORD => messaging.with_message midi.MMC_RECORD_STOP ev
  | MMC_PLAY_STOP => messaging.with_message midi.MMC_STOP ev
  | _ => ev
  end.

(** * The Nextion touchscreen driver *)

Module nextion.

(** The serial port of the display, as far as it is written to: [init],
    [deInit] and [write] of one byte, each reporting success.  What the
    port has received is handed to [update] as the list of bytes that
    [read] delivers before it answers false. *)
Class Hwa (P : Type) := {
  hwa_init : P -> bool * P;
  hwa_deInit : P -> bool * P;
  hwa_write : P -> Z -> bool * P;
}.

(** The four command lines the driver formats. *)
Inductive Command :=
  | Page (index : Z)                      (* "page %u" *)
  | Sendxy                                (* "sendxy=1" *)
  | Picq (x y width height screen : Z)    (* "picq %u,%u,%u,%u,%u" *)
  | Dims (value : Z).                     (* "dims=%d" *)

(** [tsEvent_t], the two enumerators the driver returns. *)
Inductive tsEvent_t := NONE | BUTTON.

(** [Data], the two fields the driver fills. *)
Record Data := mkData {
  buttonState : Z;
  buttonIndex : Z;
}.

(** [Icon], the fields the driver reads. *)
Record Icon := mkIcon {
  xPos : Z;
  yPos : Z;
  width : Z;
  height : Z;
  onScreen : Z;
  offScreen : Z;
}.

(** What the header of the driver declares: the table of known responses
    (size and first byte of each, in the order of [responseId_t]), the
    value of the enumerator [responseId_t::BUTTON], the brightness table,
    and [vsnprintf] on the command buffer, which yields its return value
    and the characters left in the buffer. *)
Record Protocol := mkProtocol {
  RESPONSES : list (Z * Z);
  RESPONSE_BUTTON : Z;
  BRIGHTNESS_MAPPING : Z -> Z;
  vsnprintf : Command -> Z * list Z;
}.

(** The members of the driver and of its base class [Model]. *)
Record State := mkState {
  _rxBuffer : list Z;
  _bufferCount : Z;
  _endCounter : Z;
  _postInitPending : bool;
  _postInitReadyAtMs : Z;
  _pendingScreenValid : bool;
  _pendingScreenIndex : Z;
  _pendingBrightnessValid : bool;
  _pendingBrightness : Z;
}.

Definition with_rx (buf : list Z) (count : Z) (s : State) : State :=
  mkState buf count (_endCounter s) (_postInitPending s) (_postInitReadyAtMs s)
          (_pendingScreenValid s) (_pendingScreenIndex s)
          (_pendingBrightnessValid s) (_pendingBrightness s).
Definition with_endCounter (c : Z) (s : State) : State :=
  mkState (_rxBuffer s) (_bufferCount s) c (_postInitPending s) (_postInitReadyAtMs s)
          (_pendingScreenValid s) (_pendingScreenIndex s)
          (_pendingBrightnessValid s) (_pendingBrightness s).
Definition with_postInit (pending : bool) (readyAt : Z) (s : State) : State :=
  mkState (_rxBuffer s) (_bufferCount s) (_endCounter s) pending readyAt
          (_pendingScreenValid s) (_pendingScreenIndex s)
          (_pendingBrightnessValid s) (_pendingBrightness s).
Definition with_pendingScreen (valid : bool) (index : Z) (s : State) : State :=
  mkState (_rxBuffer s) (_bufferCount s) (_endCounter s) (_postInitPending s)
          (_postInitReadyAtMs s) valid index
          (_pendingBrightnessValid s) (_pendingBrightness s).
Definition with_pendingBrightness (valid : bool) (brightness : Z) (s : State) : State :=
  mkState (_rxBuffer s) (_bufferCount s) (_endCounter s) (_postInitPending s)
          (_postInitReadyAtMs s) (_pendingScreenValid s) (_pendingScreenIndex s)
          valid brightness.

Section Driver.
Context {P : Type} `{!Hwa P} (N : Protocol).

(** The driver and its port. *)
Record Driver := mkDriver {
  display : State;
  port : P;
}.

(** A call returns a result, the driver after it, and the bytes it handed
    to [write], in order. *)
Definition W (A : Type) : Type := Driver -> A * Driver * list Z.

Definition ret {A} (a : A) : W A := fun d => (a, d, []).
Definition bind {A B} (m : W A) (k : A -> W B) : W B := fun d =>
  let '(a, d1, o1) := m d in
  let '(b, d2, o2) := k a d1 in
  (b, d2, o1 ++ o2).
Definition write (c : Z) : W bool := fun d =>
  let '(ok, p) := hwa_write (port d) c in (ok, mkDriver (display d) p, [c]).
Definition getState : W State := fun d => (display d, d, []).
Definition modify (f : State -> State) : W unit := fun d =>
  (tt, mkDriver (f (display d)) (port d), []).

Definition value {A} (r : A * Driver * list Z) : A := r.1.1.
Definition next {A} (r : A * Driver * list Z) : Driver := r.1.2.
Definition sent {A} (r : A * Driver * list Z) : list Z := r.2.

(** [for (...) if (!_hwa.write(c)) return false;] over the characters
    [cs], answering true when the loop runs to its end. *)
Fixpoint writeEach (cs : list Z) : W bool :=
  match cs with
  | [] => ret true
  | c :: cs' => bind (write c) (fun ok => if ok : bool then writeEach cs' else ret false)
  end.

Definition endCommand : W bool := writeEach (replicate 3 255).

Definition writeCommand (line : Command) : W bool :=
  let '(retVal, text) := vsnprintf N line in
  if retVal <? 0 then ret false
  else bind (writeEach text) (fun ok => if ok : bool then endCommand else ret false).

(** [now] is the value [core::mcu::timing::ms()] returns. *)
Definition maybeFinishPostInit (now : Z) : W unit :=
  bind getState (fun s =>
  if negb (_postInitPending s) then ret tt
  else if now <? _postInitReadyAtMs s then ret tt
  else
    bind (modify (with_postInit false (_postInitReadyAtMs s))) (fun _ =>
    bind endCommand (fun _ =>
    bind (writeCommand Sendxy) (fun _ =>
    bind getState (fun s =>
    bind (if _pendingScreenValid s then
            bind (writeCommand (Page (_pendingScreenIndex s))) (fun _ =>
            modify (with_pendingScreen false (_pendingScreenIndex s)))
          else ret tt) (fun _ =>
    bind getState (fun s =>
    if _pendingBrightnessValid s then
      bind (writeCommand (Dims (BRIGHTNESS_MAPPING N (u8 (_pendingBrightness s)))))
           (fun _ => modify (with_pendingBrightness false (_pendingBrightness s)))
    else ret tt))))))).

Definition init (now : Z) : W bool := fun d =>
  let s := with_rx (_rxBuffer (display d)) 0 (display d) in
  let '(ok, p) := hwa_init (port d) in
  if ok then (true, mkDriver (with_postInit true (u32 (now + 1000)) s) p, [])
  else (false, mkDriver s p, []).

Definition deInit : W bool := fun d =>
  let s := with_pendingBrightness false (_pendingBrightness (display d))
             (with_pendingScreen false (_pendingScreenIndex (display d))
                (with_postInit false 0 (display d))) in
  let '(ok, p) := hwa_deInit (port d) in
  (ok, mkDriver s p, []).

Definition setScreen (now index : Z) : W bool :=
  bind (maybeFinishPostInit now) (fun _ =>
  bind getState (fun s =>
  if _postInitPending s then
    bind (modify (with_pendingScreen true index)) (fun _ => ret true)
  else writeCommand (Page index))).

Definition setBrightness (now brightness : Z) : W bool :=
  bind (maybeFinishPostInit now) (fun _ =>
  bind getState (fun s =>
  if _postInitPending s then
    bind (modify (with_pendingBrightness true brightness)) (fun _ => ret true)
  else writeCommand (Dims (BRIGHTNESS_MAPPING N (u8 brightness))))).

Definition setIconState (now : Z) (icon : Icon) (state : bool) : W unit :=
  bind (maybeFinishPostInit now) (fun _ =>
  bind getState (fun s =>
  if _postInitPending s then ret tt
  else if width icon =? 0 then ret tt
  else if height icon =? 0 then ret tt
  else
    bind (writeCommand (Picq (xPos icon) (yPos icon) (width icon) (height icon)
                             (if state then onScreen icon else offScreen icon)))
         (fun _ => ret tt))).

(** The loop of [response]: the first entry of the table whose size is the
    number of bytes received and whose identifier is the first byte. *)
Fixpoint findResponse (table : list (Z * Z)) (i : Z) (s : State) : option Z :=
  match table with
  | [] => None
  | (size, responseId) :: rest =>
      if (_bufferCount s =? size) && (at_ (_rxBuffer s) 0 =? u8 responseId)
      then Some i
      else findResponse rest (i + 1) s
  end.

Definition response (s : State) (data : Data) : tsEvent_t * Data :=
  match findResponse (RESPONSES N) 0 s with
  | Some found =>
      if found =? RESPONSE_BUTTON N
      then (BUTTON, mkData (at_ (_rxBuffer s) 1) (at_ (_rxBuffer s) 2))
      else (NONE, data)
  | None => (NONE, data)
  end.

(** The [while (_hwa.read(value))] loop over the bytes [rx] the port
    delivers: whether a message is complete, the bytes not read, and the
    state.  [_rxBuffer] is an array of [Model::BUFFER_SIZE] bytes, the
    length of the list here, and the source stores every byte at
    [_bufferCount] without a bound check: a store at or past that length
    is out of bounds and leaves what the call does undefined, which is the
    answer [None]. *)
Fixpoint receive (rx : list Z) (s : State) : option (bool * list Z * State) :=
  match rx with
  | [] => Some (false, [], s)
  | byte :: rx' =>
      let value := u8 byte in
      if Z.of_nat (length (_rxBuffer s)) <=? _bufferCount s then None
      else
        let s := with_rx (put (_rxBuffer s) (_bufferCount s) value) (_bufferCount s + 1) s in
        let s := if value =? 255 then with_endCounter (_endCounter s + 1) s
                 else if negb (_endCounter s =? 0) then with_endCounter 0 s
                 else s in
        if _endCounter s =? 3 then Some (true, rx', with_endCounter 0 s)
        else receive rx' s
  end.

(** [update]: the event, the data as the call leaves it, and the bytes
    left unread; [None] when the loop stored out of bounds, in which case
    the driver and the bytes written are those the call had reached before
    the loop. *)
Definition update (now : Z) (rx : list Z) (data : Data)
  : W (option (tsEvent_t * Data * list Z)) :=
  bind (maybeFinishPostInit now) (fun _ =>
  bind getState (fun s =>
  match receive rx s with
  | None => ret None
  | Some (process, rest, s) =>
      if process : bool then
        let retVal := response s data in
        bind (modify (fun _ => with_rx (_rxBuffer s) 0 s))
             (fun _ => ret (Some (retVal, rest)))
      else
        bind (modify (fun _ => s)) (fun _ => ret (Some (NONE, data, rest)))
  end)).

End Driver.

Arguments mkDriver {P} _ _.
Arguments display {P} _.
Arguments port {P} _.

(** ** Stand-ins used to run the driver *)

(** A port that opens and takes every byte. *)
Definition Line : Type := unit.

#[global] Instance Line_hwa : Hwa Line := {|
  hwa_init := fun p => (true, p);
  hwa_deInit := fun p => (true, p);
  hwa_write := fun p _ => (true, p);
|}.

(** Decimal digits of a natural number, as character codes. *)
Fixpoint digits (fuel : nat) (n : Z) (acc : list Z) : list Z :=
  match fuel with
  | O => acc
  | S fuel' =>
      let acc := (48 + n mod 10) :: acc in
      if n / 10 =? 0 then acc else digits fuel' (n / 10) acc
  end.

Definition decimal (n : Z) : list Z := digits 20 n [].

(** The command lines for arguments that are not negative and that fit
    the buffer. *)
Definition print (line : Command) : Z * list Z :=
  let text :=
    match line with
    | Page index => [112; 97; 103; 101; 32] ++ decimal index
    | Sendxy => [115; 101; 110; 100; 120; 121; 61; 49]
    | Picq x y w h screen =>
        [112; 105; 99; 113; 32] ++ decimal x ++ [44] ++ decimal y ++ [44]
        ++ decimal w ++ [44] ++ decimal h ++ [44] ++ decimal screen
    | Dims v => [100; 105; 109; 115; 61] ++ decimal v
    end in
  (Z.of_nat (length text), text).

(** A protocol with one response, a button report of six bytes that
    starts with 0x65, and a brightness table in steps of 25. *)
Definition protocol : Protocol :=
  mkProtocol [(6, 101)] 0 (fun b => 25 * b) print.

Definition state0 : State :=
  mkState (replicate 50 0) 0 0 false 0 false 0 false 0.

End nextion.

(** A port that accepts every byte. *)
Definition accepts (P : Type) `{!nextion.Hwa P} : Prop :=
  forall (p : P) (c : Z), (nextion.hwa_write p c).1 = true.

(** A command line as it goes out: its characters and the terminator. *)
Definition commandBytes (N : nextion.Protocol) (line : nextion.Command) : list Z :=
  (nextion.vsnprintf N line).2 ++ [255; 255; 255].




(** [update] from its loop on, for a driver that the start-up leaves as
    it is. *)
Definition afterLoop {P : Type} `{!nextion.Hwa P} (N : nextion.Protocol)
    (rx : list Z) (data : nextion.Data) (d : @nextion.Driver P)
  : option (nextion.tsEvent_t * nextion.Data * list Z) * @nextion.Driver P * list Z :=
  match nextion.receive rx (nextion.display d) with
  | None => (None, d, [])
  | Some (process, rest, s) =>
      if process : bool then
        (Some (nextion.response N s data, rest),
         nextion.mkDriver (nextion.with_rx (nextion._rxBuffer s) 0 s) (nextion.port d), [])
      else (Some (nextion.NONE, data, rest), nextion.mkDriver s (nextion.port d), [])
  end.

(** * Properties *)

(** ** Arrays and bit-packed arrays *)

Lemma at_put_eq (a : list Z) (i v : Z) :
  (Z.to_nat i < length a)%nat -> at_ (put a i v) i = v.
Proof.
  intros Hi. unfold at_, put. by rewrite list_lookup_insert_eq.
Qed.

Lemma at_put_ne (a : list Z) (i j v : Z) :
  Z.to_nat i <> Z.to_nat j -> at_ (put a i v) j = at_ a j.
Proof.
  intros Hij. unfold at_, put. by rewrite list_lookup_insert_ne.
Qed.

Lemma length_put (a : list Z) (i v : Z) : length (put a i v) = length a.
Proof. apply length_insert. Qed.

Lemma testbit_one_shifted (bit n : Z) :
  0 <= bit -> Z.testbit (Z.shiftl 1 bit) n = bool_decide (n = bit).
Proof.
  intros Hb. rewrite Z.shiftl_1_l, Z.pow2_bits_eqb by done.
  case_bool_decide; [apply Z.eqb_eq | apply Z.eqb_neq]; lia.
Qed.

Lemma testbit_u8 (v n : Z) : 0 <= n < 8 -> Z.testbit (u8 v) n = Z.testbit v n.
Proof.
  intros Hn. unfold u8. change 256 with (2 ^ 8).
  apply Z.mod_pow2_bits_low. lia.
Qed.

Lemma BIT_READ_WRITE_eq (v bit : Z) (s : bool) :
  0 <= bit < 8 -> BIT_READ (u8 (BIT_WRITE v bit s)) bit = s.
Proof.
  intros Hb. unfold BIT_READ, BIT_WRITE. rewrite testbit_u8 by done.
  destruct s.
  - rewrite Z.lor_spec, testbit_one_shifted by lia.
    rewrite bool_decide_eq_true_2 by done. apply orb_true_r.
  - rewrite Z.land_spec, Z.lnot_spec, testbit_one_shifted by lia.
    rewrite bool_decide_eq_true_2 by done. apply andb_false_r.
Qed.

Lemma BIT_READ_WRITE_ne (v bit bit' : Z) (s : bool) :
  0 <= bit < 8 -> 0 <= bit' < 8 -> bit' <> bit ->
  BIT_READ (u8 (BIT_WRITE v bit s)) bit' = BIT_READ v bit'.
Proof.
  intros Hb Hb' Hne. unfold BIT_READ, BIT_WRITE. rewrite testbit_u8 by done.
  destruct s.
  - rewrite Z.lor_spec, testbit_one_shifted by lia.
    rewrite bool_decide_eq_false_2 by done. apply orb_false_r.
  - rewrite Z.land_spec, Z.lnot_spec, testbit_one_shifted by lia.
    rewrite bool_decide_eq_false_2 by done. apply andb_true_r.
Qed.

Lemma packed_slot (index : Z) :
  0 <= index < 2048 ->
  u8 (index / 8) = index / 8 /\
  u8 (index - 8 * u8 (index / 8)) = index mod 8.
Proof.
  intros Hi. unfold u8.
  assert (H1 : (index / 8) mod 256 = index / 8)
    by (apply Z.mod_small; Z.div_mod_to_equations; lia).
  rewrite H1. split; [done|].
  Z.div_mod_to_equations; lia.
Qed.

Lemma packedRead_Write_eq (a : list Z) (index : Z) (s : bool) :
  addresses a index -> packedRead (packedWrite a index s) index = s.
Proof.
  intros [Hi Hl]. unfold packedRead, packedWrite.
  destruct (packed_slot index) as [-> ->]; [lia|].
  rewrite at_put_eq by (Z.div_mod_to_equations; lia).
  apply BIT_READ_WRITE_eq. Z.div_mod_to_equations; lia.
Qed.

Lemma packedRead_Write_ne (a : list Z) (index j : Z) (s : bool) :
  0 <= index < 2048 -> 0 <= j < 2048 -> j <> index ->
  packedRead (packedWrite a index s) j = packedRead a j.
Proof.
  intros Hi Hj Hne. unfold packedRead, packedWrite.
  destruct (packed_slot index) as [-> ->]; [lia|].
  destruct (packed_slot j) as [-> ->]; [lia|].
  destruct (decide (j / 8 = index / 8)) as [Heq|Hslot].
  - rewrite Heq.
    destruct (decide (Z.to_nat (index / 8) < length a)%nat) as [Hin|Hout].
    + rewrite at_put_eq by done.
      apply BIT_READ_WRITE_ne; Z.div_mod_to_equations; lia.
    + unfold put. rewrite list_insert_ge by lia. done.
  - rewrite at_put_ne by (Z.div_mod_to_equations; lia). done.
Qed.

Lemma length_packedWrite (a : list Z) (index : Z) (s : bool) :
  length (packedWrite a index s) = length a.
Proof. apply length_put. Qed.

Lemma state_setState_eq (index : Z) (s : bool) (b : Buttons) :
  addresses (_buttonPressed b) index -> state index (setState index s b) = s.
Proof. intros H. apply (packedRead_Write_eq _ _ _ H). Qed.

Lemma state_setState_ne (index j : Z) (s : bool) (b : Buttons) :
  0 <= index < 2048 -> 0 <= j < 2048 -> j <> index ->
  state j (setState index s b) = state j b.
Proof. intros Hi Hj Hne. apply (packedRead_Write_ne _ _ _ _ Hi Hj Hne). Qed.

Lemma latchingState_set_eq (index : Z) (s : bool) (b : Buttons) :
  addresses (_lastLatchingState b) index ->
  latchingState index (setLatchingState index s b) = s.
Proof. intros H. apply (packedRead_Write_eq _ _ _ H). Qed.

Lemma latchingState_set_ne (index j : Z) (s : bool) (b : Buttons) :
  0 <= index < 2048 -> 0 <= j < 2048 -> j <> index ->
  latchingState j (setLatchingState index s b) = latchingState j b.
Proof. intros Hi Hj Hne. apply (packedRead_Write_ne _ _ _ _ Hi Hj Hne). Qed.

(** ** What the translation engine leaves alone *)

Ltac unfold_engine :=
  unfold sendMessage, onPress, onRelease, multiValNote, multiValCC,
         processSaxRegisterChromatic, saxSilence, saxSound, saxChannel,
         notify, getButtons, modifyButtons, read, update, getGlobals, onGlobals,
         after, result, published, mbind, mret, M_bind, M_ret in *.

Section Frame.
Context {DB G : Type} `{!Database DB} `{!Globals G} (T : Target).

Lemma sendMessage_sameStore (index : Z) (s : bool) (d : Descriptor) (w : @World DB G) :
  sameStore w (after (sendMessage T index s d w)).
Proof.
  unfold sameStore. unfold_engine.
  destruct s, (messageType d); cbn;
    repeat (case_match; cbn in *; simplify_eq); done.
Qed.

Lemma processSax_sameStore (w : @World DB G) :
  sameStore w (after (processSaxRegisterChromatic T w)).
Proof.
  unfold sameStore. unfold_engine. cbn.
  repeat (case_match; cbn in *; simplify_eq); done.
Qed.
Lemma processSax_counts (w : @World DB G) :
  _legatoButtonCount (buttons (after (processSaxRegisterChromatic T w)))
  = _legatoButtonCount (buttons w).
Proof.
  unfold_engine. cbn.
  repeat (case_match; cbn in *; simplify_eq); done.
Qed.
End Frame.

(** ** How [processButton] dispatches an edge *)

#[local] Arguments sendMessage : simpl never.
#[local] Arguments processSaxRegisterChromatic : simpl never.

Section Dispatch.
Context {DB G : Type} `{!Database DB} `{!Globals G} (T : Target).

Lemma processButton_no_edge index reading d (w : @World DB G) :
  reading = state index (buttons w) ->
  processButton T index reading d w = (d, w, []).
Proof.
  intros E. unfold processButton. unfold_engine.
  rewrite bool_decide_eq_true_2 by done. done.
Qed.

Lemma processButton_overridden index reading d (w : @World DB G) :
  reading <> state index (buttons w) -> overridden T index w = true ->
  processButton T index reading d w
  = (d, after (processSaxRegisterChromatic T (commit index reading w)),
     published (processSaxRegisterChromatic T (commit index reading w))).
Proof.
  intros E O. unfold overridden in O.
  apply andb_true_iff in O as [O1 O2].
  unfold processButton, commit. unfold mbind, mret, M_bind, M_ret, getButtons, modifyButtons, read.
  rewrite bool_decide_eq_false_2 by done. cbn. rewrite O1. cbn. rewrite O2. cbn.
  destruct (processSaxRegisterChromatic T _) as [[[] w'] o]. cbn.
  by rewrite app_nil_r.
Qed.

Lemma processButton_plain index reading d (w : @World DB G) :
  reading <> state index (buttons w) -> overridden T index w = false ->
  processButton T index reading d w = translate T index reading d (commit index reading w).
Proof.
  intros E O. unfold overridden in O.
  unfold processButton, translate, commit, latch.
  unfold mbind, mret, M_bind, M_ret, getButtons, modifyButtons, read.
  rewrite bool_decide_eq_false_2 by done. cbn.
  assert (Hsax :
    (if SAX_REGISTER_CHROMATIC T && (index <? DIGITAL_INPUTS T)
     then negb (db_read (database w) (SYSTEM_SETTINGS SAX_REGISTER_CHROMATIC_ENABLE) =? 0)
     else false) = false).
  { destruct (SAX_REGISTER_CHROMATIC T && (index <? DIGITAL_INPUTS T)); done. }
  destruct (SAX_REGISTER_CHROMATIC T && (index <? DIGITAL_INPUTS T)); cbn in *;
    rewrite ?O; cbn;
    (destruct (bool_decide (messageType d = NONE)); cbn; [done|]);
    (destruct (bool_decide (type d = LATCHING)
               && negb (bool_decide (messageType d = NOTE_LEGATO))); cbn;
     [ destruct reading; cbn; [|done];
       destruct (latchingState index (setState index true (buttons w))); cbn
     | ]);
    match goal with
    | |- context [sendMessage T ?i ?s ?d ?w] =>
        destruct (sendMessage T i s d w) as [[? ?] ?]; cbn; done
    end.
Qed.
End Dispatch.

(** ** The pressed bit follows the reading *)

Section Pressed.
Context {DB G : Type} `{!Database DB} `{!Globals G} (T : Target).

Lemma state_ext (i : Z) (b b' : Buttons) :
  _buttonPressed b' = _buttonPressed b -> state i b' = state i b.
Proof. unfold state. by intros ->. Qed.

Lemma latchingState_ext (i : Z) (b b' : Buttons) :
  _lastLatchingState b' = _lastLatchingState b ->
  latchingState i b' = latchingState i b.
Proof. unfold latchingState. by intros ->. Qed.

Lemma translate_sameStore index reading d (w : @World DB G) :
  _buttonPressed (buttons (after (translate T index reading d w)))
  = _buttonPressed (buttons w)
  /\ database (after (translate T index reading d w)) = database w.
Proof.
  unfold translate.
  repeat case_match; try done.
  - destruct (sendMessage_sameStore T index
                (negb (latchingState index (buttons w))) d
                (latch index (negb (latchingState index (buttons w))) w))
      as (Hp & _ & Hd).
    by rewrite Hp, Hd.
  - destruct (sendMessage_sameStore T index reading d w) as (Hp & _ & Hd).
    by rewrite Hp, Hd.
Qed.

(** The pressed bits after [processButton]: those before it, with the
    reading committed when it is an edge. *)
Lemma processButton_pressed index reading d (w : @World DB G) :
  _buttonPressed (buttons (after (processButton T index reading d w)))
  = _buttonPressed
      (if bool_decide (reading = state index (buttons w))
       then buttons w else setState index reading (buttons w)).
Proof.
  case_bool_decide as E.
  - by rewrite processButton_no_edge.
  - destruct (overridden T index w) eqn:O.
    + rewrite processButton_overridden by done.
      change (after (d, ?x, ?o)) with x.
      by destruct (processSax_sameStore T (commit index reading w)) as (-> & _).
    + rewrite processButton_plain by done.
      by destruct (translate_sameStore index reading d (commit index reading w)) as (-> & _).
Qed.
End Pressed.

(** C9: after [processButton index reading descriptor] on an edge the stored
    pressed bit of [index] equals [reading], whichever way the edge is
    handled (register-chromatic override, message kind NONE, suppressed
    latching release, or a translated message), and the pressed bit of every
    other index is what it was. *)
Theorem processButton_commits_reading {DB G : Type} `{!Database DB} `{!Globals G}
    (T : Target) (index : Z) (reading : bool) (d : Descriptor) (w : @World DB G) :
  addresses (_buttonPressed (buttons w)) index ->
  (reading <> state index (buttons w) ->
   state index (buttons (after (processButton T index reading d w))) = reading)
  /\ (forall j, 0 <= j < 2048 -> j <> index ->
      state j (buttons (after (processButton T index reading d w)))
      = state j (buttons w)).
Proof.
  intros Hin. split.
  - intros E.
    rewrite (state_ext _ _ _ (processButton_pressed T index reading d w)).
    rewrite bool_decide_eq_false_2 by done.
    by apply state_setState_eq.
  - intros j Hj Hne.
    rewrite (state_ext _ _ _ (processButton_pressed T index reading d w)).
    case_bool_decide; [done|].
    destruct Hin as [Hi Hl].
    apply state_setState_ne; [lia | done | done].
Qed.

Lemma processButton_commits_reading_witness :
  let w := Bench.world0 [] in
  let d := Bench.descriptor LATCHING NONE midi.INVALID 3 1 60 127 in
  state 3 (buttons (after (processButton (Bench.board 8 true) 3 true d w))) = true
  /\ state 5 (buttons (after (processButton (Bench.board 8 true) 3 true d w)))
     = state 5 (buttons w).
Proof.
  intros w d.
  destruct (processButton_commits_reading (Bench.board 8 true) 3 true d w) as [H1 H2].
  - unfold addresses. cbn. lia.
  - split.
    + apply H1. vm_compute. discriminate.
    + apply H2; lia.
Defined.

(** ** The configuration adapter *)

(** C8: a configuration write returns ACK exactly when the store update
    succeeds and ERROR_WRITE otherwise; a successful write of the TYPE or
    MESSAGE_TYPE section clears the pressed bit and the latching bit of the
    input; a failed write leaves the state of [Buttons] as it was. *)
Theorem sysConfigSet_status_and_reset {DB G : Type} `{!Database DB} `{!Globals G}
    (T : Target) (section : button_t) (index value : Z) (w : @World DB G) :
  addresses (_buttonPressed (buttons w)) index ->
  addresses (_lastLatchingState (buttons w)) index ->
  let ok := (db_update (database w) (button (SYS_2_DB_SECTION T section) index) value).1 in
  let r := sysConfigSet T section index value w in
  result r = Some (if ok then ACK else ERROR_WRITE)
  /\ (result r = Some ACK <-> ok = true)
  /\ (ok = true -> section = TYPE \/ section = MESSAGE_TYPE ->
      state index (buttons (after r)) = false
      /\ latchingState index (buttons (after r)) = false)
  /\ (ok = false -> buttons (after r) = buttons w).
Proof.
  intros Hp Hl ok r. subst ok r.
  unfold sysConfigSet. unfold_engine.
  destruct (db_update (database w) (button (SYS_2_DB_SECTION T section) index) value)
    as [ok db'].
  destruct ok; cbn.
  - rewrite bool_decide_eq_true_2 by done.
    destruct (bool_decide (section = TYPE) || bool_decide (section = MESSAGE_TYPE)) eqn:Hb;
      cbn; (split; [done|]); (split; [done|]); (split; [|done]).
    + intros _ _. unfold reset. split.
      * rewrite (state_ext index (setState index false (buttons w))) by done.
        by apply state_setState_eq.
      * by apply latchingState_set_eq.
    + intros _ [-> | ->]; done.
  - rewrite bool_decide_eq_false_2 by done. cbn.
    split; [done|]. split; [split; discriminate|]. split; [discriminate|done].
Qed.

Ltac solve_addresses :=
  split; [split; [apply Z.leb_le | apply Z.ltb_lt] | apply Nat.leb_le];
  vm_compute; reflexivity.

Lemma sysConfigSet_status_and_reset_witness :
  let w := mkWorld (setLatchingState 3 true (setState 3 true Bench.buttons0))
                   ([] : Bench.Store) Bench.counters0 in
  (result (sysConfigSet (Bench.board 8 false) MESSAGE_TYPE 3 2 w) = Some ACK
   /\ state 3 (buttons (after (sysConfigSet (Bench.board 8 false) MESSAGE_TYPE 3 2 w))) = false
   /\ latchingState 3 (buttons (after (sysConfigSet (Bench.board 8 false) MESSAGE_TYPE 3 2 w))) = false)
  /\ (result (sysConfigSet (Bench.board 8 false) MESSAGE_TYPE 3 20000 w) = Some ERROR_WRITE
      /\ buttons (after (sysConfigSet (Bench.board 8 false) MESSAGE_TYPE 3 20000 w)) = buttons w).
Proof.
  intros w. split.
  - destruct (sysConfigSet_status_and_reset (Bench.board 8 false) MESSAGE_TYPE 3 2 w)
      as (H1 & _ & H3 & _).
    + solve_addresses.
    + solve_addresses.
    + split; [exact H1|]. apply H3; [reflexivity | right; reflexivity].
  - destruct (sysConfigSet_status_and_reset (Bench.board 8 false) MESSAGE_TYPE 3 20000 w)
      as (H1 & _ & _ & H4).
    + solve_addresses.
    + solve_addresses.
    + split; [exact H1|]. apply H4. reflexivity.
Defined.

(** ** Bank select + program change *)

Lemma bank_msb (v : Z) :
  u8 (Z.land (Z.shiftr (u16 (Z.land v 16383)) 7) 127) = Z.land (Z.shiftr v 7) 127.
Proof.
  unfold u8, u16.
  change 16383 with (Z.ones 14). change 127 with (Z.ones 7).
  rewrite !Z.land_ones, !Z.shiftr_div_pow2 by lia.
  change (2 ^ 14) with 16384. change (2 ^ 7) with 128.
  Z.div_mod_to_equations. lia.
Qed.

Lemma bank_lsb (v : Z) :
  u8 (Z.land (u16 (Z.land v 16383)) 127) = Z.land v 127.
Proof.
  unfold u8, u16.
  change 16383 with (Z.ones 14). change 127 with (Z.ones 7).
  rewrite !Z.land_ones by lia.
  change (2 ^ 14) with 16384. change (2 ^ 7) with 128.
  Z.div_mod_to_equations. lia.
Qed.

(** C5: a BANK_SELECT_PROGRAM_CHANGE press publishes exactly three events, in
    this order: Control Change 0 with value (v>>7)&0x7F, Control Change 32
    with value v&0x7F, Program Change with program id&0x7F; the event of the
    input itself is not published.  This holds for [sendMessage] with the
    state on, and for the press edge of a momentary input. *)
Theorem bank_select_three_events {DB G : Type} `{!Database DB} `{!Globals G}
    (T : Target) (index : Z) (d : Descriptor) (w : @World DB G) :
  messageType d = BANK_SELECT_PROGRAM_CHANGE ->
  published (sendMessage T index true d w) = bankSelectEvents (event d)
  /\ (type d = MOMENTARY -> state index (buttons w) = false ->
      overridden T index w = false ->
      published (processButton T index true d w) = bankSelectEvents (event d)).
Proof.
  intros Hm.
  assert (Hs : forall w' : @World DB G,
             published (sendMessage T index true d w') = bankSelectEvents (event d)).
  { intros w'. unfold sendMessage, onPress. unfold_engine. rewrite Hm. cbn.
    unfold bankSelectEvents. by rewrite bank_msb, bank_lsb. }
  split; [apply Hs|].
  intros Ht Hst Ho.
  rewrite processButton_plain by (done || (rewrite Hst; done)).
  unfold translate. rewrite Hm, Ht. cbn. apply Hs.
Qed.

Lemma bank_select_three_events_witness :
  let d := Bench.descriptor MOMENTARY BANK_SELECT_PROGRAM_CHANGE
                            midi.PROGRAM_CHANGE 0 1 12 391 in
  published (processButton (Bench.board 8 false) 0 true d (Bench.world0 []))
  = [ (messaging.BUTTON, messaging.mkEvent 0 1 0 3 messaging.nullptr 0 false
                           messaging.NO_SYSTEM_MESSAGE midi.CONTROL_CHANGE);
      (messaging.BUTTON, messaging.mkEvent 0 1 32 7 messaging.nullptr 0 false
                           messaging.NO_SYSTEM_MESSAGE midi.CONTROL_CHANGE);
      (messaging.BUTTON, messaging.mkEvent 0 1 12 0 messaging.nullptr 0 false
                           messaging.NO_SYSTEM_MESSAGE midi.PROGRAM_CHANGE) ].
Proof.
  intros d.
  destruct (bank_select_three_events (Bench.board 8 false) 0 d (Bench.world0 []))
    as [_ H]; [reflexivity|].
  rewrite H; reflexivity.
Defined.

(** ** Latching inputs *)

Lemma length_setState (i : Z) (s : bool) (b : Buttons) :
  length (_buttonPressed (setState i s b)) = length (_buttonPressed b).
Proof. apply length_put. Qed.

Lemma length_setLatchingState (i : Z) (s : bool) (b : Buttons) :
  length (_lastLatchingState (setLatchingState i s b)) = length (_lastLatchingState b).
Proof. apply length_put. Qed.

Section Latching.
Context {DB G : Type} `{!Database DB} `{!Globals G} (T : Target).

Lemma overridden_ext index (w w' : @World DB G) :
  database w' = database w -> overridden T index w' = overridden T index w.
Proof. unfold overridden. by intros ->. Qed.

Lemma latching_press index d (w : @World DB G) :
  type d = LATCHING -> messageType d <> NOTE_LEGATO -> messageType d <> NONE ->
  idle T index w ->
  let phase := negb (latchingState index (buttons w)) in
  let w1 := latch index phase (commit index true w) in
  let press := processButton T index true d w in
  press = sendMessage T index phase d w1
  /\ latchingState index (buttons (after press)) = phase
  /\ state index (buttons (after press)) = true
  /\ sameStore w1 (after press).
Proof.
  intros Ht Hl Hn (Ho & Hp & Hq & Hs) phase w1 press.
  assert (E : press = sendMessage T index phase d w1).
  { subst press. rewrite processButton_plain by (done || (rewrite Hs; done)).
    unfold translate.
    rewrite bool_decide_eq_false_2 by done.
    rewrite Ht, (bool_decide_eq_false_2 (messageType d = NOTE_LEGATO)) by done.
    cbn. done. }
  pose proof (sendMessage_sameStore T index phase d w1) as HS.
  rewrite <- E in HS.
  split; [done|].
  destruct HS as (Hbp & Hll & Hdb).
  split; [|split; [|done]].
  - rewrite (latchingState_ext index (buttons w1)) by done.
    subst w1. cbn. by apply latchingState_set_eq.
  - rewrite (state_ext index (buttons w1)) by done.
    subst w1. cbn.
    rewrite (state_ext index (setState index true (buttons w))) by done.
    by apply state_setState_eq.
Qed.

Lemma latching_release index d (w : @World DB G) :
  type d = LATCHING -> messageType d <> NOTE_LEGATO ->
  overridden T index w = false ->
  state index (buttons w) = true ->
  processButton T index false d w = (d, commit index false w, []).
Proof.
  intros Ht Hl Ho Hs.
  rewrite processButton_plain by (done || (rewrite Hs; done)).
  unfold translate. case_bool_decide; [done|].
  rewrite Ht, (bool_decide_eq_false_2 (messageType d = NOTE_LEGATO)) by done.
  done.
Qed.

Lemma latching_cycle index d (w : @World DB G) :
  type d = LATCHING -> messageType d <> NOTE_LEGATO -> messageType d <> NONE ->
  idle T index w ->
  idle T index (pressRelease T index d w)
  /\ latchingState index (buttons (pressRelease T index d w))
     = negb (latchingState index (buttons w)).
Proof.
  intros Ht Hl Hn Hi.
  destruct (latching_press index d w Ht Hl Hn Hi) as (_ & Hlt & Hst & Hbp & Hll & Hdb).
  destruct Hi as (Ho & Hp & Hq & Hs).
  unfold pressRelease.
  set (w1 := after (processButton T index true d w)) in *.
  assert (Ho1 : overridden T index w1 = false).
  { rewrite <- Ho. apply overridden_ext. by rewrite Hdb. }
  rewrite (latching_release index d w1 Ht Hl Ho1 Hst).
  change (after (d, ?x, ?o)) with x.
  assert (Hlen : length (_buttonPressed (buttons w1)) = length (_buttonPressed (buttons w))).
  { rewrite Hbp. apply length_setState. }
  assert (Hlen' : length (_lastLatchingState (buttons w1))
                  = length (_lastLatchingState (buttons w))).
  { rewrite Hll. unfold latch, commit. cbn [buttons].
    by rewrite length_setLatchingState. }
  assert (Hp1 : addresses (_buttonPressed (buttons w1)) index).
  { unfold addresses. rewrite Hlen. apply Hp. }
  split; [split; [|split; [|split]]|].
  - done.
  - unfold addresses, commit. cbn [buttons]. rewrite length_setState, Hlen. apply Hp.
  - unfold addresses, commit. cbn [buttons].
    change (_lastLatchingState (setState index false (buttons w1)))
      with (_lastLatchingState (buttons w1)).
    rewrite Hlen'. apply Hq.
  - unfold commit. cbn [buttons]. by apply state_setState_eq.
  - unfold commit. cbn [buttons].
    rewrite (latchingState_ext index (buttons w1)) by done. apply Hlt.
Qed.
End Latching.

Lemma latching_run {DB G : Type} `{!Database DB} `{!Globals G}
    (T : Target) (index : Z) (d : Descriptor) (w : @World DB G) (n : nat) :
  type d = LATCHING -> messageType d <> NOTE_LEGATO -> messageType d <> NONE ->
  idle T index w -> latchingState index (buttons w) = false ->
  idle T index (Nat.iter n (pressRelease T index d) w)
  /\ latchingState index (buttons (Nat.iter n (pressRelease T index d) w)) = Nat.odd n.
Proof.
  intros Ht Hl Hn Hi H0. induction n as [|n [IHi IHl]].
  - done.
  - rewrite Nat.iter_succ.
    destruct (latching_cycle T index d _ Ht Hl Hn IHi) as [Hi' Hl'].
    split; [done|].
    by rewrite Hl', IHl, Nat.negb_odd, Nat.odd_succ.
Qed.

(** C6, as the code has it: for a LATCHING input whose message kind is
    neither NONE nor NOTE_LEGATO and whose edges the register-chromatic
    override leaves alone, starting released with the latch bit clear, the
    presses alternate for ever: press number [n] (from 0) toggles the latch
    bit and is translated by [sendMessage] with the state on when [n] is even
    and off when [n] is odd, the latch bit then equals that phase, and each
    release publishes nothing and leaves the latch bit alone. *)
Theorem latching_toggle {DB G : Type} `{!Database DB} `{!Globals G}
    (T : Target) (index : Z) (d : Descriptor) (w : @World DB G) (n : nat) :
  type d = LATCHING -> messageType d <> NOTE_LEGATO -> messageType d <> NONE ->
  idle T index w -> latchingState index (buttons w) = false ->
  let wn := Nat.iter n (pressRelease T index d) w in
  let press := processButton T index true d wn in
  let release := processButton T index false d (after press) in
  latchingState index (buttons wn) = Nat.odd n
  /\ press = sendMessage T index (Nat.even n) d
               (latch index (Nat.even n) (commit index true wn))
  /\ latchingState index (buttons (after press)) = Nat.even n
  /\ published release = []
  /\ latchingState index (buttons (after release)) = Nat.even n.
Proof.
  intros Ht Hl Hn Hi H0 wn press release.
  destruct (latching_run T index d w n Ht Hl Hn Hi H0) as [Hin Hln].
  fold wn in Hin, Hln.
  destruct (latching_press T index d wn Ht Hl Hn Hin) as (Hp & Hlt & Hst & Hbp & Hll & Hdb).
  fold press in Hp, Hlt, Hst, Hbp, Hll, Hdb.
  rewrite Hln, Nat.negb_odd in *.
  assert (Ho : overridden T index (after press) = false).
  { destruct Hin as (Ho & _). rewrite <- Ho. apply overridden_ext. by rewrite Hdb. }
  assert (Hr : release = (d, commit index false (after press), [])).
  { subst release. by apply latching_release. }
  split; [done|]. split; [done|]. split; [done|].
  rewrite Hr. split; [done|].
  change (after (d, ?x, ?o)) with x.
  rewrite (latchingState_ext index (buttons (after press))) by done.
  done.
Qed.

Lemma latching_toggle_witness :
  let T := Bench.board 8 false in
  let d := Bench.descriptor LATCHING NOTE midi.NOTE_ON 2 1 60 127 in
  let w3 := Nat.iter 3 (pressRelease T 2 d) (Bench.world0 []) in
  latchingState 2 (buttons w3) = true
  /\ processButton T 2 true d w3
     = sendMessage T 2 false d (latch 2 false (commit 2 true w3)).
Proof.
  intros T d w3.
  destruct (latching_toggle T 2 d (Bench.world0 []) 3) as (H1 & H2 & _).
  - reflexivity.
  - discriminate.
  - discriminate.
  - split; [reflexivity|]. split; [solve_addresses|]. split; [solve_addresses|reflexivity].
  - reflexivity.
  - split; [exact H1 | exact H2].
Defined.

(** C6 as stated fails for the message kind NONE: a press edge of such a
    LATCHING input is committed, but its latch bit is not toggled. *)
Lemma latching_none_keeps_latch :
  let T := Bench.board 8 false in
  let d := Bench.descriptor LATCHING NONE midi.INVALID 2 1 60 127 in
  let w := Bench.world0 [] in
  type d = LATCHING /\ messageType d <> NOTE_LEGATO
  /\ state 2 (buttons w) = false /\ latchingState 2 (buttons w) = false
  /\ state 2 (buttons (after (processButton T 2 true d w))) = true
  /\ latchingState 2 (buttons (after (processButton T 2 true d w)))
     <> negb (latchingState 2 (buttons w)).
Proof. cbv zeta. repeat split; try reflexivity; discriminate. Qed.

(** ** Custom SysEx frames *)

Lemma length_copyPayload (payloadBuf sysExBuf : list Z) (n : nat) :
  length (copyPayload payloadBuf sysExBuf (Z.of_nat n)) = length sysExBuf.
Proof.
  unfold copyPayload. induction n as [|n IH].
  - done.
  - rewrite seqZ_S, foldl_app. cbn [foldl]. by rewrite length_put.
Qed.

Lemma at_copyPayload (payloadBuf sysExBuf : list Z) (n : nat) (p : Z) :
  0 <= p -> (n < length sysExBuf)%nat ->
  at_ (copyPayload payloadBuf sysExBuf (Z.of_nat n)) p
  = if decide (1 <= p <= Z.of_nat n) then at_ payloadBuf (p - 1) else at_ sysExBuf p.
Proof.
  intros Hp. induction n as [|n IH]; intros Hn.
  - cbn. case_decide; [lia|done].
  - unfold copyPayload in *. rewrite seqZ_S, foldl_app. cbn [foldl].
    destruct (decide (p = 1 + Z.of_nat n)) as [->|Hne].
    + rewrite at_put_eq.
      * clear IH. case_decide as Hc; [|lia].
        replace (1 + Z.of_nat n - 1) with (0 + Z.of_nat n) by lia. done.
      * fold (copyPayload payloadBuf sysExBuf (Z.of_nat n)).
        rewrite length_copyPayload. lia.
    + rewrite at_put_ne by lia. rewrite IH by lia.
      repeat case_decide; try lia; done.
Qed.

Lemma frameOf_copy (payloadBuf : list Z) (payloadLen varPos varValue : Z) :
  frameOf payloadBuf payloadLen varPos varValue
  = let base := put (copyPayload payloadBuf (put (replicate 16 0) 0 240) payloadLen)
                    (1 + payloadLen) 247 in
    if negb (varPos =? 0) && (varPos <? u8 (payloadLen + 2) - 1)
    then put base varPos varValue else base.
Proof. reflexivity. Qed.

Lemma length_frameOf (payloadBuf : list Z) (payloadLen varPos varValue : Z) :
  0 <= payloadLen -> length (frameOf payloadBuf payloadLen varPos varValue) = 16%nat.
Proof.
  intros HL. rewrite frameOf_copy. cbv zeta.
  rewrite <- (Z2Nat.id payloadLen) by done.
  case_match; rewrite ?length_put, length_copyPayload, length_put; done.
Qed.

(** The frame byte by byte: F0, then the payload with at most the byte at
    [varPos] replaced, then F7. *)
Lemma at_frameOf (payloadBuf : list Z) (payloadLen varPos varValue p : Z) :
  1 <= payloadLen <= 14 -> 0 <= varPos -> 0 <= p <= payloadLen + 1 ->
  at_ (frameOf payloadBuf payloadLen varPos varValue) p
  = if decide (p = 0) then 240
    else if decide (p = payloadLen + 1) then 247
    else if decide (p = varPos) then varValue
    else at_ payloadBuf (p - 1).
Proof.
  intros HL Hv Hp. rewrite frameOf_copy. cbv zeta.
  assert (Hu : u8 (payloadLen + 2) - 1 = payloadLen + 1).
  { unfold u8. rewrite Z.mod_small; lia. }
  rewrite Hu.
  assert (Hlen : length (copyPayload payloadBuf (put (replicate 16 0) 0 240) payloadLen)
                 = 16%nat).
  { rewrite <- (Z2Nat.id payloadLen) by lia. by rewrite length_copyPayload, length_put. }
  assert (Hbase : at_ (put (copyPayload payloadBuf (put (replicate 16 0) 0 240) payloadLen)
                           (1 + payloadLen) 247) p
                  = if decide (p = 0) then 240
                    else if decide (p = payloadLen + 1) then 247
                    else at_ payloadBuf (p - 1)).
  { destruct (decide (p = payloadLen + 1)) as [->|Hne].
    - replace (payloadLen + 1) with (1 + payloadLen) by lia.
      rewrite at_put_eq by lia. case_decide; [lia|done].
    - rewrite at_put_ne by lia.
      rewrite <- (Z2Nat.id payloadLen) at 1 by lia.
      rewrite at_copyPayload by (rewrite ?length_put; cbn; lia).
      rewrite Z2Nat.id by lia.
      repeat case_decide; try lia; try done.
      subst p. by rewrite at_put_eq by (cbn; lia). }
  destruct (negb (varPos =? 0) && (varPos <? payloadLen + 1)) eqn:Hsub.
  - apply andb_true_iff in Hsub as [H1 H2].
    apply negb_true_iff, Z.eqb_neq in H1. apply Z.ltb_lt in H2.
    destruct (decide (p = varPos)) as [->|Hne].
    + rewrite at_put_eq by (rewrite length_put, Hlen; lia).
      repeat case_decide; try lia; done.
    + rewrite at_put_ne by lia. rewrite Hbase.
      repeat case_decide; try lia; done.
  - rewrite Hbase.
    apply andb_false_iff in Hsub as [H1|H2].
    + apply negb_false_iff, Z.eqb_eq in H1.
      repeat case_decide; try lia; done.
    + apply Z.ltb_ge in H2.
      repeat case_decide; try lia; done.
Qed.

Lemma at_take (a : list Z) (n : nat) (p : Z) :
  0 <= p < Z.of_nat n -> at_ (take n a) p = at_ a p.
Proof.
  intros Hp. unfold at_. by rewrite lookup_take_lt by lia.
Qed.

Section SysEx.
Context {DB G : Type} `{!Database DB} `{!Globals G} (T : Target).

(** What a CUSTOM_SYS_EX press publishes for a payload byte [L] of 1 to 14:
    in a trace build the trace event, which points at [traceBuf] while that
    is alive, and then the event that points at [sysExBuf], whose block has
    been left. *)
Lemma sendMessage_custom_sysex index d (w : @World DB G) :
  messageType d = CUSTOM_SYS_EX ->
  published (sendMessage T index true d w)
  = let L := u8 (db_read (database w) (button SYSEX_LENGTH index)) in
    let frame := sysExFrame (database w) index d L in
    let trace := traceOf index (u8 (L + 2)) (varPosOf d) (varValueOf d) frame in
    if (L =? 0) || (14 <? L) then []
    else (if OPENDECK_DEBUG_SYSEX_TRACE T
          then [(messaging.BUTTON,
                 messaging.with_message midi.SYS_EX
                   (messaging.with_sysEx (messaging.local trace.1 true) trace.2 (event d)))]
          else [])
         ++ [(messaging.BUTTON,
              messaging.with_message midi.SYS_EX
                (messaging.with_sysEx (messaging.local frame false) (u8 (L + 2)) (event d)))].
Proof.
  intros Hm. unfold sendMessage, onPress. unfold_engine. rewrite Hm. cbv zeta.
  change MAX_PAYLOAD_LEN with 14.
  destruct ((u8 (db_read (database w) (button SYSEX_LENGTH index)) =? 0)
            || (14 <? u8 (db_read (database w) (button SYSEX_LENGTH index)))); [done|].
  unfold sysExFrame, varPosOf, varValueOf.
  destruct (OPENDECK_DEBUG_SYSEX_TRACE T); [|done].
  by destruct (traceOf _ _ _ _ _) as [traceBuf traceLen].
Qed.

Lemma sendMessage_custom_sysex_release index d (w : @World DB G) :
  messageType d = CUSTOM_SYS_EX -> published (sendMessage T index false d w) = [].
Proof.
  intros Hm. unfold sendMessage, onRelease. unfold_engine. by rewrite Hm.
Qed.

(** A press edge that reaches [sendMessage] with the state on: a momentary
    input, or a latching one whose latch bit is clear. *)
Lemma press_edge_custom_sysex index d (w : @World DB G) :
  messageType d = CUSTOM_SYS_EX ->
  state index (buttons w) = false -> overridden T index w = false ->
  (type d = LATCHING -> latchingState index (buttons w) = false) ->
  published (processButton T index true d w)
  = published (sendMessage T index true d w).
Proof.
  intros Hm Hs Ho Hl.
  rewrite processButton_plain by (done || (rewrite Hs; done)).
  unfold translate. rewrite Hm.
  rewrite (bool_decide_eq_false_2 (CUSTOM_SYS_EX = NONE)) by discriminate.
  rewrite (bool_decide_eq_false_2 (CUSTOM_SYS_EX = NOTE_LEGATO)) by discriminate.
  destruct (bool_decide (type d = LATCHING)) eqn:Ht; cbn [andb negb];
    [|by rewrite !sendMessage_custom_sysex].
  apply bool_decide_eq_true in Ht.
  change (latchingState index (buttons (commit index true w)))
    with (latchingState index (buttons w)).
  rewrite (Hl Ht). cbn [negb].
  by rewrite !sendMessage_custom_sysex.
Qed.
End SysEx.

Lemma u8_small (x : Z) : 0 <= x < 256 -> u8 x = x.
Proof. intros H. unfold u8. by rewrite Z.mod_small. Qed.

Lemma u8_range (x : Z) : 0 <= u8 x < 256.
Proof. unfold u8. apply Z.mod_pos_bound. lia. Qed.

(** *** The trace frame *)

Lemma traceByte_run (vs buf : list Z) (n : Z) :
  0 <= n -> (Z.to_nat n + length vs <= length buf)%nat -> (length buf < 256)%nat ->
  let r := foldl traceByte (buf, n) vs in
  r.2 = n + Z.of_nat (length vs)
  /\ length r.1 = length buf
  /\ take (Z.to_nat n + length vs) r.1 = take (Z.to_nat n) buf ++ vs.
Proof.
  revert buf n. induction vs as [|v vs IH]; intros buf n Hn Hl Hb r; subst r.
  - cbn [foldl length fst snd]. rewrite Z.add_0_r, Nat.add_0_r, app_nil_r. done.
  - cbn [foldl length] in *.
    assert (Hstep : traceByte (buf, n) v = (put buf n v, n + 1)).
    { unfold traceByte. cbn [fst snd]. by rewrite (u8_small (n + 1)) by lia. }
    rewrite Hstep.
    destruct (IH (put buf n v) (n + 1)) as (I1 & I2 & I3);
      [lia | rewrite length_put; lia | rewrite length_put; lia |].
    rewrite I1, I2, length_put.
    split; [lia|]. split; [done|].
    replace (Z.to_nat n + S (length vs))%nat
      with (Z.to_nat (n + 1) + length vs)%nat by lia.
    rewrite I3.
    replace (Z.to_nat (n + 1)) with (S (Z.to_nat n)) by lia.
    unfold put.
    rewrite (take_S_r _ _ v) by (apply list_lookup_insert_eq; lia).
    rewrite take_insert_ge by lia.
    by rewrite <- app_assoc.
Qed.

Lemma traceByte_pairs {A : Type} (f g : A -> Z) (xs : list A) (acc : list Z * Z) :
  foldl (fun acc x => traceByte (traceByte acc (f x)) (g x)) acc xs
  = foldl traceByte acc (flat_map (fun x => [f x; g x]) xs).
Proof.
  revert acc. induction xs as [|x xs IH]; intros acc; [done|].
  cbn [foldl flat_map app]. apply IH.
Qed.

Lemma map_at_seqZ (a : list Z) (k : nat) :
  (k <= length a)%nat -> map (at_ a) (seqZ 0 (Z.of_nat k)) = take k a.
Proof.
  induction k as [|k IH]; intros Hk; [done|].
  rewrite seqZ_S, map_app, IH by lia. cbn [map].
  destruct (a !! k) as [x|] eqn:Ex.
  - rewrite (take_S_r _ _ x) by done. unfold at_.
    rewrite Z.add_0_l, Nat2Z.id, Ex. done.
  - apply lookup_ge_None in Ex. lia.
Qed.

Lemma nibbles (b : Z) :
  u8 (Z.land (Z.shiftr b 4) 15) = b / 16 mod 16 /\ u8 (Z.land b 15) = b mod 16.
Proof.
  change 15 with (Z.ones 4). rewrite !Z.land_ones, Z.shiftr_div_pow2 by lia.
  change (2 ^ 4) with 16.
  split; apply u8_small.
  - pose proof (Z.mod_pos_bound (b / 16) 16). lia.
  - pose proof (Z.mod_pos_bound b 16). lia.
Qed.

Lemma seven_bits (x : Z) : u8 (Z.land x 127) = x mod 128.
Proof.
  change 127 with (Z.ones 7). rewrite Z.land_ones by lia. change (2 ^ 7) with 128.
  apply u8_small. pose proof (Z.mod_pos_bound x 128). lia.
Qed.

(** [traceBuf], cut to [traceLen], is the trace frame. *)
Lemma traceOf_traceFrame (index len varPos varValue : Z) (frame : list Z) :
  0 <= len -> (8 <= length frame)%nat ->
  let r := traceOf index len varPos varValue frame in
  r.2 = 10 + 2 * Z.min len 8
  /\ take (Z.to_nat r.2) r.1 = traceFrame index len varPos varValue frame.
Proof.
  intros Hlen Hf r. subst r. unfold traceOf. cbv zeta.
  rewrite traceByte_pairs.
  assert (Hk : (if len <? 8 then len else 8) = Z.of_nat (Z.to_nat (Z.min len 8))).
  { destruct (len <? 8) eqn:E; [apply Z.ltb_lt in E | apply Z.ltb_ge in E]; lia. }
  rewrite Hk.
  set (k := Z.to_nat (Z.min len 8)).
  assert (Hnib : flat_map (fun i => [u8 (Z.land (Z.shiftr (at_ frame i) 4) 15);
                                     u8 (Z.land (at_ frame i) 15)])
                          (seqZ 0 (Z.of_nat k))
                 = flat_map (fun b => [b / 16 mod 16; b mod 16]) (take k frame)).
  { rewrite <- (map_at_seqZ frame k) by (unfold k; lia).
    rewrite !flat_map_concat_map, map_map. f_equal. apply map_ext.
    intros i. by destruct (nibbles (at_ frame i)) as [-> ->]. }
  rewrite Hnib.
  set (nib := flat_map (fun b => [b / 16 mod 16; b mod 16]) (take k frame)).
  assert (Hn : length nib = (2 * k)%nat).
  { unfold nib. assert (Hlk : length (take k frame) = k)
      by (rewrite length_take; unfold k; lia).
    revert Hlk. generalize (take k frame). generalize k. clear.
    intros k l. revert k. induction l as [|x l IH]; intros k Hk; cbn in *; [lia|].
    destruct k as [|k]; [lia|]. rewrite (IH k) by lia. lia. }
  rewrite <- !foldl_app.
  set (vs := [240; 125; 79; 68; 1; u8 (Z.land index 127); u8 (Z.land len 127);
              u8 (Z.land varPos 127); u8 (Z.land varValue 127)] ++ nib).
  change (traceByte (foldl traceByte (replicate 64 0, 0) vs) 247)
    with (foldl traceByte (foldl traceByte (replicate 64 0, 0) vs) [247]).
  rewrite <- foldl_app.
  assert (Hvs : length (vs ++ [247]) = (10 + 2 * k)%nat).
  { unfold vs. rewrite !length_app, Hn. cbn. lia. }
  destruct (traceByte_run (vs ++ [247]) (replicate 64 0) 0) as (R1 & _ & R3).
  { lia. } { rewrite Hvs, length_replicate. unfold k. lia. }
  { rewrite length_replicate. lia. }
  rewrite R1, Hvs. split; [unfold k; lia|].
  replace (Z.to_nat (0 + Z.of_nat (10 + 2 * k)))
    with (Z.to_nat 0 + length (vs ++ [247%Z]))%nat by (rewrite Hvs; lia).
  rewrite R3. cbn [Z.to_nat take app].
  unfold vs, traceFrame. rewrite !seven_bits. fold k. fold nib.
  by rewrite <- !app_assoc.
Qed.

(** What a CUSTOM_SYS_EX press publishes for a payload byte of 1 to 14,
    with the trace frame written out. *)
Lemma custom_sysex_publications {DB G : Type} `{!Database DB} `{!Globals G}
    (T : Target) (index : Z) (d : Descriptor) (w : @World DB G) :
  messageType d = CUSTOM_SYS_EX ->
  let L := u8 (db_read (database w) (button SYSEX_LENGTH index)) in
  let frame := sysExFrame (database w) index d L in
  1 <= L <= 14 ->
  exists traceBuf,
    published (sendMessage T index true d w)
    = (if OPENDECK_DEBUG_SYSEX_TRACE T
       then [(messaging.BUTTON,
              messaging.with_message midi.SYS_EX
                (messaging.with_sysEx (messaging.local traceBuf true)
                   (10 + 2 * Z.min (L + 2) 8) (event d)))]
       else [])
      ++ [(messaging.BUTTON,
           messaging.with_message midi.SYS_EX
             (messaging.with_sysEx (messaging.local frame false) (L + 2) (event d)))]
    /\ take (Z.to_nat (10 + 2 * Z.min (L + 2) 8)) traceBuf
       = traceFrame index (L + 2) (varPosOf d) (varValueOf d) frame.
Proof.
  intros Hm L frame HL.
  rewrite sendMessage_custom_sysex by done. cbv zeta. fold L. fold frame.
  rewrite (proj2 (Z.eqb_neq L 0)) by lia.
  rewrite (proj2 (Z.ltb_ge 14 L)) by lia. cbn [orb].
  rewrite (u8_small (L + 2)) by lia.
  destruct (traceOf_traceFrame index (L + 2) (varPosOf d) (varValueOf d) frame)
    as [R1 R2]; [lia | unfold frame, sysExFrame; rewrite length_frameOf; lia |].
  exists (traceOf index (L + 2) (varPosOf d) (varValueOf d) frame).1.
  rewrite R1 in R2. rewrite R1. done.
Qed.

(** C10, as the code has it: the payload length is the stored length cut
    to a byte.  A release publishes nothing, and so does a press when that
    byte is 0 or above 14.  Otherwise a press publishes one SYS_EX event of
    length byte + 2 that points at the frame assembled for it: sixteen
    bytes of which the first is F0 and the one after the payload is F7,
    with a byte between them the stored payload byte unless its position is
    the variable position, so that the substitution reaches positions 1 to
    the payload length only.  The frame is a local array of the case and
    its block has been left when the event is published.  A build with the
    SysEx trace publishes first the trace frame of that frame, which it
    points at while it is alive. *)
Theorem custom_sysex_well_framed {DB G : Type} `{!Database DB} `{!Globals G}
    (T : Target) (index : Z) (d : Descriptor) (w : @World DB G) :
  messageType d = CUSTOM_SYS_EX ->
  let L := db_read (database w) (button SYSEX_LENGTH index) mod 256 in
  published (sendMessage T index false d w) = []
  /\ (L = 0 \/ 14 < L -> published (sendMessage T index true d w) = [])
  /\ (1 <= L <= 14 ->
      exists frame traceBuf,
        published (sendMessage T index true d w)
        = (if OPENDECK_DEBUG_SYSEX_TRACE T
           then [(messaging.BUTTON,
                  messaging.with_message midi.SYS_EX
                    (messaging.with_sysEx (messaging.local traceBuf true)
                       (10 + 2 * Z.min (L + 2) 8) (event d)))]
           else [])
          ++ [(messaging.BUTTON,
               messaging.with_message midi.SYS_EX
                 (messaging.with_sysEx (messaging.local frame false) (L + 2) (event d)))]
        /\ take (Z.to_nat (10 + 2 * Z.min (L + 2) 8)) traceBuf
           = traceFrame index (L + 2) (varPosOf d) (varValueOf d) frame
        /\ length frame = 16%nat
        /\ at_ frame 0 = 240
        /\ at_ frame (L + 1) = 247
        /\ forall p, 1 <= p <= L ->
             at_ frame p
             = if decide (p = varPosOf d) then varValueOf d
               else at_ (payloadOf (database w) index) (p - 1)).
Proof.
  intros Hm L.
  change (db_read (database w) (button SYSEX_LENGTH index) mod 256)
    with (u8 (db_read (database w) (button SYSEX_LENGTH index))) in L.
  split; [by apply sendMessage_custom_sysex_release|].
  split.
  - rewrite sendMessage_custom_sysex by done. cbv zeta. fold L.
    intros [-> | Hbig]; [done|].
    by rewrite (proj2 (Z.ltb_lt 14 L) Hbig), orb_true_r.
  - intros Hin.
    destruct (custom_sysex_publications T index d w Hm Hin) as (traceBuf & Hp & Ht).
    fold L in Hp, Ht.
    exists (sysExFrame (database w) index d L), traceBuf.
    split; [exact Hp|]. split; [exact Ht|].
    pose proof (u8_range (Z.land (messaging.index (event d)) 255)) as Hv.
    fold (varPosOf d) in Hv.
    unfold sysExFrame.
    split; [apply length_frameOf; lia|].
    split; [|split].
    + rewrite at_frameOf by lia. by rewrite decide_True.
    + rewrite at_frameOf by lia.
      rewrite decide_False by lia. by rewrite decide_True.
    + intros p Hp'. rewrite at_frameOf by lia.
      rewrite decide_False by lia. by rewrite decide_False by lia.
Qed.

(** The stored words unpacked: seven words give fourteen payload bytes, the
    low seven bits of a word first, then its bits 7 to 13. *)
Lemma payloadOf_bytes {DB : Type} `{!Database DB} (db : DB) (index : Z) :
  payloadOf db index
  = concat (map (fun k =>
                   let word := u16 (db_read db (button (SYSEX_DATA k) index)) in
                   [u8 (Z.land word 127); u8 (Z.land (Z.shiftr word 7) 127)])
                (seqZ 0 7)).
Proof. reflexivity. Qed.

Lemma custom_sysex_well_framed_witness :
  let T := Bench.board 8 false in
  let d := Bench.descriptor MOMENTARY CUSTOM_SYS_EX midi.SYS_EX 0 1 2 85 in
  exists frame,
    published (sendMessage T 0 true d (Bench.world0 sysexStore))
    = [(messaging.BUTTON,
        messaging.with_message midi.SYS_EX
          (messaging.with_sysEx (messaging.local frame false) 5 (event d)))]
    /\ at_ frame 0 = 240
    /\ at_ frame 4 = 247.
Proof.
  intros T d.
  destruct (custom_sysex_well_framed T 0 d (Bench.world0 sysexStore))
    as (_ & _ & H).
  - reflexivity.
  - destruct H as (frame & traceBuf & H1 & _ & _ & H4 & H5 & _).
    + change (1 <= 3 <= 14). lia.
    + exists frame. split; [exact H1|]. split; assumption.
Defined.

(** C10 as stated fails on a stored length that does not fit a byte: the
    stored length 259 is above 14, yet the press publishes an event, and
    the length of that event is 5, not 259 + 2. *)
Lemma custom_sysex_stored_length_259 :
  let T := Bench.board 8 false in
  let d := Bench.descriptor MOMENTARY CUSTOM_SYS_EX midi.SYS_EX 0 1 0 0 in
  let w := Bench.world0 [(button SYSEX_LENGTH 0, 259); (button (SYSEX_DATA 0) 0, 513)] in
  db_read (database w) (button SYSEX_LENGTH 0) = 259
  /\ published (sendMessage T 0 true d w) <> []
  /\ forall p, p ∈ published (sendMessage T 0 true d w) ->
       messaging.sysExLength p.2 = 5 /\ messaging.sysExLength p.2 <> 259 + 2.
Proof.
  cbv zeta. split; [reflexivity|]. split; [by vm_compute|].
  intros p Hp. vm_compute in Hp.
  apply list_elem_of_singleton in Hp. subst p. by vm_compute.
Qed.

(** The event of a press, in the build without the trace: its pointer is
    to the frame F0 01 04 03 F7, an array that is out of scope when the
    event is published, so that a reader of the event gets no bytes the
    code determines. *)
Example custom_sysex_event_dangles :
  let T := Bench.board 8 false in
  let d := Bench.descriptor MOMENTARY CUSTOM_SYS_EX midi.SYS_EX 0 1 0 0 in
  map (fun p => (messaging.sysEx p.2, messaging.sysExLength p.2, messaging.bytes p.2))
      (published (processButton T 0 true d (Bench.world0 sysexStore)))
  = [(messaging.local ([240; 1; 4; 3; 247] ++ replicate 11 0) false, 5, None)].
Proof. reflexivity. Qed.

(** The same press in a build with the trace: the trace event comes first,
    and its bytes are there to be read. *)
Example custom_sysex_trace_build :
  let T := Bench.tracing 8 false in
  let d := Bench.descriptor MOMENTARY CUSTOM_SYS_EX midi.SYS_EX 0 1 0 0 in
  map (fun p => messaging.bytes p.2)
      (published (processButton T 0 true d (Bench.world0 sysexStore)))
  = [ Some [240; 125; 79; 68; 1; 0; 5; 0; 0;
            15; 0; 0; 1; 0; 4; 0; 3; 15; 7; 247];
      None ].
Proof. reflexivity. Qed.

Lemma payloadOf_first {DB : Type} `{!Database DB} (db : DB) (index : Z) :
  at_ (payloadOf db index) 0
  = u8 (Z.land (u16 (db_read db (button (SYSEX_DATA 0) index))) 127).
Proof. reflexivity. Qed.

Lemma payloadOf_second {DB : Type} `{!Database DB} (db : DB) (index : Z) :
  at_ (payloadOf db index) 1
  = u8 (Z.land (Z.shiftr (u16 (db_read db (button (SYSEX_DATA 0) index))) 7) 127).
Proof. reflexivity. Qed.

(** C1, as the code has it: for a button configured as CUSTOM_SYS_EX with
    stored payload length 3 and first stored word 0x0201, a press edge
    assembles a frame of five bytes that starts with F0 and ends with F7
    and publishes one SYS_EX event of length 5 that points at it; a stored
    word is split into its low seven bits and its bits 7 to 13, so the two
    bytes after F0 are 01 and 04 where the variable position does not
    replace them; with the variable position 2 the third byte of the frame
    is the variable value (0x55 when that is configured).  The frame is a
    local array of the case and its block has been left when the event is
    published; a build with the SysEx trace publishes one event before
    it. *)
Theorem custom_sysex_press_example {DB G : Type} `{!Database DB} `{!Globals G}
    (T : Target) (index : Z) (d : Descriptor) (w : @World DB G) :
  messageType d = CUSTOM_SYS_EX ->
  state index (buttons w) = false -> overridden T index w = false ->
  (type d = LATCHING -> latchingState index (buttons w) = false) ->
  db_read (database w) (button SYSEX_LENGTH index) = 3 ->
  db_read (database w) (button (SYSEX_DATA 0) index) = 513 ->
  exists frame traceBuf,
    published (processButton T index true d w)
    = (if OPENDECK_DEBUG_SYSEX_TRACE T
       then [(messaging.BUTTON,
              messaging.with_message midi.SYS_EX
                (messaging.with_sysEx (messaging.local traceBuf true) 20 (event d)))]
       else [])
      ++ [(messaging.BUTTON,
           messaging.with_message midi.SYS_EX
             (messaging.with_sysEx (messaging.local frame false) 5 (event d)))]
    /\ take 20 traceBuf = traceFrame index 5 (varPosOf d) (varValueOf d) frame
    /\ length frame = 16%nat
    /\ at_ frame 0 = 240
    /\ at_ frame 4 = 247
    /\ (varPosOf d <> 1 -> at_ frame 1 = 1)
    /\ (varPosOf d <> 2 -> at_ frame 2 = 4)
    /\ (varPosOf d = 2 -> at_ frame 2 = varValueOf d).
Proof.
  intros Hm Hs Ho Hl HL Hw.
  rewrite press_edge_custom_sysex by done.
  destruct (custom_sysex_publications T index d w Hm) as (traceBuf & Hp & Ht).
  { rewrite HL. change (u8 3) with 3. lia. }
  rewrite HL in Hp, Ht. change (u8 3) with 3 in Hp, Ht.
  exists (sysExFrame (database w) index d 3), traceBuf.
  split; [exact Hp|]. split; [exact Ht|].
  pose proof (u8_range (Z.land (messaging.index (event d)) 255)) as Hv.
  fold (varPosOf d) in Hv.
  unfold sysExFrame.
  split; [by apply length_frameOf|].
  rewrite !at_frameOf by lia.
  rewrite payloadOf_first, payloadOf_second, Hw.
  rewrite (decide_True (P := 0 = 0)) by done.
  rewrite (decide_False (P := 4 = 0)), (decide_True (P := 4 = 3 + 1)) by done.
  rewrite (decide_False (P := 1 = 0)), (decide_False (P := 1 = 3 + 1)) by done.
  rewrite (decide_False (P := 2 = 0)), (decide_False (P := 2 = 3 + 1)) by done.
  split; [done|]. split; [done|].
  split; [|split].
  - intros Hne. by rewrite decide_False.
  - intros Hne. by rewrite decide_False.
  - intros He. by rewrite decide_True.
Qed.

Lemma custom_sysex_press_example_witness :
  let T := Bench.board 8 false in
  let d := Bench.descriptor MOMENTARY CUSTOM_SYS_EX midi.SYS_EX 0 1 2 85 in
  exists frame,
    published (processButton T 0 true d (Bench.world0 sysexStore))
    = [(messaging.BUTTON,
        messaging.with_message midi.SYS_EX
          (messaging.with_sysEx (messaging.local frame false) 5 (event d)))]
    /\ at_ frame 0 = 240
    /\ at_ frame 1 = 1
    /\ at_ frame 2 = 85
    /\ at_ frame 4 = 247.
Proof.
  intros T d.
  destruct (custom_sysex_press_example T 0 d (Bench.world0 sysexStore))
    as (frame & traceBuf & H1 & _ & _ & H4 & H5 & H6 & _ & H8);
    [reflexivity | reflexivity | reflexivity | discriminate
    | reflexivity | reflexivity |].
  exists frame. split; [exact H1|]. split; [exact H4|].
  split; [apply H6; discriminate|].
  split; [apply H8; reflexivity | exact H5].
Defined.

(** C1 as stated fails: the stored word 0x0201 with payload length 3 and no
    variable position gives the frame F0 01 04 03 F7, which does not begin
    F0 01 02. *)
Lemma custom_sysex_0x0201_is_not_01_02 :
  let T := Bench.board 8 false in
  let d := Bench.descriptor MOMENTARY CUSTOM_SYS_EX midi.SYS_EX 0 1 0 0 in
  db_read sysexStore (button SYSEX_LENGTH 0) = 3
  /\ db_read sysexStore (button (SYSEX_DATA 0) 0) = 513
  /\ (exists e frame alive,
        published (processButton T 0 true d (Bench.world0 sysexStore))
        = [(messaging.BUTTON, e)]
        /\ messaging.sysEx e = messaging.local frame alive
        /\ take 5 frame = [240; 1; 4; 3; 247])
  /\ ~ (exists e frame alive rest,
          published (processButton T 0 true d (Bench.world0 sysexStore))
          = [(messaging.BUTTON, e)]
          /\ messaging.sysEx e = messaging.local frame alive
          /\ frame = 240 :: 1 :: 2 :: rest).
Proof.
  cbv zeta. split; [reflexivity|]. split; [reflexivity|]. split.
  - eexists _, _, _. split; [reflexivity|]. split; reflexivity.
  - intros (e & frame & alive & rest & He & Hp & Hf).
    vm_compute in He. injection He as <-. cbn in Hp.
    injection Hp as <- _. discriminate Hf.
Qed.

(** The word that gives F0 01 02 is 0x0101, that is 0x01 | (0x02 << 7). *)
Example custom_sysex_0x0101 :
  let T := Bench.board 8 false in
  let d := Bench.descriptor MOMENTARY CUSTOM_SYS_EX midi.SYS_EX 0 1 0 0 in
  let store := [ (button SYSEX_LENGTH 0, 3); (button (SYSEX_DATA 0) 0, 257);
                 (button (SYSEX_DATA 1) 0, 3) ] in
  map (fun p => messaging.sysEx p.2)
      (published (processButton T 0 true d (Bench.world0 store)))
  = [messaging.local ([240; 1; 2; 3; 247] ++ replicate 11 0) false].
Proof. reflexivity. Qed.

(** ** Legato *)

Section Legato.
Context {DB G : Type} `{!Database DB} `{!Globals G} (T : Target).

Lemma sendMessage_legato_press index d (w : @World DB G) :
  messageType d = NOTE_LEGATO ->
  sendMessage T index true d w
  = let b := buttons w in
    let ch := legatoChannel d in
    let count := u8 (at_ (_legatoButtonCount b) ch + 1) in
    let prevNote := at_ (_legatoActiveNote b) ch in
    (with_event (noteOnOf (event d)) d,
     mkWorld (with_legatoActiveNote (put (_legatoActiveNote b) ch (legatoNote d))
                (with_legatoButtonCount (put (_legatoButtonCount b) ch count) b))
             (database w) (globals w),
     (if (1 <? count) && negb (prevNote =? legatoNote d)
      then [(messaging.BUTTON, noteOffOf prevNote (event d))] else [])
     ++ [(messaging.BUTTON, noteOnOf (event d))]).
Proof.
  intros Hm. unfold sendMessage, onPress. unfold_engine. rewrite Hm. cbv zeta.
  fold (legatoChannel d). fold (legatoNote d). cbn.
  destruct (1 <? u8 (at_ (_legatoButtonCount (buttons w)) (legatoChannel d) + 1)); cbn;
    [destruct (at_ (_legatoActiveNote (buttons w)) (legatoChannel d) =? legatoNote d); cbn|];
    done.
Qed.

Lemma sendMessage_legato_release index d (w : @World DB G) :
  messageType d = NOTE_LEGATO ->
  sendMessage T index false d w
  = let b := buttons w in
    let ch := legatoChannel d in
    let n := at_ (_legatoButtonCount b) ch in
    let b1 := if 0 <? n
              then with_legatoButtonCount (put (_legatoButtonCount b) ch (u8 (n - 1))) b
              else b in
    if at_ (_legatoButtonCount b1) ch =? 0 then
      (with_event (noteOffOf (at_ (_legatoActiveNote b) ch) (event d)) d,
       mkWorld (with_legatoActiveNote (put (_legatoActiveNote b1) ch 0) b1)
               (database w) (globals w),
       [(messaging.BUTTON, noteOffOf (at_ (_legatoActiveNote b) ch) (event d))])
    else (d, mkWorld b1 (database w) (globals w), []).
Proof.
  intros Hm. unfold sendMessage, onRelease. unfold_engine. rewrite Hm. cbv zeta.
  fold (legatoChannel d).
  destruct (0 <? at_ (_legatoButtonCount (buttons w)) (legatoChannel d)); cbn.
  - destruct (at_ (put _ _ _) _ =? 0); cbn; done.
  - destruct (at_ (_legatoButtonCount (buttons w)) (legatoChannel d) =? 0) eqn:E; cbn.
    + by destruct w as [[] ? ?].
    + by destruct w as [[] ? ?].
Qed.

(** No message kind but NOTE_LEGATO touches the counts, and NOTE_LEGATO
    keeps them bytes. *)
Lemma sendMessage_byteCounts index s d (w : @World DB G) :
  byteCounts (buttons w) -> byteCounts (buttons (after (sendMessage T index s d w))).
Proof.
  intros Hb. unfold byteCounts in *.
  destruct (decide (messageType d = NOTE_LEGATO)) as [Hm|Hm].
  - destruct s.
    + rewrite sendMessage_legato_press by done. cbn.
      apply Forall_insert; [done|]. apply u8_range.
    + rewrite sendMessage_legato_release by done. cbv zeta.
      repeat case_match; cbn; try done; apply Forall_insert; try done; apply u8_range.
  - unfold sendMessage, onPress, onRelease. unfold_engine.
    destruct s, (messageType d); try done; cbn;
      repeat (case_match; cbn in *; simplify_eq); done.
Qed.
Lemma processButton_byteCounts index reading d (w : @World DB G) :
  byteCounts (buttons w) ->
  byteCounts (buttons (after (processButton T index reading d w))).
Proof.
  intros Hb.
  destruct (decide (reading = state index (buttons w))) as [E|E].
  - by rewrite processButton_no_edge.
  - destruct (overridden T index w) eqn:O.
    + rewrite processButton_overridden by done.
      change (after (d, ?x, ?o)) with x.
      unfold byteCounts. by rewrite processSax_counts.
    + rewrite processButton_plain by done.
      unfold translate. repeat case_match; try done;
        by apply sendMessage_byteCounts.
Qed.
End Legato.

Lemma legatoChannel_range (d : Descriptor) : 0 <= legatoChannel d < 16.
Proof.
  unfold legatoChannel.
  assert (H : 0 <= Z.land (messaging.channel (event d)) 15 < 16).
  { change 15 with (Z.ones 4). rewrite Z.land_ones by lia.
    apply Z.mod_pos_bound. lia. }
  rewrite u8_small; lia.
Qed.

Lemma legatoNote_small (d : Descriptor) :
  0 <= messaging.index (event d) < 128 -> legatoNote d = messaging.index (event d).
Proof.
  intros H. unfold legatoNote.
  change 127 with (Z.ones 7). rewrite Z.land_ones by lia.
  change (2 ^ 7) with 128. rewrite Z.mod_small by lia. apply u8_small. lia.
Qed.

Lemma at_byte (a : list Z) (i : Z) :
  Forall (fun c => 0 <= c < 256) a -> 0 <= at_ a i < 256.
Proof.
  intros Ha. unfold at_.
  destruct (a !! Z.to_nat i) as [c|] eqn:E; cbn; [|lia].
  by apply (Forall_lookup_1 _ _ _ _ Ha E).
Qed.

(** C2, as the code has it: the press-reference count of a channel stays a
    byte (so never negative) over every [sendMessage] and every
    [processButton]; a NOTE_LEGATO release
    lowers a positive count by one and leaves a zero count at zero; it
    publishes a Note Off exactly when the count is zero after it, that is
    when the count before it was 1 or was already 0, and publishes nothing
    while the count remains positive. *)
Theorem legato_count_and_note_off {DB G : Type} `{!Database DB} `{!Globals G}
    (T : Target) (index : Z) (d : Descriptor) (w : @World DB G) :
  messageType d = NOTE_LEGATO ->
  byteCounts (buttons w) ->
  length (_legatoButtonCount (buttons w)) = 16%nat ->
  let ch := legatoChannel d in
  let n := at_ (_legatoButtonCount (buttons w)) ch in
  let release := sendMessage T index false d w in
  (forall i s d', byteCounts (buttons (after (sendMessage T i s d' w))))
  /\ (forall i reading d',
      byteCounts (buttons (after (processButton T i reading d' w))))
  /\ 0 <= n
  /\ at_ (_legatoButtonCount (buttons (after release))) ch = Z.max 0 (n - 1)
  /\ (n <= 1 ->
      published release
      = [(messaging.BUTTON, noteOffOf (at_ (_legatoActiveNote (buttons w)) ch) (event d))])
  /\ (1 < n -> published release = []).
Proof.
  intros Hm Hb Hlen ch n release.
  pose proof (at_byte _ ch Hb) as Hn. fold n in Hn.
  pose proof (legatoChannel_range d) as Hch. fold ch in Hch.
  split; [intros i s d'; by apply sendMessage_byteCounts|].
  split; [intros i reading d'; by apply processButton_byteCounts|].
  split; [lia|].
  subst release. rewrite sendMessage_legato_release by done. cbv zeta.
  fold ch. fold n.
  destruct (0 <? n) eqn:Hpos.
  - apply Z.ltb_lt in Hpos.
    cbn [_legatoButtonCount with_legatoButtonCount].
    rewrite at_put_eq by lia. rewrite (u8_small (n - 1)) by lia.
    destruct (n - 1 =? 0) eqn:Hz.
    + apply Z.eqb_eq in Hz.
      unfold after, published.
      cbn [fst snd buttons _legatoButtonCount with_legatoActiveNote with_legatoButtonCount].
      rewrite at_put_eq by lia.
      split; [lia|]. split; [done|]. lia.
    + apply Z.eqb_neq in Hz.
      unfold after, published.
      cbn [fst snd buttons _legatoButtonCount with_legatoActiveNote with_legatoButtonCount].
      rewrite at_put_eq by lia.
      split; [lia|]. split; [lia|done].
  - apply Z.ltb_ge in Hpos. fold n.
    rewrite (proj2 (Z.eqb_eq n 0)) by lia.
    unfold after, published.
    cbn [fst snd buttons _legatoButtonCount with_legatoActiveNote with_legatoButtonCount].
    fold n. split; [lia|]. split; [done|lia].
Qed.

Lemma legato_count_and_note_off_witness :
  let T := Bench.board 8 false in
  let w := after (sendMessage T 1 true (legatoButton 1 3 62)
                    (after (sendMessage T 0 true (legatoButton 0 3 60) (Bench.world0 [])))) in
  at_ (_legatoButtonCount (buttons w)) 3 = 2
  /\ published (sendMessage T 0 false (legatoButton 0 3 60) w) = []
  /\ at_ (_legatoButtonCount (buttons (after (sendMessage T 0 false (legatoButton 0 3 60) w)))) 3 = 1.
Proof.
  intros T w.
  destruct (legato_count_and_note_off T 0 (legatoButton 0 3 60) w)
    as (_ & _ & _ & H3 & _ & H5).
  - reflexivity.
  - unfold byteCounts. vm_compute. repeat constructor; discriminate.
  - reflexivity.
  - split; [reflexivity|]. split; [apply H5; vm_compute; reflexivity | exact H3].
Defined.

(** C2 as stated fails where it says "never when the count was already 0":
    on a channel whose count is 0, a NOTE_LEGATO release publishes a Note
    Off. *)
Lemma legato_release_at_zero_publishes :
  let T := Bench.board 8 false in
  let w := Bench.world0 [] in
  at_ (_legatoButtonCount (buttons w)) (legatoChannel (legatoButton 0 3 60)) = 0
  /\ at_ (_legatoButtonCount
            (buttons (after (sendMessage T 0 false (legatoButton 0 3 60) w))))
         (legatoChannel (legatoButton 0 3 60)) = 0
  /\ published (sendMessage T 0 false (legatoButton 0 3 60) w) <> []
  /\ exists e,
       published (sendMessage T 0 false (legatoButton 0 3 60) w) = [(messaging.BUTTON, e)]
       /\ messaging.message e = midi.NOTE_OFF.
Proof.
  cbv zeta. split; [reflexivity|]. split; [reflexivity|]. split; [discriminate|].
  eexists. split; reflexivity.
Qed.

Section LegatoEdges.
Context {DB G : Type} `{!Database DB} `{!Globals G} (T : Target).

(** NOTE_LEGATO edges go to [sendMessage] as they are, whatever the type. *)
Lemma legato_edge index reading d (w : @World DB G) :
  messageType d = NOTE_LEGATO ->
  reading <> state index (buttons w) -> overridden T index w = false ->
  processButton T index reading d w
  = sendMessage T index reading d (commit index reading w).
Proof.
  intros Hm He Ho. rewrite processButton_plain by done.
  unfold translate. rewrite Hm.
  rewrite (bool_decide_eq_false_2 (NOTE_LEGATO = NONE)) by discriminate.
  rewrite (bool_decide_eq_true_2 (NOTE_LEGATO = NOTE_LEGATO)) by done.
  by rewrite andb_false_r.
Qed.

Lemma legato_press_edge index d (w : @World DB G) (n : Z) :
  messageType d = NOTE_LEGATO ->
  state index (buttons w) = false -> overridden T index w = false ->
  length (_legatoButtonCount (buttons w)) = 16%nat ->
  length (_legatoActiveNote (buttons w)) = 16%nat ->
  at_ (_legatoButtonCount (buttons w)) (legatoChannel d) = n -> 0 <= n < 255 ->
  let ch := legatoChannel d in
  let prevNote := at_ (_legatoActiveNote (buttons w)) ch in
  let r := processButton T index true d w in
  published r
  = (if decide (1 <= n /\ prevNote <> legatoNote d)
     then [(messaging.BUTTON, noteOffOf prevNote (event d))] else [])
    ++ [(messaging.BUTTON, noteOnOf (event d))]
  /\ _buttonPressed (buttons (after r)) = _buttonPressed (setState index true (buttons w))
  /\ database (after r) = database w
  /\ at_ (_legatoButtonCount (buttons (after r))) ch = n + 1
  /\ at_ (_legatoActiveNote (buttons (after r))) ch = legatoNote d
  /\ length (_legatoButtonCount (buttons (after r))) = 16%nat
  /\ length (_legatoActiveNote (buttons (after r))) = 16%nat.
Proof.
  intros Hm Hs Ho Hlc Hla Hn Hr ch prevNote r.
  pose proof (legatoChannel_range d) as Hch. fold ch in Hch, Hn.
  subst r. rewrite legato_edge by (done || (rewrite Hs; done)).
  rewrite sendMessage_legato_press by done. cbv zeta. fold ch.
  unfold after, published, commit.
  cbn [fst snd buttons database _legatoButtonCount _legatoActiveNote _buttonPressed
       with_legatoActiveNote with_legatoButtonCount].
  change (_legatoButtonCount (setState index true (buttons w)))
    with (_legatoButtonCount (buttons w)).
  change (_legatoActiveNote (setState index true (buttons w)))
    with (_legatoActiveNote (buttons w)).
  rewrite Hn, (u8_small (n + 1)) by lia. fold prevNote.
  rewrite !at_put_eq by lia. rewrite !length_put.
  split; [|done].
  destruct (decide (1 <= n /\ prevNote <> legatoNote d)) as [[H1 H2]|Hno].
  - rewrite (proj2 (Z.ltb_lt 1 (n + 1))) by lia.
    by rewrite (proj2 (Z.eqb_neq _ _) H2).
  - destruct (1 <? n + 1) eqn:E1; [|done].
    apply Z.ltb_lt in E1.
    destruct (prevNote =? legatoNote d) eqn:E2; [done|].
    apply Z.eqb_neq in E2. exfalso. apply Hno. split; [lia|done].
Qed.

(** Releasing, in any order, all the inputs that hold a channel: only the
    last release publishes, and what it publishes is the Note Off of the
    sounding note. *)
Lemma legato_release_all (ch : Z) (rel : list (Z * bool * Descriptor)) :
  forall w : @World DB G,
    NoDup (rel.*1.*1) -> Forall (releasable T ch w) rel ->
    at_ (_legatoButtonCount (buttons w)) ch = Z.of_nat (length rel) ->
    length (_legatoButtonCount (buttons w)) = 16%nat ->
    (0 < length rel < 256)%nat ->
    exists front e, rel = front ++ [e]
      /\ (edges T rel w).1
         = replicate (length front) []
           ++ [[(messaging.BUTTON,
                 noteOffOf (at_ (_legatoActiveNote (buttons w)) ch) (event e.2))]].
Proof.
  induction rel as [|[[i r] d] rest IH]; intros w Hnd Hall Hn Hlc Hlen.
  - cbn in Hlen. lia.
  - apply Forall_cons_1 in Hall as [(Hr & Hm & Hc & Hs & Hi & Ho) Hrest].
    cbn in Hr, Hm, Hc, Hs, Hi, Ho. subst r.
    cbn [fmap list_fmap fst] in Hnd. pose proof (NoDup_cons_1_1 _ _ Hnd) as Hfresh.
    apply NoDup_cons_1_2 in Hnd.
    pose proof (legatoChannel_range d) as Hch. rewrite Hc in Hch.
    cbn [edges].
    rewrite legato_edge by (done || (rewrite Hs; done)).
    rewrite sendMessage_legato_release by done. cbv zeta. rewrite Hc.
    change (_legatoButtonCount (buttons (commit i false w)))
      with (_legatoButtonCount (buttons w)).
    change (_legatoActiveNote (buttons (commit i false w)))
      with (_legatoActiveNote (buttons w)).
    rewrite Hn. cbn [length] in *.
    rewrite (proj2 (Z.ltb_lt 0 (Z.of_nat (S (length rest))))) by lia.
    cbn [_legatoButtonCount with_legatoButtonCount].
    rewrite at_put_eq by lia.
    rewrite (u8_small (Z.of_nat (S (length rest)) - 1)) by lia.
    destruct rest as [|e2 rest].
    + cbn. exists [], (i, false, d). split; [reflexivity|]. done.
    + rewrite (proj2 (Z.eqb_neq (Z.of_nat (S (length (e2 :: rest))) - 1) 0))
        by (cbn [length]; lia).
      set (w' := mkWorld _ _ _).
      change (after (d, w', [])) with w'. change (published (d, w', [])) with (@nil Publication).
      destruct (IH w') as (front & e & Hlast & Hout).
      * done.
      * apply Forall_forall. intros [[j rj] dj] Hin.
        pose proof (proj1 (Forall_forall _ _) Hrest _ Hin) as (Hr & Hm' & Hc' & Hs' & Hj & Ho').
        cbn in Hr, Hm', Hc', Hs', Hj, Ho'.
        assert (Hne : j <> i).
        { intros ->. apply Hfresh. apply list_elem_of_In in Hin.
          apply (list_elem_of_fmap_2 fst) in Hin.
          apply (list_elem_of_fmap_2 fst) in Hin. exact Hin. }
        repeat split; try done; cbn.
        -- rewrite (state_ext j (setState i false (buttons w))) by done.
           rewrite state_setState_ne by done. done.
        -- lia.
        -- lia.
      * subst w'. cbn [buttons _legatoButtonCount with_legatoButtonCount].
        rewrite at_put_eq by lia. cbn [length]. lia.
      * subst w'. cbn [buttons _legatoButtonCount with_legatoButtonCount].
        by rewrite length_put.
      * cbn [length] in *. lia.
      * exists ((i, false, d) :: front), e. split; [by rewrite Hlast|].
        destruct (edges T (e2 :: rest) w') as [outs w''] eqn:Ee.
        cbn [fst] in *. by rewrite Hout.
Qed.
End LegatoEdges.

Lemma edges_cons {DB G : Type} `{!Database DB} `{!Globals G} (T : Target)
    (index : Z) (reading : bool) (d : Descriptor)
    (es : list (Z * bool * Descriptor)) (w : @World DB G) :
  edges T ((index, reading, d) :: es) w
  = (published (processButton T index reading d w)
       :: (edges T es (after (processButton T index reading d w))).1,
     (edges T es (after (processButton T index reading d w))).2).
Proof. cbn [edges]. by destruct (edges T es _). Qed.

(** C4: three NOTE_LEGATO inputs on one channel with distinct notes A, B,
    C, pressed in that order from an idle channel, publish On(A), then
    Off(A) and On(B), then Off(B) and On(C); releasing the three in any
    order then publishes nothing for the first two releases and one Note Off
    (of C, the sounding note) for the last. *)
Theorem legato_three_notes {DB G : Type} `{!Database DB} `{!Globals G}
    (T : Target) (i1 i2 i3 : Z) (dA dB dC : Descriptor) (w : @World DB G) :
  NoDup [i1; i2; i3] ->
  Forall (fun i => addresses (_buttonPressed (buttons w)) i
                   /\ state i (buttons w) = false
                   /\ overridden T i w = false) [i1; i2; i3] ->
  Forall (fun d => messageType d = NOTE_LEGATO
                   /\ messaging.channel (event d) = messaging.channel (event dA)
                   /\ 0 <= messaging.index (event d) < 128) [dA; dB; dC] ->
  NoDup [messaging.index (event dA); messaging.index (event dB);
         messaging.index (event dC)] ->
  length (_legatoButtonCount (buttons w)) = 16%nat ->
  length (_legatoActiveNote (buttons w)) = 16%nat ->
  at_ (_legatoButtonCount (buttons w)) (legatoChannel dA) = 0 ->
  let A := messaging.index (event dA) in
  let B := messaging.index (event dB) in
  let C := messaging.index (event dC) in
  let presses := edges T [(i1, true, dA); (i2, true, dB); (i3, true, dC)] w in
  presses.1
  = [ [(messaging.BUTTON, noteOnOf (event dA))];
      [(messaging.BUTTON, noteOffOf A (event dB)); (messaging.BUTTON, noteOnOf (event dB))];
      [(messaging.BUTTON, noteOffOf B (event dC)); (messaging.BUTTON, noteOnOf (event dC))] ]
  /\ forall rel,
       rel ≡ₚ [(i1, false, dA); (i2, false, dB); (i3, false, dC)] ->
       exists front e,
         rel = front ++ [e]
         /\ (edges T rel presses.2).1
            = [[]; []; [(messaging.BUTTON, noteOffOf C (event e.2))]].
Proof.
  intros Hnd Hidx Hds Hnotes Hlc Hla H0 A B C presses.
  apply Forall_cons_1 in Hidx as [(Ha1 & Hs1 & Ho1) Hidx].
  apply Forall_cons_1 in Hidx as [(Ha2 & Hs2 & Ho2) Hidx].
  apply Forall_cons_1 in Hidx as [(Ha3 & Hs3 & Ho3) _].
  apply Forall_cons_1 in Hds as [(HmA & _ & HrA) Hds].
  apply Forall_cons_1 in Hds as [(HmB & HcB & HrB) Hds].
  apply Forall_cons_1 in Hds as [(HmC & HcC & HrC) _].
  assert (HAB : A <> B /\ A <> C /\ B <> C).
  { pose proof (NoDup_cons_1_1 _ _ Hnotes) as N1.
    pose proof (NoDup_cons_1_1 _ _ (NoDup_cons_1_2 _ _ Hnotes)) as N2.
    apply not_elem_of_cons in N1 as [? N1]. apply not_elem_of_cons in N1 as [? _].
    apply not_elem_of_cons in N2 as [? _]. done. }
  assert (H123 : i1 <> i2 /\ i1 <> i3 /\ i2 <> i3).
  { pose proof (NoDup_cons_1_1 _ _ Hnd) as N1.
    pose proof (NoDup_cons_1_1 _ _ (NoDup_cons_1_2 _ _ Hnd)) as N2.
    apply not_elem_of_cons in N1 as [? N1]. apply not_elem_of_cons in N1 as [? _].
    apply not_elem_of_cons in N2 as [? _]. done. }
  destruct HAB as (HAB & HAC & HBC). destruct H123 as (H12 & H13 & H23).
  set (ch := legatoChannel dA) in *.
  assert (HchB : legatoChannel dB = ch) by (unfold ch, legatoChannel; by rewrite HcB).
  assert (HchC : legatoChannel dC = ch) by (unfold ch, legatoChannel; by rewrite HcC).
  pose proof (legatoNote_small dA HrA) as HnA.
  pose proof (legatoNote_small dB HrB) as HnB.
  pose proof (legatoNote_small dC HrC) as HnC.
  fold A in HnA. fold B in HnB. fold C in HnC.
  assert (Hb1 : 0 <= i1 < 2048) by (destruct Ha1; lia).
  assert (Hb2 : 0 <= i2 < 2048) by (destruct Ha2; lia).
  assert (Hb3 : 0 <= i3 < 2048) by (destruct Ha3; lia).
  (* first press *)
  destruct (legato_press_edge T i1 dA w 0 HmA Hs1 Ho1 Hlc Hla H0 ltac:(lia))
    as (P1 & B1 & D1 & C1 & N1 & LC1 & LA1).
  set (w1 := after (processButton T i1 true dA w)) in *.
  fold ch in P1, C1, N1.
  rewrite decide_False in P1 by lia. cbn [app] in P1.
  assert (S11 : state i1 (buttons w1) = true).
  { rewrite (state_ext i1 _ _ B1). by apply state_setState_eq. }
  assert (S12 : state i2 (buttons w1) = false).
  { rewrite (state_ext i2 _ _ B1), state_setState_ne by done. done. }
  assert (S13 : state i3 (buttons w1) = false).
  { rewrite (state_ext i3 _ _ B1), state_setState_ne by done. done. }
  assert (L1 : length (_buttonPressed (buttons w1)) = length (_buttonPressed (buttons w))).
  { rewrite B1. apply length_setState. }
  (* second press *)
  assert (O2 : overridden T i2 w1 = false).
  { rewrite <- Ho2. by apply overridden_ext. }
  rewrite <- HchB in C1.
  destruct (legato_press_edge T i2 dB w1 1 HmB S12 O2 LC1 LA1 C1 ltac:(lia))
    as (P2 & B2 & D2 & C2 & N2 & LC2 & LA2).
  set (w2 := after (processButton T i2 true dB w1)) in *.
  rewrite HchB in P2, C2, N2. rewrite N1, HnA, HnB in P2.
  rewrite decide_True in P2 by (split; [lia|done]). cbn [app] in P2.
  assert (S21 : state i1 (buttons w2) = true).
  { rewrite (state_ext i1 _ _ B2), state_setState_ne by done. done. }
  assert (S22 : state i2 (buttons w2) = true).
  { rewrite (state_ext i2 _ _ B2). apply state_setState_eq.
    unfold addresses. rewrite L1. apply Ha2. }
  assert (S23 : state i3 (buttons w2) = false).
  { rewrite (state_ext i3 _ _ B2), state_setState_ne by done. done. }
  assert (L2 : length (_buttonPressed (buttons w2)) = length (_buttonPressed (buttons w))).
  { rewrite B2, length_setState. done. }
  (* third press *)
  assert (O3 : overridden T i3 w2 = false).
  { rewrite <- Ho3. apply overridden_ext. by rewrite D2. }
  rewrite <- HchC in C2.
  destruct (legato_press_edge T i3 dC w2 2 HmC S23 O3 LC2 LA2 C2 ltac:(lia))
    as (P3 & B3 & D3 & C3 & N3 & LC3 & LA3).
  set (w3 := after (processButton T i3 true dC w2)) in *.
  rewrite HchC in P3, C3, N3. rewrite N2, HnB, HnC in P3.
  rewrite decide_True in P3 by (split; [lia|done]). cbn [app] in P3.
  assert (S31 : state i1 (buttons w3) = true).
  { rewrite (state_ext i1 _ _ B3), state_setState_ne by done. done. }
  assert (S32 : state i2 (buttons w3) = true).
  { rewrite (state_ext i2 _ _ B3), state_setState_ne by done. done. }
  assert (S33 : state i3 (buttons w3) = true).
  { rewrite (state_ext i3 _ _ B3). apply state_setState_eq.
    unfold addresses. rewrite L2. apply Ha3. }
  assert (D : database w3 = database w) by (by rewrite D3, D2).
  assert (Hrun : presses
                 = ([published (processButton T i1 true dA w);
                     published (processButton T i2 true dB w1);
                     published (processButton T i3 true dC w2)], w3)).
  { subst presses. by rewrite !edges_cons. }
  rewrite Hrun. cbn [fst snd]. rewrite P1, P2, P3.
  split; [done|].
  intros rel Hperm.
  destruct (legato_release_all T ch rel w3) as (front & e & Hrel & Hout).
  - rewrite Hperm. cbn. exact Hnd.
  - rewrite Hperm. repeat apply Forall_cons_2; try apply Forall_nil_2;
      (split; [done|]); (split; [done|]); (split; [done|]); (split; [done|]);
      (split; [done|]); cbn.
    + rewrite <- Ho1. by apply overridden_ext.
    + rewrite <- Ho2. by apply overridden_ext.
    + rewrite <- Ho3. by apply overridden_ext.
  - rewrite C3, Hperm. done.
  - done.
  - rewrite Hperm. cbn. lia.
  - exists front, e. split; [done|].
    rewrite Hout, N3, HnC.
    assert (Hlen : length front = 2%nat).
    { apply (f_equal length) in Hrel. rewrite Hperm, length_app in Hrel.
      cbn in Hrel. lia. }
    by rewrite Hlen.
Qed.

Lemma legato_three_notes_witness :
  let T := Bench.board 8 false in
  let dA := legatoButton 0 3 60 in
  let dB := legatoButton 1 3 62 in
  let dC := legatoButton 2 3 64 in
  let presses := edges T [(0, true, dA); (1, true, dB); (2, true, dC)] (Bench.world0 []) in
  presses.1
  = [ [(messaging.BUTTON, noteOnOf (event dA))];
      [(messaging.BUTTON, noteOffOf 60 (event dB)); (messaging.BUTTON, noteOnOf (event dB))];
      [(messaging.BUTTON, noteOffOf 62 (event dC)); (messaging.BUTTON, noteOnOf (event dC))] ]
  /\ exists front e,
       [(2, false, dC); (0, false, dA); (1, false, dB)] = front ++ [e]
       /\ (edges T [(2, false, dC); (0, false, dA); (1, false, dB)] presses.2).1
          = [[]; []; [(messaging.BUTTON, noteOffOf 64 (event e.2))]].
Proof.
  intros T dA dB dC presses.
  destruct (legato_three_notes T 0 1 2 dA dB dC (Bench.world0 [])) as [H1 H2].
  - apply (bool_decide_unpack _). vm_compute. exact I.
  - repeat apply Forall_cons_2; try apply Forall_nil_2;
      (split; [solve_addresses | split; reflexivity]).
  - repeat apply Forall_cons_2; try apply Forall_nil_2;
      (split; [reflexivity | split; [reflexivity | cbn; lia]]).
  - apply (bool_decide_unpack _). vm_compute. exact I.
  - reflexivity.
  - reflexivity.
  - reflexivity.
  - split; [exact H1|].
    apply H2.
    etrans; [apply perm_swap|]. apply perm_skip, perm_swap.
Defined.

(** ** Register-chromatic engine *)

Lemma highestPressed_none (pressed : Z -> bool) (n : nat) :
  (forall i, 0 <= i < Z.of_nat n -> pressed i = false) ->
  highestPressed pressed n = -1.
Proof.
  induction n as [|n IH]; intros Hnone; [done|].
  cbn [highestPressed]. rewrite Hnone by lia. apply IH. intros i Hi. apply Hnone. lia.
Qed.

Lemma highestPressed_top (pressed : Z -> bool) (n : nat) (k : Z) :
  0 <= k < Z.of_nat n -> pressed k = true ->
  (forall j, k < j < Z.of_nat n -> pressed j = false) ->
  highestPressed pressed n = k.
Proof.
  induction n as [|n IH]; intros Hk Hp Habove; [lia|].
  cbn [highestPressed].
  destruct (decide (k = Z.of_nat n)) as [->|Hne].
  - by rewrite Hp.
  - rewrite Habove by lia. apply IH; [lia | done |].
    intros j Hj. apply Habove. lia.
Qed.

(** The scan always yields either -1 or the highest pressed index. *)
Lemma highestPressed_spec (pressed : Z -> bool) (n : nat) :
  let k := highestPressed pressed n in
  (k = -1 /\ forall i, 0 <= i < Z.of_nat n -> pressed i = false)
  \/ (0 <= k < Z.of_nat n /\ pressed k = true
      /\ forall j, k < j < Z.of_nat n -> pressed j = false).
Proof.
  induction n as [|n IH]; cbn [highestPressed].
  - left. split; [done|]. intros i Hi. lia.
  - destruct (pressed (Z.of_nat n)) eqn:E.
    + right. split; [lia|]. split; [done|]. intros j Hj. lia.
    + destruct IH as [[Hk Hnone]|(Hk & Hp & Habove)].
      * left. split; [done|]. intros i Hi.
        destruct (decide (i = Z.of_nat n)) as [->|]; [done|]. apply Hnone. lia.
      * right. split; [lia|]. split; [done|]. intros j Hj.
        destruct (decide (j = Z.of_nat n)) as [->|]; [done|]. apply Habove. lia.
Qed.

Section Sax.
Context {DB G : Type} `{!Database DB} `{!Globals G} (T : Target).

Lemma processSax_unfold (w : @World DB G) :
  processSaxRegisterChromatic T w
  = let db := database w in
    let channel := saxChannelOf db in
    let scan := scanTable T db (saxMask T w) in
    if anyEnabled scan then
      if negb (hasMatch scan) || (saxMask T w =? 0) then saxSilence channel w
      else saxSound channel (i16 (i16 (bestNote scan) + saxTranspose db)) w
    else if saxActiveKey T w <? 0 then saxSilence channel w
    else saxSound channel (i16 (i16 (saxBase db) + i16 (saxMapped T w) + saxTranspose db)) w.
Proof.
  unfold processSaxRegisterChromatic, saxChannel, saxChannelOf, saxMapped.
  unfold read, getButtons, mbind, mret, M_bind, M_ret. cbv zeta.
  fold (saxInvert (database w)). fold (saxKeys w). fold (saxMask T w).
  fold (saxActiveKey T w). fold (saxTranspose (database w)). fold (saxBase (database w)).
  destruct ((1 <=? u8 (db_read (database w) MIDI_SETTINGS_GLOBAL_CHANNEL))
            && (u8 (db_read (database w) MIDI_SETTINGS_GLOBAL_CHANNEL) <=? 16));
    cbn [app];
    (destruct (anyEnabled (scanTable T (database w) (saxMask T w)));
     [ destruct (negb (hasMatch (scanTable T (database w) (saxMask T w)))
                 || (saxMask T w =? 0))
     | destruct (saxActiveKey T w <? 0) ]);
    match goal with
    | |- context [saxSilence ?c ?w] => by destruct (saxSilence c w) as [[[] ?] ?]
    | |- context [saxSound ?c ?n ?w] => by destruct (saxSound c n w) as [[[] ?] ?]
    end.
Qed.

Lemma saxSilence_unfold (channel : Z) (w : @World DB G) :
  saxSilence channel w
  = if _saxNoteOn (buttons w) then
      (tt, mkWorld (with_sax false (_saxActiveNote (buttons w)) (buttons w))
                   (database w) (globals w),
       [(messaging.BUTTON, saxNoteOff channel (_saxActiveNote (buttons w)))])
    else (tt, w, []).
Proof.
  unfold saxSilence, notify, getButtons, modifyButtons, mbind, mret, M_bind, M_ret.
  by destruct (_saxNoteOn (buttons w)).
Qed.

Lemma saxSound_unfold (channel noteWide : Z) (w : @World DB G) :
  saxSound channel noteWide w
  = let b := buttons w in
    let newNote := u8 (clampNote noteWide) in
    if _saxNoteOn b && (_saxActiveNote b =? newNote) then (tt, w, [])
    else (tt, mkWorld (with_sax true newNote b) (database w) (globals w),
          (if _saxNoteOn b
           then [(messaging.BUTTON, saxNoteOff channel (_saxActiveNote b))] else [])
          ++ [(messaging.BUTTON, saxNoteOn channel newNote)]).
Proof.
  unfold saxSound, notify, getButtons, modifyButtons, mbind, mret, M_bind, M_ret.
  cbv zeta.
  destruct (_saxNoteOn (buttons w)); cbn [andb]; [|done].
  by destruct (_saxActiveNote (buttons w) =? u8 (clampNote noteWide)).
Qed.
End Sax.

(** *** The population count *)

Lemma bitsSet_range (n : nat) (v : Z) : 0 <= bitsSet n v <= Z.of_nat n.
Proof.
  revert v. induction n as [|n IH]; intros v; cbn [bitsSet]; [lia|].
  specialize (IH (Z.shiftr v 1)). destruct (Z.testbit v 0); cbn [Z.b2z]; lia.
Qed.

Lemma bitsSet_zero (n : nat) : bitsSet n 0 = 0.
Proof.
  induction n as [|n IH]; [done|]. cbn [bitsSet].
  by rewrite Z.shiftr_0_l, IH.
Qed.

(** The loop ends within its fuel and counts the set bits. *)
Lemma popcount_loop_bitsSet (fuel : nat) (v c : Z) :
  0 <= v < 2 ^ Z.of_nat fuel -> 0 <= c -> c + Z.of_nat fuel < 256 ->
  popcount_loop fuel v c = c + bitsSet fuel v.
Proof.
  revert v c. induction fuel as [|fuel IH]; intros v c Hv Hc Hf.
  - cbn. lia.
  - cbn [popcount_loop bitsSet].
    destruct (v =? 0) eqn:E.
    + apply Z.eqb_eq in E. subst v.
      rewrite Z.shiftr_0_l, bitsSet_zero. cbn. lia.
    + assert (Hbit : Z.land v 1 = Z.b2z (Z.testbit v 0)).
      { change 1 with (Z.ones 1). rewrite Z.land_ones by lia.
        rewrite Z.bit0_mod. done. }
      rewrite Hbit.
      assert (Hb : 0 <= Z.b2z (Z.testbit v 0) <= 1) by (destruct (Z.testbit v 0); cbn; lia).
      rewrite (u8_small (Z.b2z _)) by lia.
      rewrite (u8_small (c + _)) by lia.
      rewrite IH; [lia | | lia | lia].
      rewrite Z.shiftr_div_pow2 by lia.
      rewrite Nat2Z.inj_succ, Z.pow_succ_r in Hv by lia.
      change (2 ^ 1) with 2. split.
      * apply Z.div_pos; lia.
      * apply Z.div_lt_upper_bound; lia.
Qed.

Lemma popcount32_bitsSet (v : Z) :
  0 <= v < 4294967296 -> popcount32 v = bitsSet 32 v.
Proof.
  intros Hv. unfold popcount32.
  rewrite popcount_loop_bitsSet; [lia | | lia | lia].
  change (2 ^ Z.of_nat 32) with 4294967296. done.
Qed.

(** *** The fingering-table scan *)

Lemma seqZ_to_nat (m n : Z) : seqZ m n = seqZ m (Z.of_nat (Z.to_nat n)).
Proof. unfold seqZ. by rewrite Nat2Z.id. Qed.

Section Scan.
Context {DB : Type} `{!Database DB} (T : Target) (db : DB) (currentMask : Z).

Lemma scanEntry_cases (acc : Scan) (entry : Z) :
  scanEntry T db currentMask acc entry
  = if qualifies T db currentMask entry && (negb (hasMatch acc) || (bestScore acc <? entryScore T db entry))
    then mkScan true true (entryScore T db entry) (u8 (entryNote db entry))
    else mkScan (anyEnabled acc || entryEnabled T db entry)
                (hasMatch acc) (bestScore acc) (bestNote acc).
Proof.
  unfold scanEntry, qualifies, entryScore. destruct acc as [any has score note].
  cbn [anyEnabled hasMatch bestScore bestNote].
  destruct (entryEnabled T db entry); cbn [negb andb orb];
    [|by rewrite orb_false_r].
  rewrite orb_true_r.
  destruct (Z.land (entryMask T db entry) currentMask =? entryMask T db entry);
    cbn [negb andb]; [|done].
  rewrite Z.leb_antisym.
  destruct (127 <? entryNote db entry); cbn [negb andb];
    by destruct (negb has || (score <? popcount32 (entryMask T db entry))).
Qed.

#[local] Opaque entryScore.

Lemma scanUpTo_S (n : nat) :
  scanUpTo T db currentMask (S n) = scanEntry T db currentMask (scanUpTo T db currentMask n) (Z.of_nat n).
Proof. unfold scanUpTo. by rewrite seqZ_S, foldl_app. Qed.

Lemma scanTable_scanUpTo :
  scanTable T db currentMask = scanUpTo T db currentMask (Z.to_nat (SAX_FINGERING_TABLE_ENTRIES T)).
Proof. unfold scanTable, scanUpTo. by rewrite <- seqZ_to_nat. Qed.

(** [anyEnabled] after [n] iterations. *)
Lemma scanUpTo_anyEnabled (n : nat) :
  anyEnabled (scanUpTo T db currentMask n) = true
  <-> exists e, 0 <= e < Z.of_nat n /\ entryEnabled T db e = true.
Proof.
  induction n as [|n IH].
  - cbn. split; [done|]. intros (e & He & _). lia.
  - rewrite scanUpTo_S, scanEntry_cases.
    destruct (qualifies T db currentMask (Z.of_nat n)
              && (negb (hasMatch (scanUpTo T db currentMask n))
                  || (bestScore (scanUpTo T db currentMask n) <? entryScore T db (Z.of_nat n)))) eqn:Ec;
      cbn [anyEnabled].
    + split; [intros _|done].
      exists (Z.of_nat n). split; [lia|].
      apply andb_true_iff in Ec as [Hq _]. unfold qualifies in Hq.
      by apply andb_true_iff in Hq as [Hq _]; apply andb_true_iff in Hq as [Hq _].
    + rewrite orb_true_iff, IH. split.
      * intros [(e & He & Hen) | Hen]; [exists e; split; [lia|done]|].
        exists (Z.of_nat n). split; [lia|done].
      * intros (e & He & Hen).
        destruct (decide (e = Z.of_nat n)) as [->|]; [by right|].
        left. exists e. split; [lia|done].
Qed.

Lemma scanUpTo_inv (n : nat) :
  (hasMatch (scanUpTo T db currentMask n) = false
   /\ forall e, 0 <= e < Z.of_nat n -> qualifies T db currentMask e = false)
  \/ (hasMatch (scanUpTo T db currentMask n) = true /\ exists e, chosen T db currentMask n (scanUpTo T db currentMask n) e).
Proof.
  induction n as [|n IH].
  - left. split; [done|]. intros e He. lia.
  - rewrite scanUpTo_S, scanEntry_cases.
    destruct (qualifies T db currentMask (Z.of_nat n)) eqn:Hq; cbn [andb].
    + destruct IH as [[Hno Hnone] | (Hyes & e & He & Hqe & Hnote & Hscore & Hmax & Hfirst)].
      * rewrite Hno. cbn [negb orb]. right. split; [reflexivity|].
        exists (Z.of_nat n). unfold chosen. cbn [bestNote bestScore].
        split; [lia|]. split; [exact Hq|]. split; [reflexivity|]. split; [reflexivity|].
        split.
        -- intros e' He' Hq'.
           destruct (decide (e' = Z.of_nat n)) as [->|]; [lia|].
           rewrite Hnone in Hq' by lia. discriminate.
        -- intros e' He' Hq'. rewrite Hnone in Hq' by lia. discriminate.
      * rewrite Hyes. cbn [negb orb].
        destruct (bestScore (scanUpTo T db currentMask n) <? entryScore T db (Z.of_nat n)) eqn:Hlt.
        -- apply Z.ltb_lt in Hlt. right. split; [reflexivity|].
           exists (Z.of_nat n). unfold chosen. cbn [bestNote bestScore].
           split; [lia|]. split; [exact Hq|]. split; [reflexivity|]. split; [reflexivity|].
           split.
           ++ intros e' He' Hq'.
              destruct (decide (e' = Z.of_nat n)) as [->|]; [lia|].
              specialize (Hmax e' ltac:(lia) Hq'). lia.
           ++ intros e' He' Hq'. specialize (Hmax e' ltac:(lia) Hq'). lia.
        -- apply Z.ltb_ge in Hlt. right. split; [cbn [hasMatch]; first [reflexivity | exact Hyes]|].
           exists e. unfold chosen. cbn [bestNote bestScore].
           split; [lia|]. split; [exact Hqe|]. split; [exact Hnote|]. split; [exact Hscore|].
           split; [|exact Hfirst].
           intros e' He' Hq'.
           destruct (decide (e' = Z.of_nat n)) as [->|]; [lia|].
           apply Hmax; [lia|exact Hq'].
    + destruct IH as [[Hno Hnone] | (Hyes & e & He & Hqe & Hnote & Hscore & Hmax & Hfirst)].
      * left. split; [cbn [hasMatch]; exact Hno|]. intros e He.
        destruct (decide (e = Z.of_nat n)) as [->|]; [exact Hq|]. apply Hnone. lia.
      * right. split; [cbn [hasMatch]; first [reflexivity | exact Hyes]|].
        exists e. unfold chosen. cbn [bestNote bestScore].
        split; [lia|]. split; [exact Hqe|]. split; [exact Hnote|]. split; [exact Hscore|].
        split; [|exact Hfirst].
        intros e' He' Hq'.
        destruct (decide (e' = Z.of_nat n)) as [->|]; [congruence|].
        apply Hmax; [lia|exact Hq'].
Qed.

Lemma scanTable_winner (e : Z) :
  winner T db currentMask e ->
  hasMatch (scanTable T db currentMask) = true
  /\ bestNote (scanTable T db currentMask) = entryNote db e.
Proof.
  intros (He & Hq & Hbest).
  rewrite scanTable_scanUpTo.
  set (n := Z.to_nat (SAX_FINGERING_TABLE_ENTRIES T)).
  assert (Hn : Z.of_nat n = SAX_FINGERING_TABLE_ENTRIES T) by lia.
  destruct (scanUpTo_inv n) as [[_ Hnone] | (Hyes & e0 & He0 & Hq0 & Hnote & _ & Hmax & Hfirst)].
  - rewrite Hnone in Hq by lia. done.
  - split; [done|].
    assert (e0 = e) as ->.
    { destruct (Hbest e0 ltac:(lia) Hq0) as [Hle Htie].
      specialize (Hmax e ltac:(lia) Hq).
      assert (Heqs : entryScore T db e0 = entryScore T db e) by lia.
      specialize (Htie Heqs).
      destruct (decide (e = e0)) as [|Hne]; [done|].
      specialize (Hfirst e ltac:(lia) Hq). lia. }
    rewrite Hnote. apply u8_small.
    unfold qualifies in Hq. apply andb_true_iff in Hq as [_ Hq].
    apply Z.leb_le in Hq. unfold entryNote, u16 in *.
    pose proof (Z.mod_pos_bound (db_read db (global SAX_FINGERING_NOTE e)) 65536 ltac:(lia)).
    lia.
Qed.

(** Whenever some entry qualifies, one of them is the winner. *)
Lemma winner_exists :
  (exists e, 0 <= e < SAX_FINGERING_TABLE_ENTRIES T /\ qualifies T db currentMask e = true) ->
  exists e, winner T db currentMask e.
Proof.
  intros (e & He & Hq).
  set (n := Z.to_nat (SAX_FINGERING_TABLE_ENTRIES T)).
  assert (Hn : Z.of_nat n = SAX_FINGERING_TABLE_ENTRIES T) by lia.
  destruct (scanUpTo_inv n) as [[_ Hnone] | (_ & e0 & He0 & Hq0 & _ & _ & Hmax & Hfirst)].
  - rewrite Hnone in Hq by lia. discriminate.
  - exists e0. split; [lia|]. split; [exact Hq0|].
    intros e' He' Hq'. split; [apply Hmax; [lia | exact Hq']|].
    intros Heq. destruct (decide (e0 <= e')) as [|Hlt]; [done|].
    specialize (Hfirst e' ltac:(lia) Hq'). lia.
Qed.

Lemma scanTable_no_match :
  (forall e, 0 <= e < SAX_FINGERING_TABLE_ENTRIES T -> qualifies T db currentMask e = false) ->
  hasMatch (scanTable T db currentMask) = false.
Proof.
  intros Hnone. rewrite scanTable_scanUpTo.
  set (n := Z.to_nat (SAX_FINGERING_TABLE_ENTRIES T)).
  destruct (scanUpTo_inv n) as [[Hno _] | (_ & e0 & He0 & Hq0 & _)]; [done|].
  rewrite Hnone in Hq0 by lia. done.
Qed.

Lemma scanTable_anyEnabled :
  anyEnabled (scanTable T db currentMask) = true
  <-> exists e, 0 <= e < SAX_FINGERING_TABLE_ENTRIES T /\ entryEnabled T db e = true.
Proof.
  rewrite scanTable_scanUpTo, scanUpTo_anyEnabled.
  split; intros (e & He & Hen); exists e; (split; [lia|done]).
Qed.
End Scan.

(** *** Casts that do nothing in range *)

Lemma u16_small (x : Z) : 0 <= x < 65536 -> u16 x = x.
Proof. intros H. unfold u16. by rewrite Z.mod_small. Qed.

Lemma i16_small (x : Z) : -32768 <= x < 32768 -> i16 x = x.
Proof. intros H. unfold i16. rewrite Z.mod_small; lia. Qed.

Lemma i32_small (x : Z) : -2147483648 <= x < 2147483648 -> i32 x = x.
Proof. intros H. unfold i32. rewrite Z.mod_small; lia. Qed.

Lemma clampNote_max_min (x : Z) : clampNote x = Z.max 0 (Z.min 127 x).
Proof.
  unfold clampNote.
  destruct (x <? 0) eqn:E1; [apply Z.ltb_lt in E1; lia|].
  apply Z.ltb_ge in E1.
  destruct (127 <? x) eqn:E2; [apply Z.ltb_lt in E2 | apply Z.ltb_ge in E2]; lia.
Qed.

(** *** The two modes *)

Section Modes.
Context {DB G : Type} `{!Database DB} `{!Globals G} (T : Target).

Lemma saxSilence_effect channel (w : @World DB G) :
  published (saxSilence channel w) = silence channel (buttons w)
  /\ _saxNoteOn (buttons (after (saxSilence channel w))) = false.
Proof.
  rewrite saxSilence_unfold. unfold silence.
  destruct (_saxNoteOn (buttons w)) eqn:E; done.
Qed.

Lemma saxSound_effect channel noteWide (w : @World DB G) :
  let target := Z.max 0 (Z.min 127 noteWide) in
  published (saxSound channel noteWide w) = transition channel (buttons w) target
  /\ _saxNoteOn (buttons (after (saxSound channel noteWide w))) = true
  /\ _saxActiveNote (buttons (after (saxSound channel noteWide w))) = target.
Proof.
  intros target. rewrite saxSound_unfold. cbv zeta.
  rewrite clampNote_max_min. fold target.
  rewrite (u8_small target) by (unfold target; lia).
  unfold transition.
  destruct (_saxNoteOn (buttons w)) eqn:Eon; cbn [andb]; [|done].
  destruct (_saxActiveNote (buttons w) =? target) eqn:Eeq; [|done].
  apply Z.eqb_eq in Eeq. done.
Qed.

Lemma legacy_scan (w : @World DB G) :
  legacyMode T (database w) ->
  anyEnabled (scanTable T (database w) (saxMask T w)) = false.
Proof.
  intros Hleg.
  destruct (anyEnabled _) eqn:E; [|done].
  apply scanTable_anyEnabled in E as (e & He & Hen).
  rewrite Hleg in Hen by done. done.
Qed.
End Modes.

(** C7, as the code has it: in legacy mode (no fingering-table entry
    enabled) a key counts as pressed when its pressed bit differs from the
    input-invert setting, so with the setting off the pressed keys count and
    with it on the keys that are not pressed.  The active key is the
    highest-index digital key that counts as pressed (there is one whenever
    a key does); its index goes through the remap table (0 is identity,
    otherwise stored - 1, identity again when that is at or beyond the
    digital-input count); the target note is base note + remapped key +
    transpose clamped to 0..127; a changed target publishes the Note Off of
    the old note (velocity 0) and then the Note On of the new one (velocity
    127), both on the global channel with component 0, an unchanged target
    publishes nothing, and with no key counting as pressed the sounding
    note, if any, gets its Note Off. *)
Theorem legacy_mode {DB G : Type} `{!Database DB} `{!Globals G}
    (T : Target) (w : @World DB G) :
  let db := database w in
  let base := db_read db (SYSTEM_SETTINGS SAX_REGISTER_CHROMATIC_BASE_NOTE) in
  let transposeRaw := db_read db (SYSTEM_SETTINGS SAX_REGISTER_CHROMATIC_TRANSPOSE) in
  let channel := saxChannelOf db in
  let r := processSaxRegisterChromatic T w in
  legacyMode T db ->
  0 <= DIGITAL_INPUTS T <= 2048 -> 0 <= base < 256 -> 0 <= transposeRaw <= 48 ->
  ((exists i, 0 <= i < DIGITAL_INPUTS T /\ countsAsPressed w i = true) ->
   exists k, activeKey T w k)
  /\ ((forall i, 0 <= i < DIGITAL_INPUTS T -> countsAsPressed w i = false) ->
   published r = silence channel (buttons w)
   /\ _saxNoteOn (buttons (after r)) = false)
  /\ (forall k,
        activeKey T w k ->
        0 <= db_read db (button SAX_REGISTER_KEY_MAP k) < 256 ->
        let target := Z.max 0 (Z.min 127 (base + remap T db k + (transposeRaw - 24))) in
        published r = transition channel (buttons w) target
        /\ _saxNoteOn (buttons (after r)) = true
        /\ _saxActiveNote (buttons (after r)) = target).
Proof.
  intros db base transposeRaw channel r Hleg HD Hbase Hraw.
  assert (Hkeys : forall i, countsAsPressed w i = saxKeys w i).
  { intros i. unfold countsAsPressed, saxKeys, saxPressed, saxInvert.
    by destruct (state i (buttons w)), (negb _). }
  unfold activeKey. setoid_rewrite Hkeys.
  subst r. rewrite processSax_unfold. cbv zeta.
  rewrite legacy_scan by done.
  fold db. fold channel.
  assert (Hn : Z.of_nat (Z.to_nat (i32 (DIGITAL_INPUTS T))) = DIGITAL_INPUTS T).
  { rewrite i32_small by lia. lia. }
  split; [|split].
  - intros (i & Hi & Hp).
    destruct (highestPressed_spec (saxKeys w) (Z.to_nat (i32 (DIGITAL_INPUTS T))))
      as [[_ Hnone] | (Hk & Hpk & Habove)].
    + rewrite Hnone in Hp by lia. discriminate.
    + eexists. split; [rewrite <- Hn; exact Hk|]. split; [exact Hpk|].
      intros j Hj. apply Habove. lia.
  - intros Hnone.
    assert (Hk : saxActiveKey T w = -1).
    { unfold saxActiveKey. apply highestPressed_none. intros i Hi. apply Hnone. lia. }
    rewrite Hk. change (-1 <? 0) with true. cbv iota.
    apply saxSilence_effect.
  - intros k (Hk & Hp & Habove) Hstored.
    assert (Hak : saxActiveKey T w = k).
    { unfold saxActiveKey. apply highestPressed_top; [lia | done |].
      intros j Hj. apply Habove. lia. }
    rewrite Hak. rewrite (proj2 (Z.ltb_ge k 0)) by lia.
    assert (Hm : saxMapped T w = remap T db k).
    { unfold saxMapped, remap. cbv zeta. rewrite Hak. fold db.
      set (stored := db_read db (button SAX_REGISTER_KEY_MAP k)) in *.
      rewrite (u8_small stored) by done. rewrite (u16_small k) by lia.
      destruct (decide (stored = 0)) as [->|Hnz].
      - change (0 =? 0) with true. cbv iota.
        by rewrite (proj2 (Z.leb_gt (DIGITAL_INPUTS T) k)) by lia.
      - rewrite (proj2 (Z.eqb_neq stored 0)) by done.
        rewrite (u16_small (stored - 1)) by lia.
        destruct (decide (DIGITAL_INPUTS T <= stored - 1)) as [Hout|Hin].
        + by rewrite (proj2 (Z.leb_le _ _) Hout).
        + by rewrite (proj2 (Z.leb_gt _ _)) by lia. }
    assert (Hmr : 0 <= remap T db k < 2048).
    { unfold remap. cbv zeta. repeat case_decide; lia. }
    assert (Hnote : i16 (i16 (saxBase db) + i16 (saxMapped T w) + saxTranspose db)
                    = base + remap T db k + (transposeRaw - 24)).
    { unfold saxBase, saxTranspose. fold base. fold transposeRaw.
      rewrite Hm, (u8_small base), (u16_small transposeRaw) by lia.
      rewrite (i16_small transposeRaw), (i16_small (transposeRaw - 24)) by lia.
      rewrite (i16_small base), (i16_small (remap T db k)) by lia.
      apply i16_small. lia. }
    rewrite Hnote. apply saxSound_effect.
Qed.

Lemma legacy_mode_witness :
  let T := Bench.board 5 true in
  let w24 := mkWorld (setState 4 true (setState 2 true Bench.buttons0))
                     saxStore Bench.counters0 in
  let w2 := mkWorld (with_sax true 64 (setState 2 true Bench.buttons0))
                    saxStore Bench.counters0 in
  published (processSaxRegisterChromatic T w24) = [(messaging.BUTTON, voiceOn 0 64)]
  /\ published (processSaxRegisterChromatic T w2)
     = [(messaging.BUTTON, voiceOff 0 64); (messaging.BUTTON, voiceOn 0 62)].
Proof.
  intros T w24 w2. split.
  - destruct (legacy_mode T w24) as (_ & _ & H).
    + intros e He. reflexivity.
    + change (0 <= 5 <= 2048). lia.
    + change (0 <= 60 < 256). lia.
    + change (0 <= 24 <= 48). lia.
    + destruct (H 4) as (Hp & _).
      * split; [change (0 <= 4 < 5); lia|]. split; [reflexivity|].
        intros j Hj. change (DIGITAL_INPUTS T) with 5 in Hj. lia.
      * change (0 <= 0 < 256). lia.
      * rewrite Hp. reflexivity.
  - destruct (legacy_mode T w2) as (_ & _ & H).
    + intros e He. reflexivity.
    + change (0 <= 5 <= 2048). lia.
    + change (0 <= 60 < 256). lia.
    + change (0 <= 24 <= 48). lia.
    + destruct (H 2) as (Hp & _).
      * split; [change (0 <= 2 < 5); lia|]. split; [reflexivity|].
        intros j Hj. change (DIGITAL_INPUTS T) with 5 in Hj.
        assert (j = 3 \/ j = 4) as [-> | ->] by lia; reflexivity.
      * change (0 <= 0 < 256). lia.
      * rewrite Hp. reflexivity.
Defined.

(** C7 as stated fails when the inputs are inverted: with keys 2 and 4 of
    the digital inputs 0 to 4 pressed, base 60 and no transposition, key 4
    is the highest pressed key, yet the note that sounds is 63, that of key
    3, the highest key that is not pressed. *)
Lemma legacy_inverted_keys_2_4 :
  let T := Bench.board 5 true in
  let store := (SYSTEM_SETTINGS SAX_REGISTER_CHROMATIC_INPUT_INVERT, 1) :: saxStore in
  let w := mkWorld (setState 4 true (setState 2 true Bench.buttons0))
                   store Bench.counters0 in
  legacyMode T (database w)
  /\ map (fun i => state i (buttons w)) [0; 1; 2; 3; 4] = [false; false; true; false; true]
  /\ published (processSaxRegisterChromatic T w) = [(messaging.BUTTON, voiceOn 0 63)]
  /\ published (processSaxRegisterChromatic T w) <> [(messaging.BUTTON, voiceOn 0 64)].
Proof.
  cbv zeta. split; [intros e He; reflexivity|].
  split; [reflexivity|]. split; [reflexivity|]. by vm_compute.
Qed.

(** The same through [processButton]: digital inputs 0 to 4, keys 2 and then
    4 pressed, then 4 released. *)
Example legacy_keys_2_4 :
  let T := Bench.board 5 true in
  let d := Bench.descriptor MOMENTARY NOTE midi.NOTE_ON 0 1 0 127 in
  (edges T [(2, true, d); (4, true, d); (4, false, d)] (Bench.world0 saxStore)).1
  = [ [(messaging.BUTTON, voiceOn 0 62)];
      [(messaging.BUTTON, voiceOff 0 62); (messaging.BUTTON, voiceOn 0 64)];
      [(messaging.BUTTON, voiceOff 0 64); (messaging.BUTTON, voiceOn 0 62)] ].
Proof. reflexivity. Qed.

(** *** Table mode *)

Lemma land_u32 (a b : Z) : 0 <= b < 4294967296 -> 0 <= Z.land a b < 4294967296.
Proof.
  intros Hb.
  assert (Hbb : b = Z.land b (Z.ones 32)).
  { rewrite Z.land_ones by lia. change (2 ^ 32) with 4294967296.
    by rewrite Z.mod_small. }
  rewrite Hbb, Z.land_assoc, Z.land_ones by lia.
  change (2 ^ 32) with 4294967296. apply Z.mod_pos_bound. lia.
Qed.

Lemma u32_range (x : Z) : 0 <= u32 x < 4294967296.
Proof. unfold u32. apply Z.mod_pos_bound. lia. Qed.

Lemma entryMask_range {DB : Type} `{!Database DB} (T : Target) (db : DB) (e : Z) :
  0 <= entryMask T db e < 4294967296.
Proof.
  unfold entryMask. cbv zeta.
  repeat case_match; apply land_u32; try apply u32_range; lia.
Qed.

(** The score of an entry is the number of set bits of its mask. *)
Lemma entryScore_bitsSet {DB : Type} `{!Database DB} (T : Target) (db : DB) (e : Z) :
  entryScore T db e = bitsSet 32 (entryMask T db e).
Proof. unfold entryScore. apply popcount32_bitsSet, entryMask_range. Qed.

(** C3, as the code has it: in table mode (some entry enabled), among the
    enabled entries whose mask is within the current pressed-key mask and
    whose stored note is set (0..127), the one with the highest population
    count of its mask supplies the note, the lower index winning a tie (there
    is such an entry whenever one qualifies); the target is that note plus
    the transpose, clamped to 0..127, and a changed target publishes Note Off
    of the old note, then Note On of the new one.
    When no such entry exists, or the current mask is empty, the sounding
    note, if any, gets a Note Off and nothing else is published. *)
Theorem table_mode {DB G : Type} `{!Database DB} `{!Globals G}
    (T : Target) (w : @World DB G) :
  let db := database w in
  let currentMask := saxMask T w in
  let transposeRaw := db_read db (SYSTEM_SETTINGS SAX_REGISTER_CHROMATIC_TRANSPOSE) in
  let channel := saxChannelOf db in
  let r := processSaxRegisterChromatic T w in
  tableMode T db -> 0 <= transposeRaw <= 48 ->
  (forall e, entryScore T db e = bitsSet 32 (entryMask T db e))
  /\ ((exists e, 0 <= e < SAX_FINGERING_TABLE_ENTRIES T
                 /\ qualifies T db currentMask e = true) ->
      exists e, winner T db currentMask e)
  /\ (currentMask = 0
      \/ (forall e, 0 <= e < SAX_FINGERING_TABLE_ENTRIES T ->
          qualifies T db currentMask e = false) ->
      published r = silence channel (buttons w)
      /\ _saxNoteOn (buttons (after r)) = false)
  /\ (forall e,
        currentMask <> 0 -> winner T db currentMask e ->
        let target := Z.max 0 (Z.min 127 (entryNote db e + (transposeRaw - 24))) in
        published r = transition channel (buttons w) target
        /\ _saxNoteOn (buttons (after r)) = true
        /\ _saxActiveNote (buttons (after r)) = target).
Proof.
  intros db currentMask transposeRaw channel r Htable Hraw.
  split; [intros e; apply entryScore_bitsSet|].
  split; [apply winner_exists|].
  subst r. rewrite processSax_unfold. cbv zeta.
  fold db. fold currentMask. fold channel.
  rewrite (proj2 (scanTable_anyEnabled T db currentMask) Htable).
  split.
  - intros [Hempty | Hnone].
    + rewrite Hempty. change (0 =? 0) with true. rewrite orb_true_r.
      apply saxSilence_effect.
    + rewrite (scanTable_no_match T db currentMask Hnone). cbn [negb orb].
      apply saxSilence_effect.
  - intros e Hcur Hwin.
    pose proof Hwin as (He & Hq & _).
    destruct (scanTable_winner T db currentMask e Hwin) as [Hhas Hnote].
    rewrite Hhas, Hnote. cbn [negb orb].
    rewrite (proj2 (Z.eqb_neq currentMask 0) Hcur).
    assert (Hn : 0 <= entryNote db e <= 127).
    { unfold qualifies in Hq. apply andb_true_iff in Hq as [_ Hq].
      apply Z.leb_le in Hq. unfold entryNote, u16 in *.
      pose proof (Z.mod_pos_bound (db_read db (global SAX_FINGERING_NOTE e)) 65536 ltac:(lia)).
      lia. }
    assert (Hsum : i16 (i16 (entryNote db e) + saxTranspose db)
                   = entryNote db e + (transposeRaw - 24)).
    { unfold saxTranspose. fold transposeRaw.
      rewrite (u16_small transposeRaw) by lia.
      rewrite (i16_small transposeRaw), (i16_small (transposeRaw - 24)) by lia.
      rewrite (i16_small (entryNote db e)) by lia.
      apply i16_small. lia. }
    rewrite Hsum. apply saxSound_effect.
Qed.

Lemma isWinner_winner {DB : Type} `{!Database DB} (T : Target) (db : DB)
    (currentMask e : Z) :
  isWinner T db currentMask e = true -> winner T db currentMask e.
Proof.
  unfold isWinner, winner. intros H.
  apply andb_true_iff in H as [H Hall]. apply andb_true_iff in H as [H Hq].
  apply andb_true_iff in H as [H0 H1].
  apply Z.leb_le in H0. apply Z.ltb_lt in H1.
  split; [lia|]. split; [done|].
  intros e' He' Hq'.
  rewrite forallb_forall in Hall.
  specialize (Hall e'). rewrite <- list_elem_of_In, elem_of_seqZ in Hall.
  specialize (Hall ltac:(lia)). rewrite Hq' in Hall. cbn [negb orb] in Hall.
  apply orb_true_iff in Hall as [Hlt | Heq].
  - apply Z.ltb_lt in Hlt. lia.
  - apply andb_true_iff in Heq as [Heq Hle].
    apply Z.eqb_eq in Heq. apply Z.leb_le in Hle. lia.
Qed.

Lemma table_mode_witness :
  let T := Bench.board 5 true in
  published (processSaxRegisterChromatic T (keys012 (tableStore 3 60 7 72)))
  = [(messaging.BUTTON, voiceOn 0 72)]
  /\ published (processSaxRegisterChromatic T (keys012 (tableStore 3 60 6 72)))
     = [(messaging.BUTTON, voiceOn 0 60)].
Proof.
  intros T. split.
  - destruct (table_mode T (keys012 (tableStore 3 60 7 72))) as (_ & _ & _ & H).
    + exists 0. split; [change (0 <= 0 < 8); lia | reflexivity].
    + change (0 <= 24 <= 48). lia.
    + destruct (H 1) as (Hp & _).
      * vm_compute. discriminate.
      * apply isWinner_winner. vm_compute. reflexivity.
      * rewrite Hp. reflexivity.
  - destruct (table_mode T (keys012 (tableStore 3 60 6 72))) as (_ & _ & _ & H).
    + exists 0. split; [change (0 <= 0 < 8); lia | reflexivity].
    + change (0 <= 24 <= 48). lia.
    + destruct (H 0) as (Hp & _).
      * vm_compute. discriminate.
      * apply isWinner_winner. vm_compute. reflexivity.
      * rewrite Hp. reflexivity.
Defined.

(** C3 as stated fails when the entry with the highest population count has
    no note set: entries 0 (two bits, note 60) and 1 (three bits, note 128,
    which is not a note) are both enabled and both within the pressed keys,
    entry 1 has the strictly highest population count, and the note that
    sounds is entry 0's. *)
Lemma table_unset_note_is_skipped :
  let T := Bench.board 5 true in
  let w := keys012 (tableStore 3 60 7 128) in
  let db := database w in
  let currentMask := saxMask T w in
  entryEnabled T db 0 = true /\ entryEnabled T db 1 = true
  /\ Z.land (entryMask T db 0) currentMask = entryMask T db 0
  /\ Z.land (entryMask T db 1) currentMask = entryMask T db 1
  /\ entryScore T db 0 = 2 /\ entryScore T db 1 = 3
  /\ (forall e, 2 <= e < 8 -> entryEnabled T db e = false)
  /\ entryNote db 0 = 60 /\ entryNote db 1 = 128
  /\ published (processSaxRegisterChromatic T w) = [(messaging.BUTTON, voiceOn 0 60)]
  /\ _saxActiveNote (buttons (after (processSaxRegisterChromatic T w)))
     <> Z.max 0 (Z.min 127 (entryNote db 1)).
Proof.
  cbv zeta. repeat split; try reflexivity; try discriminate.
  intros e He.
  assert (e = 2 \/ e = 3 \/ e = 4 \/ e = 5 \/ e = 6 \/ e = 7)
    as [-> | [-> | [-> | [-> | [-> | ->]]]]] by lia; reflexivity.
Qed.

(** * Further properties of the engine *)

(** ** Edges *)

Lemma processButton_state index reading d {DB G : Type} `{!Database DB} `{!Globals G}
    (T : Target) (w : @World DB G) :
  addresses (_buttonPressed (buttons w)) index ->
  state index (buttons (after (processButton T index reading d w))) = reading.
Proof.
  intros Ha.
  rewrite (state_ext index _ _ (processButton_pressed T index reading d w)).
  case_bool_decide as E; [done|]. by apply state_setState_eq.
Qed.

(** X1: the engine is edge-triggered.  Once a reading has been handed to
    [processButton] for an input, handing the same reading again, with
    whatever descriptor, publishes nothing and changes nothing. *)
Theorem processButton_repeated_reading {DB G : Type} `{!Database DB} `{!Globals G}
    (T : Target) (index : Z) (reading : bool) (d d' : Descriptor) (w : @World DB G) :
  addresses (_buttonPressed (buttons w)) index ->
  processButton T index reading d' (after (processButton T index reading d w))
  = (d', after (processButton T index reading d w), []).
Proof.
  intros Ha. apply processButton_no_edge.
  symmetry. by apply processButton_state.
Qed.

Lemma processButton_repeated_reading_witness :
  processButton (Bench.board 8 false) 3 true
    (Bench.descriptor MOMENTARY CONTROL_CHANGE midi.CONTROL_CHANGE 3 1 7 99)
    (after (processButton (Bench.board 8 false) 3 true
              (Bench.descriptor MOMENTARY NOTE midi.NOTE_ON 3 1 60 127)
              (Bench.world0 [])))
  = (Bench.descriptor MOMENTARY CONTROL_CHANGE midi.CONTROL_CHANGE 3 1 7 99,
     after (processButton (Bench.board 8 false) 3 true
              (Bench.descriptor MOMENTARY NOTE midi.NOTE_ON 3 1 60 127)
              (Bench.world0 [])), []).
Proof.
  apply (processButton_repeated_reading (Bench.board 8 false) 3 true).
  solve_addresses.
Defined.

(** ** The bit store, [reset] and [init] *)

Lemma latchingState_setState (i j : Z) (s : bool) (b : Buttons) :
  latchingState i (setState j s b) = latchingState i b.
Proof. done. Qed.

Lemma state_setLatchingState (i j : Z) (s : bool) (b : Buttons) :
  state i (setLatchingState j s b) = state i b.
Proof. done. Qed.

Lemma addresses_setState (a : Z) (i : Z) (s : bool) (b : Buttons) :
  addresses (_buttonPressed b) a -> addresses (_buttonPressed (setState i s b)) a.
Proof. unfold addresses. by rewrite length_setState. Qed.

Lemma addresses_setLatchingState (a : Z) (i : Z) (s : bool) (b : Buttons) :
  addresses (_lastLatchingState b) a ->
  addresses (_lastLatchingState (setLatchingState i s b)) a.
Proof. unfold addresses. by rewrite length_setLatchingState. Qed.

(** X2: the two bit arrays are a store of independent bits.  A bit reads
    back what was written to it, writing a bit changes no other bit of its
    array, and the pressed bits and the latching bits do not overlap. *)
Theorem bit_store_round_trip (index j : Z) (s : bool) (b : Buttons) :
  addresses (_buttonPressed b) index ->
  addresses (_lastLatchingState b) index ->
  0 <= j < 2048 -> j <> index ->
  state index (setState index s b) = s
  /\ latchingState index (setLatchingState index s b) = s
  /\ state j (setState index s b) = state j b
  /\ latchingState j (setLatchingState index s b) = latchingState j b
  /\ (forall k, latchingState k (setState index s b) = latchingState k b)
  /\ (forall k, state k (setLatchingState index s b) = state k b).
Proof.
  intros Hp Hl Hj Hne.
  assert (Hi : 0 <= index < 2048) by (destruct Hp as [? ?]; lia).
  split; [by apply state_setState_eq|].
  split; [by apply latchingState_set_eq|].
  split; [by apply state_setState_ne|].
  split; [by apply latchingState_set_ne|].
  split; intros k; reflexivity.
Qed.

Lemma bit_store_round_trip_witness :
  state 10 (setState 10 true Bench.buttons0) = true
  /\ latchingState 10 (setLatchingState 10 true Bench.buttons0) = true
  /\ state 11 (setState 10 true Bench.buttons0) = state 11 Bench.buttons0
  /\ latchingState 11 (setLatchingState 10 true Bench.buttons0)
     = latchingState 11 Bench.buttons0
  /\ (forall k, latchingState k (setState 10 true Bench.buttons0)
                = latchingState k Bench.buttons0)
  /\ (forall k, state k (setLatchingState 10 true Bench.buttons0)
                = state k Bench.buttons0).
Proof.
  apply (bit_store_round_trip 10 11 true Bench.buttons0);
    [solve_addresses | solve_addresses | lia | lia].
Defined.

Lemma resetUpTo_S (n : nat) (b : Buttons) :
  resetUpTo (S n) b = reset (Z.of_nat n) (resetUpTo n b).
Proof.
  unfold resetUpTo.
  rewrite seqZ_S, foldl_app. cbn. by rewrite Z.add_0_l.
Qed.

Lemma resetUpTo_frame (n : nat) (b : Buttons) :
  length (_buttonPressed (resetUpTo n b)) = length (_buttonPressed b)
  /\ length (_lastLatchingState (resetUpTo n b)) = length (_lastLatchingState b)
  /\ _incDecValue (resetUpTo n b) = _incDecValue b
  /\ _legatoActiveNote (resetUpTo n b) = _legatoActiveNote b
  /\ _legatoButtonCount (resetUpTo n b) = _legatoButtonCount b
  /\ _saxNoteOn (resetUpTo n b) = _saxNoteOn b
  /\ _saxActiveNote (resetUpTo n b) = _saxActiveNote b.
Proof.
  induction n as [|n IH]; [done|].
  rewrite resetUpTo_S. destruct IH as (H1 & H2 & H3 & H4 & H5 & H6 & H7).
  unfold reset.
  split; [rewrite <- H1; cbn; by rewrite length_put|].
  split; [rewrite <- H2; cbn; by rewrite length_put|].
  cbn. by rewrite H3, H4, H5, H6, H7.
Qed.

Lemma resetUpTo_bits (n : nat) (b : Buttons) (i : Z) :
  (n <= 2048)%nat -> 0 <= i < 2048 ->
  addresses (_buttonPressed b) i -> addresses (_lastLatchingState b) i ->
  state i (resetUpTo n b) = (if i <? Z.of_nat n then false else state i b)
  /\ latchingState i (resetUpTo n b)
     = (if i <? Z.of_nat n then false else latchingState i b).
Proof.
  intros Hn Hi Hp Hl. induction n as [|n IH].
  { unfold resetUpTo. cbn. by rewrite (proj2 (Z.ltb_ge _ _)) by lia. }
  rewrite resetUpTo_S. destruct IH as [IHs IHl]; [lia|].
  destruct (resetUpTo_frame n b) as (L1 & L2 & _).
  unfold reset. rewrite state_setLatchingState.
  destruct (decide (i = Z.of_nat n)) as [->|Hne].
  - rewrite (proj2 (Z.ltb_lt _ _)) by lia.
    split.
    + apply state_setState_eq. unfold addresses in *. by rewrite L1.
    + apply latchingState_set_eq. apply addresses_setLatchingState || idtac.
      unfold addresses in *. cbn. by rewrite L2.
  - rewrite state_setState_ne by lia.
    rewrite latchingState_set_ne by lia.
    rewrite latchingState_setState. rewrite IHs, IHl.
    destruct (i <? Z.of_nat n) eqn:E1; destruct (i <? Z.of_nat (S n)) eqn:E2;
      try done;
      [apply Z.ltb_lt in E1; apply Z.ltb_ge in E2
      |apply Z.ltb_ge in E1; apply Z.ltb_lt in E2]; lia.
Qed.

(** X3: [init] answers true, publishes nothing and clears the pressed bit
    and the latching bit of every input below the collection size; the
    bits of the inputs from the size on are what they were.  It leaves
    alone what [reset] does not name: the step counters, the legato counts
    and notes, the register-chromatic note, the store and the globals. *)
Theorem init_clears_the_bits {DB G : Type} (size : nat) (w : @World DB G) :
  (size <= 2048)%nat ->
  (length (_buttonPressed (buttons w)) <= 256)%nat ->
  (length (_lastLatchingState (buttons w)) <= 256)%nat ->
  let r := init size w in
  result r = true /\ published r = []
  /\ database (after r) = database w /\ globals (after r) = globals w
  /\ (forall i, 0 <= i < Z.of_nat size ->
        addresses (_buttonPressed (buttons w)) i ->
        addresses (_lastLatchingState (buttons w)) i ->
        state i (buttons (after r)) = false
        /\ latchingState i (buttons (after r)) = false)
  /\ (forall i, Z.of_nat size <= i < 2048 ->
        state i (buttons (after r)) = state i (buttons w)
        /\ latchingState i (buttons (after r)) = latchingState i (buttons w))
  /\ _incDecValue (buttons (after r)) = _incDecValue (buttons w)
  /\ _legatoActiveNote (buttons (after r)) = _legatoActiveNote (buttons w)
  /\ _legatoButtonCount (buttons (after r)) = _legatoButtonCount (buttons w)
  /\ _saxNoteOn (buttons (after r)) = _saxNoteOn (buttons w)
  /\ _saxActiveNote (buttons (after r)) = _saxActiveNote (buttons w).
Proof.
  intros Hn Lp Ll r.
  assert (Hr : r = (true, mkWorld (resetUpTo size (buttons w)) (database w) (globals w), []))
    by reflexivity.
  rewrite Hr. unfold result, after, published. cbn [fst snd buttons database globals].
  destruct (resetUpTo_frame size (buttons w)) as (_ & _ & H3 & H4 & H5 & H6 & H7).
  split; [done|]. split; [done|]. split; [done|]. split; [done|].
  split.
  { intros i Hi Hp Hl.
    destruct (resetUpTo_bits size (buttons w) i) as [Hs Hla]; [lia|lia|done|done|].
    rewrite Hs, Hla. by rewrite (proj2 (Z.ltb_lt _ _)) by lia. }
  split; [|done].
  intros i Hi.
  assert (Hgen : forall n : nat, (n <= size)%nat ->
            state i (resetUpTo n (buttons w)) = state i (buttons w)
            /\ latchingState i (resetUpTo n (buttons w)) = latchingState i (buttons w)).
  { induction n as [|n IH]; intros Hle; [done|].
    rewrite resetUpTo_S. unfold reset. rewrite state_setLatchingState.
    rewrite state_setState_ne by lia.
    rewrite latchingState_set_ne by lia. rewrite latchingState_setState.
    apply IH. lia. }
  by apply Hgen.
Qed.

Lemma init_clears_the_bits_witness :
  state 5 (buttons (after (init 64
     (mkWorld (setLatchingState 5 true (setState 5 true Bench.buttons0))
              ([] : Bench.Store) Bench.counters0)))) = false.
Proof.
  destruct (init_clears_the_bits 64
     (mkWorld (setLatchingState 5 true (setState 5 true Bench.buttons0))
              ([] : Bench.Store) Bench.counters0))
    as (_ & _ & _ & _ & H & _).
  - lia.
  - vm_compute. lia.
  - vm_compute. lia.
  - apply (H 5); [lia | solve_addresses | solve_addresses].
Defined.

(** ** What the message kinds publish *)

Section Kinds.
Context {DB G : Type} `{!Database DB} `{!Globals G} (T : Target).

Lemma sendMessage_release_silent index d (w : @World DB G) :
  messageType d ∉ releaseKinds ->
  sendMessage T index false d w = (d, w, []).
Proof.
  intros Hk. unfold releaseKinds in Hk.
  unfold sendMessage, onRelease, mbind, mret, M_bind, M_ret.
  destruct (messageType d) eqn:E; try reflexivity;
    exfalso; apply Hk; repeat constructor.
Qed.

Lemma sendMessage_tags index s d (w : @World DB G) :
  Forall (fun p : Publication =>
            p.1 = if bool_decide (messageType d = PRESET_CHANGE)
                  then messaging.SYSTEM else messaging.BUTTON)
         (published (sendMessage T index s d w)).
Proof.
  unfold_engine.
  destruct s, (messageType d) eqn:E; cbn;
    repeat (case_match; cbn in *; simplify_eq);
    repeat (apply Forall_cons_2 || apply Forall_nil_2); done.
Qed.
End Kinds.

(** X4: a release publishes for five message kinds only (NOTE, NOTE_LEGATO,
    CONTROL_CHANGE_RESET, MMC_RECORD and MMC_PLAY_STOP).  For an input of
    any other kind, and for a LATCHING input of any kind but NOTE_LEGATO, a
    release edge that the register-chromatic override leaves alone
    publishes nothing: it clears the pressed bit and changes nothing else. *)
Theorem release_edge_is_silent {DB G : Type} `{!Database DB} `{!Globals G}
    (T : Target) (index : Z) (d : Descriptor) (w : @World DB G) :
  state index (buttons w) = true ->
  overridden T index w = false ->
  (type d = LATCHING /\ messageType d <> NOTE_LEGATO)
  \/ messageType d ∉ releaseKinds ->
  processButton T index false d w = (d, commit index false w, []).
Proof.
  intros Hs Ho Hk.
  rewrite processButton_plain by (rewrite ?Hs; done).
  unfold translate.
  case_bool_decide as En; [done|].
  destruct (bool_decide (type d = LATCHING)
            && negb (bool_decide (messageType d = NOTE_LEGATO))) eqn:El; [done|].
  destruct Hk as [[Ht Hm]|Hk].
  - rewrite (bool_decide_eq_true_2 _ Ht), (bool_decide_eq_false_2 _ Hm) in El. done.
  - by apply sendMessage_release_silent.
Qed.

Lemma release_edge_is_silent_witness :
  processButton (Bench.board 8 false) 3 false
    (Bench.descriptor MOMENTARY CONTROL_CHANGE midi.CONTROL_CHANGE 3 1 7 99)
    (mkWorld (setState 3 true Bench.buttons0) ([] : Bench.Store) Bench.counters0)
  = (Bench.descriptor MOMENTARY CONTROL_CHANGE midi.CONTROL_CHANGE 3 1 7 99,
     commit 3 false
       (mkWorld (setState 3 true Bench.buttons0) ([] : Bench.Store) Bench.counters0),
     []).
Proof.
  apply (release_edge_is_silent (Bench.board 8 false) 3).
  - reflexivity.
  - reflexivity.
  - right. apply (bool_decide_unpack _). vm_compute. exact I.
Defined.

(** X5: the tag of every publication.  Whatever [processButton] publishes
    is tagged BUTTON, except what a PRESET_CHANGE input publishes when the
    register-chromatic override leaves it alone, which is tagged SYSTEM:
    the press of such an input that reaches [sendMessage] with the state
    on (a momentary input, or a latching one whose latch bit is clear)
    publishes exactly one event, tagged SYSTEM, the configured event with
    the system message PRESET_CHANGE_DIRECT_REQ.  No call publishes under
    the tags of the events the unit listens to (ANALOG_BUTTON,
    TOUCHSCREEN_BUTTON). *)
Theorem processButton_event_tags {DB G : Type} `{!Database DB} `{!Globals G}
    (T : Target) (index : Z) (reading : bool) (d : Descriptor) (w : @World DB G) :
  Forall (fun p : Publication =>
            p.1 = if overridden T index w then messaging.BUTTON
                  else if bool_decide (messageType d = PRESET_CHANGE)
                       then messaging.SYSTEM else messaging.BUTTON)
         (published (processButton T index reading d w))
  /\ (messageType d = PRESET_CHANGE ->
      overridden T index w = false ->
      state index (buttons w) = false ->
      (type d = LATCHING -> latchingState index (buttons w) = false) ->
      published (processButton T index true d w)
      = [(messaging.SYSTEM,
          messaging.with_systemMessage messaging.PRESET_CHANGE_DIRECT_REQ (event d))]).
Proof.
  split.
  - destruct (decide (reading = state index (buttons w))) as [E|E].
    { rewrite processButton_no_edge by done. apply Forall_nil_2. }
    destruct (overridden T index w) eqn:O.
    + rewrite processButton_overridden by done.
      change (published (d, ?x, ?o)) with o.
      rewrite processSax_unfold. cbv zeta.
      repeat case_match; rewrite ?saxSilence_unfold, ?saxSound_unfold; cbv zeta;
        repeat case_match; unfold published; cbn [snd app];
        repeat (apply Forall_cons_2 || apply Forall_nil_2); done.
    + rewrite processButton_plain by done.
      set (tagged := fun p : Publication =>
                       p.1 = if bool_decide (messageType d = PRESET_CHANGE)
                             then messaging.SYSTEM else messaging.BUTTON).
      assert (Hsend : forall s w',
                Forall tagged (published (sendMessage T index s d w')))
        by (intros; apply sendMessage_tags).
      unfold translate. repeat case_match; try apply Forall_nil_2; apply Hsend.
  - intros Hm Ho Hs Hl.
    rewrite processButton_plain by (done || (rewrite Hs; done)).
    assert (Hsend : forall w' : @World DB G,
              published (sendMessage T index true d w')
              = [(messaging.SYSTEM,
                  messaging.with_systemMessage messaging.PRESET_CHANGE_DIRECT_REQ
                    (event d))]).
    { intros w'. unfold sendMessage, onPress. unfold_engine. by rewrite Hm. }
    unfold translate. rewrite Hm.
    rewrite (bool_decide_eq_false_2 (PRESET_CHANGE = NONE)) by discriminate.
    rewrite (bool_decide_eq_false_2 (PRESET_CHANGE = NOTE_LEGATO)) by discriminate.
    destruct (bool_decide (type d = LATCHING)) eqn:Ht; cbn [andb negb];
      [|apply Hsend].
    apply bool_decide_eq_true in Ht.
    change (latchingState index (buttons (commit index true w)))
      with (latchingState index (buttons w)).
    rewrite (Hl Ht). cbn [negb]. apply Hsend.
Qed.

Lemma processButton_event_tags_witness :
  published
    (processButton (Bench.board 8 false) 3 true
       (Bench.descriptor MOMENTARY PRESET_CHANGE midi.INVALID 3 1 2 0)
       (Bench.world0 []))
  = [(messaging.SYSTEM,
      messaging.mkEvent 3 1 2 0 messaging.nullptr 0 false
        messaging.PRESET_CHANGE_DIRECT_REQ midi.INVALID)].
Proof.
  destruct (processButton_event_tags (Bench.board 8 false) 3 true
              (Bench.descriptor MOMENTARY PRESET_CHANGE midi.INVALID 3 1 2 0)
              (Bench.world0 [])) as [_ H].
  rewrite H; [reflexivity | reflexivity | reflexivity | reflexivity | discriminate].
Defined.

(** ** The step counters *)

(** X6: a press of a multi-value input steps the counter of that input
    and publishes only when the counter moved.  The counter after the
    press is the step helper's result; when it equals the old value
    nothing is published and nothing changes, otherwise exactly one event
    is published and its value is the new counter (for the two NOTE kinds
    as Note Off at zero and Note On otherwise).  The counters of the other
    inputs are never touched. *)
Theorem multi_value_press {DB G : Type} `{!Database DB} `{!Globals G}
    (T : Target) (index : Z) (d : Descriptor) (w : @World DB G) :
  messageType d ∈ multiValueKinds ->
  (Z.to_nat index < length (_incDecValue (buttons w)))%nat ->
  let r := sendMessage T index true d w in
  let old := at_ (_incDecValue (buttons w)) index in
  let new := at_ (_incDecValue (buttons (after r))) index in
  new = ValueIncDecMIDI7Bit_increment T old (messaging.value (event d))
          (stepMode (messageType d))
  /\ (new = old -> r = (d, w, []))
  /\ (new <> old ->
      published r
      = [(messaging.BUTTON,
          messaging.with_value new
            (messaging.with_message
               (stepMessage (messageType d) (messaging.message (event d)) new)
               (event d)))])
  /\ (forall j, Z.to_nat j <> Z.to_nat index ->
      at_ (_incDecValue (buttons (after r))) j = at_ (_incDecValue (buttons w)) j).
Proof.
  intros Hk Hlen. cbv zeta. unfold multiValueKinds in Hk.
  unfold sendMessage, onPress, multiValNote, multiValCC,
         notify, getButtons, modifyButtons, mbind, mret, M_bind, M_ret,
         after, published.
  destruct (messageType d) eqn:E;
    try (exfalso; repeat (apply elem_of_cons in Hk as [Hk|Hk]; [discriminate|]);
         by apply elem_of_nil in Hk);
    cbn [stepMode stepMessage];
    (destruct (ValueIncDecMIDI7Bit_increment T (at_ (_incDecValue (buttons w)) index)
                 (messaging.value (event d)) _ =? at_ (_incDecValue (buttons w)) index)
       eqn:Ev; cbn [negb fst snd app buttons _incDecValue with_incDecValue event with_event];
     [ apply Z.eqb_eq in Ev;
       split; [done|]; split; [done|]; split; [intros Hne; done|done]
     | apply Z.eqb_neq in Ev;
       rewrite at_put_eq by done;
       split; [done|]; split; [intros Heq; done|]; split;
       [ intros _; try done
       | intros j Hj; by apply at_put_ne ] ]).
  all: by destruct d as [t k [ci ch ix va sx sl fr sm ms]].
Qed.

Lemma multi_value_press_witness :
  published
    (sendMessage (Bench.board 8 false) 3 true
       (Bench.descriptor MOMENTARY MULTI_VAL_INC_RESET_CC midi.CONTROL_CHANGE 3 1 7 50)
       (Bench.world0 []))
  = [(messaging.BUTTON,
      messaging.with_value 50
        (messaging.with_message midi.CONTROL_CHANGE
           (event (Bench.descriptor MOMENTARY MULTI_VAL_INC_RESET_CC
                     midi.CONTROL_CHANGE 3 1 7 50))))].
Proof.
  destruct (multi_value_press (Bench.board 8 false) 3
              (Bench.descriptor MOMENTARY MULTI_VAL_INC_RESET_CC midi.CONTROL_CHANGE 3 1 7 50)
              (Bench.world0 []))
    as (_ & _ & H & _).
  - apply (bool_decide_unpack _). vm_compute. exact I.
  - vm_compute. lia.
  - apply H. vm_compute. discriminate.
Defined.

(** ** Inputs whose configured type is not looked at *)

Section Ignored.
Context {DB G : Type} `{!Database DB} `{!Globals G} (T : Target).

Lemma sendMessage_legato_type index s t d (w : @World DB G) :
  messageType d = NOTE_LEGATO ->
  after (sendMessage T index s (with_type t d) w) = after (sendMessage T index s d w)
  /\ published (sendMessage T index s (with_type t d) w)
     = published (sendMessage T index s d w).
Proof.
  intros Hk. unfold sendMessage, onPress, onRelease.
  cbn [with_type messageType event]. rewrite Hk.
  unfold_engine. destruct s; cbn; repeat (case_match; cbn in *; simplify_eq); done.
Qed.

Lemma translate_latching_bits index reading d (w : @World DB G) :
  messageType d = NOTE_LEGATO \/ type d = MOMENTARY ->
  _lastLatchingState (buttons (after (translate T index reading d w)))
  = _lastLatchingState (buttons w).
Proof.
  intros Hk. unfold translate.
  case_bool_decide as En; [done|].
  destruct (bool_decide (type d = LATCHING)
            && negb (bool_decide (messageType d = NOTE_LEGATO))) eqn:El.
  - apply andb_true_iff in El as [E1 E2].
    apply bool_decide_eq_true_1 in E1. apply negb_true_iff in E2.
    apply bool_decide_eq_false_1 in E2.
    destruct Hk as [Hk|Hk]; [done|congruence].
  - by destruct (sendMessage_sameStore T index reading d w) as (_ & -> & _).
Qed.

Lemma processSax_frame (w : @World DB G) :
  exists on note,
    after (processSaxRegisterChromatic T w)
    = mkWorld (with_sax on note (buttons w)) (database w) (globals w).
Proof.
  rewrite processSax_unfold. cbv zeta.
  destruct w as [[p l i a c on note] db g].
  repeat case_match; rewrite ?saxSilence_unfold, ?saxSound_unfold; cbv zeta;
    cbn [buttons database globals _saxNoteOn _saxActiveNote];
    repeat case_match; unfold after; cbn [fst snd];
    try (by eexists _, _); by exists on, note.
Qed.
End Ignored.

(** X7: a NOTE_LEGATO input behaves as a momentary one whatever type is
    configured for it: [processButton] publishes the same and leaves the
    same world for a LATCHING and for a MOMENTARY descriptor, and it never
    touches the latching bits. *)
Theorem legato_ignores_the_type {DB G : Type} `{!Database DB} `{!Globals G}
    (T : Target) (index : Z) (reading : bool) (d : Descriptor) (w : @World DB G) :
  messageType d = NOTE_LEGATO ->
  after (processButton T index reading (with_type LATCHING d) w)
  = after (processButton T index reading (with_type MOMENTARY d) w)
  /\ published (processButton T index reading (with_type LATCHING d) w)
     = published (processButton T index reading (with_type MOMENTARY d) w)
  /\ _lastLatchingState
       (buttons (after (processButton T index reading (with_type LATCHING d) w)))
     = _lastLatchingState (buttons w).
Proof.
  intros Hk.
  destruct (decide (reading = state index (buttons w))) as [E|E].
  { rewrite !processButton_no_edge by done. done. }
  destruct (overridden T index w) eqn:Ho.
  { rewrite !processButton_overridden by done.
    change (after (?x, ?y, ?o)) with y. change (published (?x, ?y, ?o)) with o.
    destruct (processSax_frame T (commit index reading w)) as (on & note & ->).
    done. }
  rewrite !processButton_plain by done.
  assert (Htr : forall t, translate T index reading (with_type t d) (commit index reading w)
                          = sendMessage T index reading (with_type t d)
                              (commit index reading w)).
  { intros t. unfold translate. cbn [with_type messageType type]. rewrite Hk.
    rewrite (bool_decide_eq_false_2 (NOTE_LEGATO = NONE)) by discriminate.
    rewrite (bool_decide_eq_true_2 (NOTE_LEGATO = NOTE_LEGATO)) by done.
    by rewrite andb_false_r. }
  split; [|split].
  - rewrite !Htr.
    destruct (sendMessage_legato_type T index reading LATCHING d (commit index reading w) Hk)
      as [-> _].
    by destruct (sendMessage_legato_type T index reading MOMENTARY d (commit index reading w) Hk)
      as [-> _].
  - rewrite !Htr.
    destruct (sendMessage_legato_type T index reading LATCHING d (commit index reading w) Hk)
      as [_ ->].
    by destruct (sendMessage_legato_type T index reading MOMENTARY d (commit index reading w) Hk)
      as [_ ->].
  - rewrite translate_latching_bits by (left; done). done.
Qed.

Lemma legato_ignores_the_type_witness :
  published (processButton (Bench.board 8 false) 3 true
               (with_type LATCHING (legatoButton 3 1 60)) (Bench.world0 []))
  = published (processButton (Bench.board 8 false) 3 true
                 (with_type MOMENTARY (legatoButton 3 1 60)) (Bench.world0 [])).
Proof.
  destruct (legato_ignores_the_type (Bench.board 8 false) 3 true
              (legatoButton 3 1 60) (Bench.world0 []))
    as (_ & H & _); [reflexivity | exact H].
Defined.

(** X8: while the register-chromatic override takes an input, its
    descriptor is not looked at: an edge publishes the same and leaves the
    same world whatever is configured for the input, and it changes
    neither a latching bit nor a step counter nor the legato counts and
    notes. *)
Theorem override_ignores_the_descriptor {DB G : Type} `{!Database DB} `{!Globals G}
    (T : Target) (index : Z) (reading : bool) (d d' : Descriptor) (w : @World DB G) :
  overridden T index w = true ->
  let r := processButton T index reading d w in
  after r = after (processButton T index reading d' w)
  /\ published r = published (processButton T index reading d' w)
  /\ result r = d
  /\ _lastLatchingState (buttons (after r)) = _lastLatchingState (buttons w)
  /\ _incDecValue (buttons (after r)) = _incDecValue (buttons w)
  /\ _legatoButtonCount (buttons (after r)) = _legatoButtonCount (buttons w)
  /\ _legatoActiveNote (buttons (after r)) = _legatoActiveNote (buttons w).
Proof.
  intros Ho r. subst r.
  destruct (decide (reading = state index (buttons w))) as [E|E].
  { rewrite !processButton_no_edge by done. done. }
  rewrite !processButton_overridden by done.
  change (after (?x, ?y, ?o)) with y. change (published (?x, ?y, ?o)) with o.
  change (result (?x, ?y, ?o)) with x.
  destruct (processSax_frame T (commit index reading w)) as (on & note & ->).
  done.
Qed.

Lemma override_ignores_the_descriptor_witness :
  published (processButton (Bench.board 8 true) 3 true
               (Bench.descriptor MOMENTARY NOTE midi.NOTE_ON 3 1 60 127)
               (Bench.world0 saxStore))
  = published (processButton (Bench.board 8 true) 3 true
                 (Bench.descriptor LATCHING CONTROL_CHANGE midi.CONTROL_CHANGE 3 2 7 5)
                 (Bench.world0 saxStore)).
Proof.
  destruct (override_ignores_the_descriptor (Bench.board 8 true) 3 true
              (Bench.descriptor MOMENTARY NOTE midi.NOTE_ON 3 1 60 127)
              (Bench.descriptor LATCHING CONTROL_CHANGE midi.CONTROL_CHANGE 3 2 7 5)
              (Bench.world0 saxStore))
    as (_ & H & _); [reflexivity | exact H].
Defined.

(** ** The register-chromatic voice *)

Lemma saxChannelOf_range {DB : Type} `{!Database DB} (db : DB) :
  0 <= saxChannelOf db <= 15.
Proof.
  unfold saxChannelOf. cbv zeta.
  destruct ((1 <=? u8 (db_read db MIDI_SETTINGS_GLOBAL_CHANNEL))
            && (u8 (db_read db MIDI_SETTINGS_GLOBAL_CHANNEL) <=? 16)) eqn:E; [|lia].
  apply andb_true_iff in E as [E1 E2].
  apply Z.leb_le in E1. apply Z.leb_le in E2.
  rewrite u8_small; lia.
Qed.

Lemma clamped_note_range (x : Z) : 0 <= u8 (clampNote x) <= 127.
Proof.
  rewrite clampNote_max_min. rewrite u8_small; lia.
Qed.

Section Voice.
Context {DB G : Type} `{!Database DB} `{!Globals G} (T : Target).

(** The two tails of [processSaxRegisterChromatic], with what decides
    between them. *)
Lemma processSax_cases (w : @World DB G) :
  processSaxRegisterChromatic T w = saxSilence (saxChannelOf (database w)) w
  \/ exists noteWide,
       processSaxRegisterChromatic T w
       = saxSound (saxChannelOf (database w)) noteWide w.
Proof.
  rewrite processSax_unfold. cbv zeta.
  repeat case_match; (by left) || (right; by eexists).
Qed.

Lemma processSax_monophonic (w : @World DB G) (rest : list Publication) :
  monophonic (saxSounding (buttons w))
             (published (processSaxRegisterChromatic T w) ++ rest)
  = monophonic (saxSounding (buttons (after (processSaxRegisterChromatic T w)))) rest.
Proof.
  destruct (processSax_cases w) as [->|(noteWide & ->)].
  - rewrite saxSilence_unfold. unfold saxSounding.
    destruct (_saxNoteOn (buttons w)) eqn:Eon; unfold published, after;
      cbn [fst snd app buttons with_sax _saxNoteOn _saxActiveNote monophonic];
      rewrite ?Eon; [|done].
    cbn. by rewrite Z.eqb_refl.
  - rewrite saxSound_unfold. cbv zeta. unfold saxSounding.
    destruct (_saxNoteOn (buttons w)) eqn:Eon; cbn [andb];
      [destruct (_saxActiveNote (buttons w) =? u8 (clampNote noteWide)) eqn:En|];
      unfold published, after;
      cbn [fst snd app buttons with_sax _saxNoteOn _saxActiveNote monophonic];
      rewrite ?Eon; try done.
    cbn. by rewrite Z.eqb_refl.
Qed.

Lemma processButton_monophonic index reading d (w : @World DB G)
    (rest : list Publication) :
  overridden T index w = true ->
  monophonic (saxSounding (buttons w))
             (published (processButton T index reading d w) ++ rest)
  = monophonic (saxSounding (buttons (after (processButton T index reading d w)))) rest.
Proof.
  intros Ho.
  destruct (decide (reading = state index (buttons w))) as [E|E].
  { rewrite processButton_no_edge by done. done. }
  rewrite processButton_overridden by done.
  change (after (?x, ?y, ?o)) with y. change (published (?x, ?y, ?o)) with o.
  apply (processSax_monophonic (commit index reading w)).
Qed.

Lemma processButton_database index reading d (w : @World DB G) :
  database (after (processButton T index reading d w)) = database w.
Proof.
  destruct (decide (reading = state index (buttons w))) as [E|E].
  { by rewrite processButton_no_edge. }
  destruct (overridden T index w) eqn:O.
  - rewrite processButton_overridden by done.
    change (after (?x, ?y, ?o)) with y.
    by destruct (processSax_sameStore T (commit index reading w)) as (_ & _ & ->).
  - rewrite processButton_plain by done.
    by destruct (translate_sameStore T index reading d (commit index reading w)) as (_ & ->).
Qed.
End Voice.

(** X9: [processSaxRegisterChromatic] settles in one call.  Called again
    with no pressed bit and no setting changed in between, it publishes
    nothing and changes nothing, in either mode. *)
Theorem processSax_settles {DB G : Type} `{!Database DB} `{!Globals G}
    (T : Target) (w : @World DB G) :
  processSaxRegisterChromatic T (after (processSaxRegisterChromatic T w))
  = (tt, after (processSaxRegisterChromatic T w), []).
Proof.
  destruct w as [b db g].
  assert (Hsame : forall on note,
    processSaxRegisterChromatic T (mkWorld (with_sax on note b) db g)
    = let channel := saxChannelOf db in
      let scan := scanTable T db (saxMask T (mkWorld b db g)) in
      let w' := mkWorld (with_sax on note b) db g in
      if anyEnabled scan then
        if negb (hasMatch scan) || (saxMask T (mkWorld b db g) =? 0)
        then saxSilence channel w'
        else saxSound channel (i16 (i16 (bestNote scan) + saxTranspose db)) w'
      else if saxActiveKey T (mkWorld b db g) <? 0 then saxSilence channel w'
      else saxSound channel
             (i16 (i16 (saxBase db) + i16 (saxMapped T (mkWorld b db g))
                   + saxTranspose db)) w').
  { intros on note. rewrite processSax_unfold. reflexivity. }
  rewrite (processSax_unfold T (mkWorld b db g)). cbv zeta.
  cbn [database].
  destruct (anyEnabled (scanTable T db (saxMask T (mkWorld b db g)))) eqn:Ea;
    [destruct (negb (hasMatch (scanTable T db (saxMask T (mkWorld b db g))))
               || (saxMask T (mkWorld b db g) =? 0)) eqn:Em
    |destruct (saxActiveKey T (mkWorld b db g) <? 0) eqn:Ek].
  all: rewrite ?saxSilence_unfold, ?saxSound_unfold; cbv zeta;
       cbn [buttons database globals].
  all: repeat match goal with
       | |- context [if _saxNoteOn ?x then _ else _] =>
           destruct (_saxNoteOn x) eqn:Eon; cbn [andb]
       | |- context [if _saxActiveNote ?x =? ?n then _ else _] =>
           destruct (_saxActiveNote x =? n) eqn:En
       end.
  all: unfold after; cbn [fst snd].
  all: try (rewrite Hsame; cbv zeta; rewrite ?Ea, ?Em, ?Ek;
            rewrite ?saxSilence_unfold, ?saxSound_unfold; cbv zeta;
            cbn [buttons with_sax _saxNoteOn _saxActiveNote andb];
            rewrite ?Z.eqb_refl; reflexivity).
  all: rewrite (processSax_unfold T (mkWorld b db g)); cbv zeta;
       cbn [database]; rewrite ?Ea, ?Em, ?Ek;
       rewrite ?saxSilence_unfold, ?saxSound_unfold; cbv zeta;
       cbn [buttons]; rewrite ?Eon; cbn [andb]; rewrite ?En; reflexivity.
Qed.

(** X10: every event of the register-chromatic engine goes out tagged
    BUTTON on the global channel, which is always one of 0 to 15 (channel
    1 when the stored channel is not 1 to 16), with component index 0: it
    is a Note On of a note from 0 to 127 with velocity 127, or the Note
    Off, with velocity 0, of the note recorded as sounding. *)
Theorem processSax_events_are_notes {DB G : Type} `{!Database DB} `{!Globals G}
    (T : Target) (w : @World DB G) :
  Forall (saxEvent w) (published (processSaxRegisterChromatic T w))
  /\ saxChannelOf (database w)
     = (let raw := u8 (db_read (database w) MIDI_SETTINGS_GLOBAL_CHANNEL) in
        if (1 <=? raw) && (raw <=? 16) then raw - 1 else 0).
Proof.
  split.
  { pose proof (saxChannelOf_range (database w)) as Hc.
    destruct (processSax_cases T w) as [->|(noteWide & ->)].
    - rewrite saxSilence_unfold.
      destruct (_saxNoteOn (buttons w)) eqn:Eon; unfold published; cbn [snd];
        [|apply Forall_nil_2].
      apply Forall_cons_2; [|apply Forall_nil_2].
      unfold saxEvent, saxSounding. rewrite Eon. cbn.
      split; [done|]. split; [done|]. split; [done|]. split; [done|]. by right.
    - rewrite saxSound_unfold. cbv zeta.
      pose proof (clamped_note_range noteWide) as Hn.
      destruct (_saxNoteOn (buttons w)) eqn:Eon; cbn [andb];
        [destruct (_saxActiveNote (buttons w) =? u8 (clampNote noteWide))|];
        unfold published; cbn [snd app];
        repeat (apply Forall_cons_2 || apply Forall_nil_2);
        unfold saxEvent, saxSounding; rewrite ?Eon; cbn;
        (split; [done|]; split; [done|]; split; [done|]; split; [done|]);
        ((by right) || (by left)). }
  unfold saxChannelOf. cbv zeta.
  destruct ((1 <=? u8 (db_read (database w) MIDI_SETTINGS_GLOBAL_CHANNEL))
            && (u8 (db_read (database w) MIDI_SETTINGS_GLOBAL_CHANNEL) <=? 16)) eqn:E;
    [|done].
  apply andb_true_iff in E as [E1 E2].
  apply Z.leb_le in E1. apply Z.leb_le in E2.
  rewrite u8_small; lia.
Qed.

(** X11: the register-chromatic voice is monophonic.  Over any run of
    edges of inputs the override takes, read as one stream, a Note On is
    published only while nothing sounds and a Note Off only for the note
    that sounds; the note left sounding by the stream is the one the
    engine records. *)
Theorem sax_stream_is_monophonic {DB G : Type} `{!Database DB} `{!Globals G}
    (T : Target) (es : list (Z * bool * Descriptor)) (w : @World DB G) :
  Forall (fun e => overridden T e.1.1 w = true) es ->
  monophonic (saxSounding (buttons w)) (concat (edges T es w).1)
  = Some (saxSounding (buttons (edges T es w).2)).
Proof.
  revert w. induction es as [|[[index reading] d] es IH]; intros w Hes; [done|].
  rewrite edges_cons. cbn [fst snd concat].
  apply Forall_cons_1 in Hes as [Ho Hes]. cbn [fst snd] in Ho.
  rewrite (processButton_monophonic T) by done.
  apply IH.
  eapply Forall_impl; [|exact Hes].
  intros e He. cbv beta in *. rewrite <- He.
  apply overridden_ext. apply processButton_database.
Qed.

Lemma sax_stream_is_monophonic_witness :
  monophonic (saxSounding (buttons (Bench.world0 saxStore)))
    (concat (edges (Bench.board 8 true)
               [ (0, true, legatoButton 0 1 60);
                 (2, true, legatoButton 2 1 60);
                 (2, false, legatoButton 2 1 60);
                 (0, false, legatoButton 0 1 60) ]
               (Bench.world0 saxStore)).1)
  = Some (saxSounding (buttons
      (edges (Bench.board 8 true)
         [ (0, true, legatoButton 0 1 60);
           (2, true, legatoButton 2 1 60);
           (2, false, legatoButton 2 1 60);
           (0, false, legatoButton 0 1 60) ]
         (Bench.world0 saxStore)).2)).
Proof.
  apply (sax_stream_is_monophonic (Bench.board 8 true)).
  repeat (apply Forall_cons_2; [reflexivity|]). apply Forall_nil_2.
Defined.

(** ** The fingering mask and its capture *)

Lemma testbit_mod_pow2 (x n i : Z) :
  0 <= n -> 0 <= i -> Z.testbit (x mod 2 ^ n) i = Z.testbit x i && (i <? n).
Proof.
  intros Hn Hi. rewrite <- Z.land_ones by done.
  by rewrite Z.land_spec, Z.testbit_ones_nonneg.
Qed.

Lemma testbit_u32 (x i : Z) :
  0 <= i -> Z.testbit (u32 x) i = Z.testbit x i && (i <? 32).
Proof. intros Hi. unfold u32. change 4294967296 with (2 ^ 32). by apply testbit_mod_pow2. Qed.

Lemma testbit_u16 (x i : Z) :
  0 <= i -> Z.testbit (u16 x) i = Z.testbit x i && (i <? 16).
Proof. intros Hi. unfold u16. change 65536 with (2 ^ 16). by apply testbit_mod_pow2. Qed.

Lemma buildMask_S (pressed : Z -> bool) (n : nat) :
  buildMask pressed (Z.of_nat (S n))
  = if pressed (Z.of_nat n)
    then u32 (Z.lor (buildMask pressed (Z.of_nat n)) (u32 (Z.shiftl 1 (Z.of_nat n))))
    else buildMask pressed (Z.of_nat n).
Proof.
  unfold buildMask. rewrite seqZ_S, foldl_app. cbn. by rewrite Z.add_0_l.
Qed.

Lemma buildMask_bits (pressed : Z -> bool) (n : nat) (i : Z) :
  (n <= 32)%nat -> 0 <= i ->
  Z.testbit (buildMask pressed (Z.of_nat n)) i = (i <? Z.of_nat n) && pressed i.
Proof.
  intros Hn Hi. induction n as [|n IH].
  - cbn. rewrite Z.bits_0. by rewrite (proj2 (Z.ltb_ge _ _)) by lia.
  - rewrite buildMask_S.
    assert (Hlt : (i <? Z.of_nat (S n))
                  = (i <? Z.of_nat n) || bool_decide (i = Z.of_nat n)).
    { destruct (i <? Z.of_nat n) eqn:E1; destruct (i <? Z.of_nat (S n)) eqn:E2;
        case_bool_decide; try done;
        repeat match goal with
               | H : (_ <? _) = true |- _ => apply Z.ltb_lt in H
               | H : (_ <? _) = false |- _ => apply Z.ltb_ge in H
               end; lia. }
    rewrite Hlt. specialize (IH ltac:(lia)).
    destruct (pressed (Z.of_nat n)) eqn:Ep.
    + rewrite testbit_u32, Z.lor_spec, testbit_u32, IH by lia.
      rewrite testbit_one_shifted by lia.
      case_bool_decide as Ei.
      * subst i. rewrite Ep. rewrite (proj2 (Z.ltb_lt _ 32)) by lia.
        by rewrite Z.ltb_irrefl.
      * rewrite !orb_false_r. cbn [andb].
        destruct (i <? Z.of_nat n) eqn:E1; [|done].
        apply Z.ltb_lt in E1. rewrite (proj2 (Z.ltb_lt _ 32)) by lia.
        by rewrite andb_true_r.
    + rewrite IH. case_bool_decide as Ei; [|by rewrite orb_false_r].
      subst i. rewrite Ep. by rewrite !andb_false_r.
Qed.

Lemma testbit_pow2 (n i : Z) : 0 <= n -> Z.testbit (2 ^ n) i = bool_decide (i = n).
Proof.
  intros Hn. rewrite Z.pow2_bits_eqb by done.
  case_bool_decide; [apply Z.eqb_eq | apply Z.eqb_neq]; lia.
Qed.

(** The split of a mask into the two stored words and its reassembly. *)
Lemma mask_round_trip (m hb : Z) :
  0 <= hb <= 15 ->
  (forall i, 0 <= i -> Z.testbit m i = true -> i < 14 + hb) ->
  let lo14 := u16 (Z.land m 16383) in
  let hiEn := u16 (Z.lor (u16 (Z.land (Z.shiftr m 14) (Z.ones hb))) (2 ^ hb)) in
  (Z.land (u16 hiEn) (2 ^ hb) =? 0) = false
  /\ Z.lor (u32 (u16 lo14))
           (u32 (Z.shiftl (u32 (u16 (Z.land (u16 hiEn) (Z.ones hb)))) 14)) = m.
Proof.
  intros Hhb Hm lo14 hiEn. split.
  - apply Z.eqb_neq. intros Hz.
    assert (Hb : Z.testbit (Z.land (u16 hiEn) (2 ^ hb)) hb = false)
      by (rewrite Hz; apply Z.bits_0).
    unfold hiEn in Hb.
    rewrite Z.land_spec, !testbit_u16, Z.lor_spec, testbit_pow2 in Hb by lia.
    rewrite bool_decide_eq_true_2 in Hb by done.
    rewrite (proj2 (Z.ltb_lt hb 16)) in Hb by lia.
    by rewrite orb_true_r in Hb.
  - apply Z.bits_inj'. intros i Hi.
    rewrite Z.lor_spec, !testbit_u32, !testbit_u16 by lia.
    unfold lo14. rewrite testbit_u16, Z.land_spec by lia.
    change 16383 with (Z.ones 14). rewrite Z.testbit_ones_nonneg by lia.
    destruct (i <? 14) eqn:E14.
    + apply Z.ltb_lt in E14.
      rewrite Z.shiftl_spec_low by lia.
      rewrite (proj2 (Z.ltb_lt i 16)), (proj2 (Z.ltb_lt i 32)) by lia.
      by rewrite !andb_true_r, orb_false_r.
    + apply Z.ltb_ge in E14.
      rewrite Z.shiftl_spec by lia.
      rewrite testbit_u32, testbit_u16, Z.land_spec, testbit_u16 by lia.
      unfold hiEn.
      rewrite testbit_u16, Z.lor_spec, testbit_u16, Z.land_spec, Z.shiftr_spec by lia.
      rewrite Z.testbit_ones_nonneg, testbit_pow2 by lia.
      replace (i - 14 + 14) with i by lia.
      rewrite !andb_false_r, !andb_false_l, orb_false_l.
      destruct (Z.testbit m i) eqn:Eb.
      * specialize (Hm i Hi Eb).
        rewrite (proj2 (Z.ltb_lt (i - 14) hb)) by lia.
        rewrite (proj2 (Z.ltb_lt (i - 14) 16)) by lia.
        rewrite (proj2 (Z.ltb_lt (i - 14) 32)) by lia.
        rewrite (proj2 (Z.ltb_lt i 32)) by lia.
        done.
      * cbn [andb orb].
        case_bool_decide as Ei; [|done].
        rewrite Ei. by rewrite Z.ltb_irrefl, andb_false_r.
Qed.

Section Capture.
Context {DB G : Type} `{!Database DB} `{!Globals G} `{!DatabaseLaws DB} (T : Target).

Lemma HI_BITS_small :
  14 <= SAX_FINGERING_KEYS T <= 29 ->
  HI_BITS T = SAX_FINGERING_KEYS T - 14
  /\ HI_MASK T = Z.ones (SAX_FINGERING_KEYS T - 14)
  /\ ENABLE_MASK T = 2 ^ (SAX_FINGERING_KEYS T - 14).
Proof.
  intros Hk.
  assert (Hb : HI_BITS T = SAX_FINGERING_KEYS T - 14)
    by (unfold HI_BITS; apply u8_small; lia).
  split; [done|].
  unfold HI_MASK, ENABLE_MASK. rewrite Hb.
  set (hb := SAX_FINGERING_KEYS T - 14).
  assert (H0 : 0 < 2 ^ hb) by (apply Z.pow_pos_nonneg; lia).
  assert (H1 : 2 ^ hb <= 2 ^ 15) by (apply Z.pow_le_mono_r; lia).
  change (2 ^ 15) with 32768 in H1.
  rewrite Z.shiftl_1_l, Z.ones_equiv.
  unfold u16, u32.
  rewrite !(Z.mod_small (2 ^ hb)) by lia.
  rewrite !(Z.mod_small (2 ^ hb - 1)) by lia.
  split; lia.
Qed.

Lemma saxMask_bits (w : @World DB G) (i : Z) :
  0 <= saxKeyCount T <= 32 -> 0 <= i ->
  Z.testbit (saxMask T w) i = (i <? saxKeyCount T) && saxKeys w i.
Proof.
  intros Hk Hi. unfold saxMask.
  rewrite <- (Z2Nat.id (saxKeyCount T)) by lia.
  apply buildMask_bits; lia.
Qed.

Lemma saxKeyCount_range :
  0 <= DIGITAL_INPUTS T -> 14 <= SAX_FINGERING_KEYS T <= 29 ->
  0 <= saxKeyCount T <= SAX_FINGERING_KEYS T.
Proof.
  intros Hd Hk. unfold saxKeyCount.
  destruct (DIGITAL_INPUTS T <? SAX_FINGERING_KEYS T) eqn:E;
    [apply Z.ltb_lt in E | apply Z.ltb_ge in E]; lia.
Qed.

(** The mask of an entry whose two words hold the split of [m]. *)
Lemma entry_of_split (db : DB) (e m : Z) :
  0 <= DIGITAL_INPUTS T -> 14 <= SAX_FINGERING_KEYS T <= 29 ->
  (forall i, 0 <= i -> Z.testbit m i = true -> i < saxKeyCount T) ->
  db_read db (global SAX_FINGERING_MASK_LO14 e) = u16 (Z.land m 16383) ->
  db_read db (global SAX_FINGERING_MASK_HI10_ENABLE e)
  = u16 (Z.lor (u16 (Z.land (Z.shiftr m 14) (HI_MASK T))) (ENABLE_MASK T)) ->
  entryEnabled T db e = true /\ entryMask T db e = m.
Proof.
  intros Hd Hk Hm Hlo Hhi.
  destruct (HI_BITS_small Hk) as (Hb & Hmask & Hen).
  pose proof (saxKeyCount_range Hd Hk) as Hkc.
  unfold entryEnabled, entryMask. rewrite Hlo, Hhi, Hmask, Hen.
  destruct (mask_round_trip m (SAX_FINGERING_KEYS T - 14)) as [E1 E2]; [lia| |].
  { intros i Hi Hbit. specialize (Hm i Hi Hbit). lia. }
  cbv zeta in E1, E2. split; [by rewrite E1|].
  rewrite E2.
  apply Z.bits_inj'. intros i Hi.
  destruct (saxKeyCount T <? SAX_FINGERING_KEYS T) eqn:Elt.
  - destruct (saxKeyCount T =? 0) eqn:E0.
    + apply Z.eqb_eq in E0. rewrite Z.land_0_r, Z.bits_0.
      destruct (Z.testbit m i) eqn:Eb; [|done].
      specialize (Hm i Hi Eb). lia.
    + rewrite Z.land_spec. rewrite Z.shiftl_1_l.
      assert (H0 : 0 < 2 ^ saxKeyCount T) by (apply Z.pow_pos_nonneg; lia).
      assert (H1 : 2 ^ saxKeyCount T <= 2 ^ 29) by (apply Z.pow_le_mono_r; lia).
      change (2 ^ 29) with 536870912 in H1.
      unfold u32. rewrite (Z.mod_small (2 ^ saxKeyCount T)) by lia.
      rewrite (Z.mod_small (2 ^ saxKeyCount T - 1)) by lia.
      replace (2 ^ saxKeyCount T - 1) with (Z.ones (saxKeyCount T))
        by (rewrite Z.ones_equiv; lia).
      rewrite Z.testbit_ones_nonneg by lia.
      destruct (Z.testbit m i) eqn:Eb; [|done].
      specialize (Hm i Hi Eb). by rewrite (proj2 (Z.ltb_lt _ _)) by lia.
  - apply Z.ltb_ge in Elt.
    rewrite (proj2 (Z.leb_gt 32 (SAX_FINGERING_KEYS T))) by lia.
    rewrite Z.land_spec. rewrite Z.shiftl_1_l.
    assert (H0 : 0 < 2 ^ SAX_FINGERING_KEYS T) by (apply Z.pow_pos_nonneg; lia).
    assert (H1 : 2 ^ SAX_FINGERING_KEYS T <= 2 ^ 29) by (apply Z.pow_le_mono_r; lia).
    change (2 ^ 29) with 536870912 in H1.
    unfold u32. rewrite (Z.mod_small (2 ^ SAX_FINGERING_KEYS T)) by lia.
    rewrite (Z.mod_small (2 ^ SAX_FINGERING_KEYS T - 1)) by lia.
    replace (2 ^ SAX_FINGERING_KEYS T - 1) with (Z.ones (SAX_FINGERING_KEYS T))
      by (rewrite Z.ones_equiv; lia).
    rewrite Z.testbit_ones_nonneg by lia.
    destruct (Z.testbit m i) eqn:Eb; [|done].
    specialize (Hm i Hi Eb). by rewrite (proj2 (Z.ltb_lt _ _)) by lia.
Qed.
End Capture.

(** X12: capturing the held fingering into a table entry and reading the
    entry back.  An entry index at or beyond the table size is refused
    with nothing written.  Otherwise, on a store that hands back what is
    written, a capture that answers true leaves the entry enabled with
    exactly the current mask of pressed keys as its mask, so that the
    entry qualifies for the fingering that is held; the note is stored
    when it is at most 127 and left as it was when it is not; the pressed
    bits are untouched, nothing is published, and no other cell of the
    store changes. *)
Theorem capture_round_trip {DB G : Type} `{!Database DB} `{!Globals G}
    `{!DatabaseLaws DB} (T : Target) (entryIndex noteValue : Z) (w : @World DB G) :
  0 <= DIGITAL_INPUTS T -> 14 <= SAX_FINGERING_KEYS T <= 29 ->
  0 <= noteValue < 65536 ->
  let r := captureSaxFingeringTableEntry T entryIndex noteValue w in
  (SAX_FINGERING_TABLE_ENTRIES T <= entryIndex -> r = (false, w, []))
  /\ (entryIndex < SAX_FINGERING_TABLE_ENTRIES T -> result r = true ->
      entryEnabled T (database (after r)) entryIndex = true
      /\ entryMask T (database (after r)) entryIndex = saxMask T w
      /\ saxMask T (after r) = saxMask T w
      /\ entryNote (database (after r)) entryIndex
         = (if noteValue <=? 127 then noteValue
            else entryNote (database w) entryIndex)
      /\ (noteValue <= 127 ->
          qualifies T (database (after r)) (saxMask T (after r)) entryIndex = true)
      /\ buttons (after r) = buttons w /\ globals (after r) = globals w
      /\ published r = []
      /\ (forall a, a <> global SAX_FINGERING_MASK_LO14 entryIndex ->
                    a <> global SAX_FINGERING_MASK_HI10_ENABLE entryIndex ->
                    a <> global SAX_FINGERING_NOTE entryIndex ->
                    db_read (database (after r)) a = db_read (database w) a)).
Proof.
  intros Hd Hk Hn r. subst r. split.
  { intros Hout. unfold captureSaxFingeringTableEntry.
    by rewrite (proj2 (Z.leb_le _ _)) by lia. }
  intros Hin.
  pose proof (saxKeyCount_range T Hd Hk) as Hkc.
  unfold captureSaxFingeringTableEntry.
  rewrite (proj2 (Z.leb_gt _ _)) by lia.
  unfold read, update, getButtons, mbind, mret, M_bind, M_ret.
  fold (saxInvert (database w)). fold (saxKeys w). fold (saxMask T w).
  remember (saxMask T w) as m eqn:Em.
  remember (u16 (Z.land m 16383)) as lo14 eqn:Elo.
  remember (u16 (Z.lor (u16 (Z.land (Z.shiftr m 14) (HI_MASK T))) (ENABLE_MASK T)))
    as hiEn eqn:Ehi.
  cbn.
  destruct (db_update (database w) (global SAX_FINGERING_MASK_LO14 entryIndex) lo14)
    as [ok1 db1] eqn:U1.
  cbn.
  destruct (db_update db1 (global SAX_FINGERING_MASK_HI10_ENABLE entryIndex) hiEn)
    as [ok2 db2] eqn:U2.
  cbn.
  assert (Hm : forall i, 0 <= i -> Z.testbit m i = true -> i < saxKeyCount T).
  { intros i Hi Hb. rewrite Em in Hb. rewrite saxMask_bits in Hb by lia.
    apply andb_true_iff in Hb as [Hb _]. by apply Z.ltb_lt in Hb. }
  subst lo14 hiEn.
  assert (Hinv2 : db_read db2 (SYSTEM_SETTINGS SAX_REGISTER_CHROMATIC_INPUT_INVERT)
                  = db_read (database w) (SYSTEM_SETTINGS SAX_REGISTER_CHROMATIC_INPUT_INVERT)).
  { rewrite (read_other _ _ _ _ _ _ U2) by discriminate.
    by rewrite (read_other _ _ _ _ _ _ U1) by discriminate. }
  destruct (noteValue <=? 127) eqn:En; cbn [database buttons globals].
  - destruct (db_update db2 (global SAX_FINGERING_NOTE entryIndex) noteValue)
      as [ok3 db3] eqn:U3.
    unfold result, after, published. cbn.
    intros Hok. apply andb_true_iff in Hok as [Hok ->].
    apply andb_true_iff in Hok as [-> ->].
    assert (Hlo : db_read db3 (global SAX_FINGERING_MASK_LO14 entryIndex)
                  = u16 (Z.land m 16383)).
    { rewrite (read_other _ _ _ _ _ _ U3) by discriminate.
      rewrite (read_other _ _ _ _ _ _ U2) by discriminate.
      apply (read_updated _ _ _ _ U1). }
    assert (Hhi : db_read db3 (global SAX_FINGERING_MASK_HI10_ENABLE entryIndex)
                  = u16 (Z.lor (u16 (Z.land (Z.shiftr m 14) (HI_MASK T))) (ENABLE_MASK T))).
    { rewrite (read_other _ _ _ _ _ _ U3) by discriminate.
      apply (read_updated _ _ _ _ U2). }
    destruct (entry_of_split T db3 entryIndex m Hd Hk Hm Hlo Hhi) as [He Hmask].
    assert (Hmask' : saxMask T (mkWorld (buttons w) db3 (globals w)) = m).
    { rewrite Em. unfold saxMask, saxKeys, saxInvert. cbn [database buttons].
      rewrite (read_other _ _ _ _ _ _ U3) by discriminate. by rewrite Hinv2. }
    assert (Hnote : entryNote db3 entryIndex = noteValue).
    { unfold entryNote. rewrite (read_updated _ _ _ _ U3). apply u16_small. lia. }
    split; [done|]. split; [done|]. split; [done|]. split; [done|].
    split.
    { intros Hle. unfold qualifies. rewrite He, Hmask, Hmask', Hnote.
      rewrite Z.land_diag, Z.eqb_refl. cbn [andb]. by apply Z.leb_le. }
    split; [done|]. split; [done|]. split; [done|].
    intros a A1 A2 A3.
    rewrite (read_other _ _ _ _ _ _ U3) by done.
    rewrite (read_other _ _ _ _ _ _ U2) by done.
    by rewrite (read_other _ _ _ _ _ _ U1) by done.
  - unfold result, after, published. cbn.
    intros Hok. apply andb_true_iff in Hok as [-> ->].
    assert (Hlo : db_read db2 (global SAX_FINGERING_MASK_LO14 entryIndex)
                  = u16 (Z.land m 16383)).
    { rewrite (read_other _ _ _ _ _ _ U2) by discriminate.
      apply (read_updated _ _ _ _ U1). }
    assert (Hhi : db_read db2 (global SAX_FINGERING_MASK_HI10_ENABLE entryIndex)
                  = u16 (Z.lor (u16 (Z.land (Z.shiftr m 14) (HI_MASK T))) (ENABLE_MASK T)))
      by apply (read_updated _ _ _ _ U2).
    destruct (entry_of_split T db2 entryIndex m Hd Hk Hm Hlo Hhi) as [He Hmask].
    assert (Hmask' : saxMask T (mkWorld (buttons w) db2 (globals w)) = m).
    { rewrite Em. unfold saxMask, saxKeys, saxInvert. cbn [database buttons].
      by rewrite Hinv2. }
    split; [done|]. split; [done|]. split; [done|].
    split.
    { unfold entryNote.
      rewrite (read_other _ _ _ _ _ _ U2) by discriminate.
      by rewrite (read_other _ _ _ _ _ _ U1) by discriminate. }
    split. { intros Hle. apply Z.leb_gt in En. lia. }
    split; [done|]. split; [done|]. split; [done|].
    intros a A1 A2 A3.
    rewrite (read_other _ _ _ _ _ _ U2) by done.
    by rewrite (read_other _ _ _ _ _ _ U1) by done.
Qed.

Lemma Store_laws : DatabaseLaws Bench.Store.
Proof.
  split.
  - intros db db' a v Hu. cbn in Hu.
    destruct ((0 <=? v) && (v <=? 16383)); [|done].
    injection Hu as <-. cbn. by rewrite decide_True.
  - intros db db' a a' v ok Hu Hne. cbn in Hu.
    destruct ((0 <=? v) && (v <=? 16383)); injection Hu as <- <-; [|done].
    cbn. by rewrite decide_False.
Qed.

#[global] Existing Instance Store_laws.

Lemma capture_round_trip_witness :
  entryMask (Bench.board 24 true)
    (database (after (captureSaxFingeringTableEntry (Bench.board 24 true) 0 60
                        (keys012 saxStore)))) 0
  = saxMask (Bench.board 24 true) (keys012 saxStore).
Proof.
  destruct (capture_round_trip (Bench.board 24 true) 0 60 (keys012 saxStore))
    as [_ H].
  - vm_compute. discriminate.
  - vm_compute. split; discriminate.
  - lia.
  - destruct H as (_ & H & _); [reflexivity | reflexivity | exact H].
Defined.

(** ** The update loop *)

Lemma reading_bit (states k : Z) :
  0 <= k -> negb (Z.land (Z.shiftr states k) 1 =? 0) = Z.testbit states k.
Proof.
  intros Hk. rewrite Z.testbit_odd.
  change 1 with (Z.ones 1). rewrite Z.land_ones by lia.
  change (2 ^ 1) with 2. rewrite Zmod_odd.
  by destruct (Z.odd (Z.shiftr states k)).
Qed.

Section Loop.
Context {DB G H F : Type} `{!Database DB} `{!Globals G} `{!Hwa H} `{!Filter F}.
Context (T : Target) (tables : Tables).

Lemma fillDescriptor_stored index (w : @World DB G) :
  fillDescriptor (messageTypeOf tables) (INTERNAL_MSG_TO_MIDI_TYPE tables) index w
  = (stored tables (database w) index, w, []).
Proof. reflexivity. Qed.

Lemma processReading_through index n states d (r : @Rig DB G H F) out reading :
  passesAll F -> 0 <= reading < n -> n <= 255 ->
  exists f,
    processReading T index n states (d, r, out) reading
    = (let p := processButton T index (Z.testbit states (n - 1 - reading)) d (rig_world r) in
       (result p, mkRig (after p) (rig_hwa r) f, out ++ published p)).
Proof.
  intros Hf Hr Hn. unfold processReading.
  rewrite u8_small by lia. rewrite reading_bit by lia.
  destruct (Hf (rig_filter r) index (Z.testbit states (n - 1 - reading))) as [f ->].
  exists f. cbn [negb].
  by destruct (processButton T index _ d (rig_world r)) as [[d' w'] o].
Qed.

(** The loop over the buffered readings, oldest first, with a filter that
    lets everything through: the pressed bit of the input follows each
    reading, and nothing else of the bit store moves. *)
Lemma readings_loop index n states (k : nat) d (r : @Rig DB G H F) out :
  passesAll F -> Z.of_nat k <= n -> n <= 255 -> 0 <= index < 2048 ->
  addresses (_buttonPressed (buttons (rig_world r))) index ->
  let acc := foldl (processReading T index n states) (d, r, out)
                   (seqZ 0 (Z.of_nat k)) in
  state index (buttons (rig_world acc.1.2))
  = (if decide (k = 0%nat) then state index (buttons (rig_world r))
     else Z.testbit states (n - Z.of_nat k))
  /\ length (_buttonPressed (buttons (rig_world acc.1.2)))
     = length (_buttonPressed (buttons (rig_world r)))
  /\ (forall j, 0 <= j < 2048 -> j <> index ->
      state j (buttons (rig_world acc.1.2)) = state j (buttons (rig_world r)))
  /\ database (rig_world acc.1.2) = database (rig_world r)
  /\ rig_hwa acc.1.2 = rig_hwa r.
Proof.
  intros Hf Hk Hn Hi Ha. induction k as [|k IH]; [done|].
  cbv zeta. rewrite seqZ_S, foldl_app. cbn [foldl]. rewrite Z.add_0_l.
  destruct IH as (IH1 & IH2 & IH3 & IH4 & IH5); [lia|].
  destruct (foldl (processReading T index n states) (d, r, out)
                  (seqZ 0 (Z.of_nat k))) as [[d1 r1] out1].
  cbn [fst snd] in *.
  destruct (processReading_through index n states d1 r1 out1 (Z.of_nat k) Hf)
    as [f ->]; [lia|lia|].
  cbv zeta. cbn [fst snd rig_world rig_hwa].
  assert (Ha1 : addresses (_buttonPressed (buttons (rig_world r1))) index)
    by (unfold addresses in *; by rewrite IH2).
  split.
  { rewrite processButton_state by done.
    rewrite decide_False by lia. f_equal. lia. }
  split.
  { rewrite processButton_pressed. case_bool_decide; [done|].
    by rewrite length_setState. }
  split.
  { intros j Hj Hne.
    rewrite (state_ext j _ _ (processButton_pressed T index _ d1 (rig_world r1))).
    case_bool_decide; [by apply IH3|].
    rewrite state_setState_ne by done. by apply IH3. }
  split; [|done].
  by rewrite processButton_database.
Qed.
End Loop.

(** X13: [updateSingle] hands the buffered readings of an input to the
    engine oldest first.  With a filter that lets every reading through,
    after the call the pressed bit of the input is the newest reading
    (bit 0 of the reported states); no other pressed bit and no cell of
    the store has changed.  An input at or beyond the digital count, or
    one whose encoder is enabled, is not updated at all, and in the
    second case the hardware is not even asked. *)
Theorem updateSingle_follows_the_readings {DB G H F : Type}
    `{!Database DB} `{!Globals G} `{!Hwa H} `{!Filter F}
    (T : Target) (tables : Tables) (index n states : Z) (h : H)
    (r : @Rig DB G H F) :
  passesAll F ->
  0 <= index < 2048 ->
  addresses (_buttonPressed (buttons (rig_world r))) index ->
  hwa_state (rig_hwa r) index = (Some (n, states), h) ->
  1 <= n <= 255 ->
  let enabled :=
    negb (db_read (database (rig_world r))
            (encoder_ENABLE (hwa_buttonToEncoderIndex (rig_hwa r) index)) =? 0) in
  let r' := (updateSingle T tables index false r).1 in
  (DIGITAL_INPUTS T <= index -> updateSingle T tables index false r = (r, []))
  /\ (enabled = true -> updateSingle T tables index false r = (r, []))
  /\ (index < DIGITAL_INPUTS T -> enabled = false ->
      state index (buttons (rig_world r')) = Z.testbit states 0
      /\ (forall j, 0 <= j < 2048 -> j <> index ->
          state j (buttons (rig_world r')) = state j (buttons (rig_world r)))
      /\ database (rig_world r') = database (rig_world r)
      /\ rig_hwa r' = h).
Proof.
  intros Hf Hi Ha Hh Hn enabled r'. subst r'.
  unfold updateSingle, maxComponentUpdateIndex, state_readings. fold enabled.
  split. { intros Hout. by rewrite (proj2 (Z.leb_le _ _)) by lia. }
  split.
  { intros ->. by destruct (DIGITAL_INPUTS T <=? index). }
  intros Hin ->. rewrite (proj2 (Z.leb_gt _ _)) by lia.
  cbn [negb]. rewrite Hh. rewrite u8_small by lia.
  rewrite fillDescriptor_stored. cbn [rig_world rig_hwa rig_filter].
  pose proof (readings_loop T index n (u16 states) (Z.to_nat n)
                (stored tables (database (rig_world r)) index)
                (mkRig (rig_world r) h (rig_filter r)) [] Hf) as L.
  rewrite Z2Nat.id in L by lia. cbv zeta in L.
  destruct L as (L1 & L2 & L3 & L4 & L5); [lia|lia|done|done|].
  destruct (foldl _ _ _) as [[d1 r1] out1]. cbn [fst snd rig_world rig_hwa] in *.
  split.
  { rewrite L1. rewrite decide_False by lia.
    rewrite Z.sub_diag.
    rewrite testbit_u16 by lia. apply andb_true_r. }
  done.
Qed.

Lemma updateSingle_follows_the_readings_witness :
  state 3 (buttons (rig_world
     (updateSingle (Bench.board 8 false) Panel.tables 3 false
        (mkRig (Bench.world0 Panel.noteStore) (Some (2, 1) : Panel.Samples)
               (tt : Panel.Through))).1))
  = Z.testbit 1 0.
Proof.
  destruct (updateSingle_follows_the_readings (Bench.board 8 false) Panel.tables
              3 2 1 (Some (2, 1) : Panel.Samples)
              (mkRig (Bench.world0 Panel.noteStore) (Some (2, 1) : Panel.Samples)
                     (tt : Panel.Through)))
    as (_ & _ & H).
  - intros f i s. by exists f.
  - lia.
  - solve_addresses.
  - reflexivity.
  - lia.
  - destruct H as (H & _); [vm_compute; reflexivity | reflexivity | exact H].
Defined.

(** The stored type is read as a byte and compared with LATCHING: the
    stored values 2 and 256 resolve to an input that acts as momentary,
    257 to a latching one. *)
Example stored_type_is_a_byte :
  map (fun t => type (result (fillDescriptor Panel.kindOf Panel.outboundOf 3
                                (Bench.world0 [(button TYPE 3, t)]))))
      [0; 1; 2; 255; 256; 257]
  = [MOMENTARY; LATCHING; MOMENTARY; MOMENTARY; MOMENTARY; LATCHING].
Proof. reflexivity. Qed.

(** ** What a translated message leaves alone *)

Section Frames.
Context {DB G : Type} `{!Database DB} `{!Globals G} (T : Target).

Lemma sendMessage_sax index s d (w : @World DB G) :
  _saxNoteOn (buttons (after (sendMessage T index s d w))) = _saxNoteOn (buttons w)
  /\ _saxActiveNote (buttons (after (sendMessage T index s d w)))
     = _saxActiveNote (buttons w).
Proof.
  unfold_engine.
  destruct s, (messageType d); cbn;
    repeat (case_match; cbn in *; simplify_eq); done.
Qed.

Lemma translate_sax index reading d (w : @World DB G) :
  _saxNoteOn (buttons (after (translate T index reading d w))) = _saxNoteOn (buttons w)
  /\ _saxActiveNote (buttons (after (translate T index reading d w)))
     = _saxActiveNote (buttons w).
Proof.
  unfold translate. repeat case_match; try done.
  - destruct (sendMessage_sax index (negb (latchingState index (buttons w))) d
                (latch index (negb (latchingState index (buttons w))) w)) as [-> ->].
    done.
  - apply sendMessage_sax.
Qed.

Lemma resend_sameStore index d (w : @World DB G) :
  sameStore w (after (resend T index d w)).
Proof.
  unfold resend, getButtons, mbind, M_bind.
  case_bool_decide;
    match goal with
    | |- context [sendMessage T ?i ?s ?d ?w] =>
        pose proof (sendMessage_sameStore T i s d w) as Hs;
        destruct (sendMessage T i s d w) as [[? ?] ?]
    end; exact Hs.
Qed.
End Frames.

Section Refresh.
Context {DB G H F : Type} `{!Database DB} `{!Globals G} `{!Hwa H} `{!Filter F}.
Context (T : Target) (tables : Tables).

Lemma updateSingle_forced index (r : @Rig DB G H F) :
  let r' := (updateSingle T tables index true r).1 in
  sameStore (rig_world r) (rig_world r')
  /\ rig_hwa r' = rig_hwa r /\ rig_filter r' = rig_filter r.
Proof.
  unfold updateSingle. destruct (maxComponentUpdateIndex T <=? index); [done|].
  cbn [negb]. unfold mbind, M_bind. rewrite fillDescriptor_stored.
  pose proof (resend_sameStore T index (stored tables (database (rig_world r)) index)
                (rig_world r)) as Hs.
  destruct (resend T index _ (rig_world r)) as [[d' w'] o]. done.
Qed.

Lemma updateAll_forced_over (l : list Z) (r : @Rig DB G H F) (out : list Publication) :
  let acc := foldl (fun acc i =>
                      let '(r', o) := updateSingle T tables i true acc.1 in
                      (r', acc.2 ++ o)) (r, out) l in
  sameStore (rig_world r) (rig_world acc.1)
  /\ rig_hwa acc.1 = rig_hwa r /\ rig_filter acc.1 = rig_filter r.
Proof.
  revert r out. induction l as [|i l IH]; intros r out; [done|].
  cbn [foldl fst snd].
  destruct (updateSingle_forced i r) as (S1 & S2 & S3).
  destruct (updateSingle T tables i true r) as [r1 o1]. cbn [fst] in *.
  destruct (IH r1 (out ++ o1)) as (I1 & I2 & I3).
  cbv zeta in *. split; [|split; congruence].
  destruct S1 as (A1 & A2 & A3). destruct I1 as (B1 & B2 & B3).
  unfold sameStore. split; [congruence|]. split; congruence.
Qed.
End Refresh.

(** X14: a forced refresh sends again but does not touch the bit store.
    Neither [updateAll(true)], which the FORCE_IO_REFRESH system message
    starts, nor the forced branch of the ANALOG_BUTTON listener changes a
    pressed bit, a latching bit or a cell of the store, and the update
    loop in this mode consults neither the hardware nor the filter. *)
Theorem forced_refresh_keeps_the_bits {DB G H F : Type}
    `{!Database DB} `{!Globals G} `{!Hwa H} `{!Filter F}
    (T : Target) (C : Collection) (tables : Tables) (e : messaging.Event)
    (r : @Rig DB G H F) :
  messaging.systemMessage e = messaging.FORCE_IO_REFRESH ->
  let r' := (onSystem T tables e r).1 in
  sameStore (rig_world r) (rig_world r')
  /\ rig_hwa r' = rig_hwa r /\ rig_filter r' = rig_filter r
  /\ (forall a : messaging.Event, messaging.forcedRefresh a = true ->
      sameStore (rig_world r) (after (onAnalogButton T C tables a (rig_world r)))).
Proof.
  intros He r'. subst r'. unfold onSystem. rewrite He. unfold updateAll.
  destruct (updateAll_forced_over T tables (seqZ 0 (DIGITAL_INPUTS T)) r [])
    as (S1 & S2 & S3).
  split; [done|]. split; [done|]. split; [done|].
  intros a Ha. unfold onAnalogButton. rewrite Ha. cbn [negb].
  unfold mbind, M_bind. rewrite fillDescriptor_stored.
  match goal with
  | |- context [resend T ?i ?d ?w] =>
      pose proof (resend_sameStore T i d w) as Hs;
      destruct (resend T i d w) as [[? ?] ?]
  end.
  exact Hs.
Qed.

Lemma forced_refresh_keeps_the_bits_witness :
  sameStore
    (mkWorld (setState 3 true Bench.buttons0) Panel.noteStore Bench.counters0)
    (rig_world
       (onSystem (Bench.board 8 false) Panel.tables
          (messaging.with_systemMessage messaging.FORCE_IO_REFRESH messaging.empty)
          (mkRig (mkWorld (setState 3 true Bench.buttons0) Panel.noteStore
                          Bench.counters0)
                 (None : Panel.Samples) (tt : Panel.Through))).1).
Proof.
  destruct (forced_refresh_keeps_the_bits (Bench.board 8 false)
              (mkCollection 16 8 12) Panel.tables
              (messaging.with_systemMessage messaging.FORCE_IO_REFRESH messaging.empty)
              (mkRig (mkWorld (setState 3 true Bench.buttons0) Panel.noteStore
                              Bench.counters0)
                     (None : Panel.Samples) (tt : Panel.Through)))
    as (H & _); [reflexivity | exact H].
Defined.

(** ** One descriptor for a whole batch of readings *)

Section Batch.
Context {DB G : Type} `{!Database DB} `{!Globals G} (T : Target).

Lemma note_release_edge index d (w : @World DB G) :
  messageType d = NOTE -> type d = MOMENTARY ->
  state index (buttons w) = true -> overridden T index w = false ->
  processButton T index false d w
  = (with_event (noteOffOf (messaging.index (event d)) (event d)) d,
     commit index false w,
     [(messaging.BUTTON, noteOffOf (messaging.index (event d)) (event d))]).
Proof.
  intros Hk Ht Hs Ho.
  rewrite processButton_plain by (rewrite ?Hs; done).
  unfold translate. rewrite Hk, Ht.
  rewrite (bool_decide_eq_false_2 (NOTE = NONE)) by discriminate.
  rewrite (bool_decide_eq_false_2 (MOMENTARY = LATCHING)) by discriminate.
  cbn [andb]. unfold sendMessage, onRelease. rewrite Hk. unfold_engine.
  cbn. unfold noteOffOf. by destruct d as [t k [ci ch ix va sx sl fr sm ms]].
Qed.

Lemma note_press_edge index d (w : @World DB G) :
  messageType d = NOTE -> type d = MOMENTARY ->
  state index (buttons w) = false -> overridden T index w = false ->
  processButton T index true d w
  = (d, commit index true w, [(messaging.BUTTON, event d)]).
Proof.
  intros Hk Ht Hs Ho.
  rewrite processButton_plain by (rewrite ?Hs; done).
  unfold translate. rewrite Hk, Ht.
  rewrite (bool_decide_eq_false_2 (NOTE = NONE)) by discriminate.
  rewrite (bool_decide_eq_false_2 (MOMENTARY = LATCHING)) by discriminate.
  cbn [andb]. unfold sendMessage, onPress. rewrite Hk. unfold_engine.
  done.
Qed.
End Batch.

(** X15: the descriptor of an input is resolved once for a batch of
    buffered readings and every reading of the batch works on that one
    object.  For a momentary NOTE input that is held, a batch holding a
    release and then a press publishes the Note Off of the release twice:
    the press publishes the event as the release left it (Note Off,
    velocity 0), where a press handed over with a freshly resolved
    descriptor publishes the configured Note On. *)
Theorem batch_shares_the_descriptor {DB G H F : Type}
    `{!Database DB} `{!Globals G} `{!Hwa H} `{!Filter F}
    (T : Target) (tables : Tables) (index states : Z) (h : H)
    (r : @Rig DB G H F) :
  passesAll F ->
  0 <= index < DIGITAL_INPUTS T ->
  addresses (_buttonPressed (buttons (rig_world r))) index ->
  db_read (database (rig_world r))
    (encoder_ENABLE (hwa_buttonToEncoderIndex (rig_hwa r) index)) = 0 ->
  hwa_state (rig_hwa r) index = (Some (2, states), h) ->
  Z.testbit states 1 = false -> Z.testbit states 0 = true ->
  overridden T index (rig_world r) = false ->
  state index (buttons (rig_world r)) = true ->
  let d := stored tables (database (rig_world r)) index in
  let off := noteOffOf (messaging.index (event d)) (event d) in
  messageType d = NOTE -> type d = MOMENTARY ->
  (updateSingle T tables index false r).2
  = [(messaging.BUTTON, off); (messaging.BUTTON, off)]
  /\ published (processButton T index true d (commit index false (rig_world r)))
     = [(messaging.BUTTON, event d)].
Proof.
  intros Hf Hi Ha Hen Hh Hb1 Hb0 Ho Hs d off Hk Ht.
  assert (Hi' : 0 <= index < 2048) by (destruct Ha as [? ?]; lia).
  assert (Hs1 : state index (buttons (commit index false (rig_world r))) = false)
    by (by apply state_setState_eq).
  split.
  2:{ rewrite (note_press_edge T) by done. done. }
  unfold updateSingle, maxComponentUpdateIndex, state_readings.
  rewrite (proj2 (Z.leb_gt _ _)) by lia. cbn [negb].
  rewrite Hen. cbn [Z.eqb negb]. rewrite Hh.
  rewrite fillDescriptor_stored. cbv zeta.
  change (u8 2) with 2. change (seqZ 0 2) with [0; 1].
  cbn [foldl rig_world rig_hwa rig_filter]. fold d.
  destruct (processReading_through T index 2 (u16 states) d
              (mkRig (rig_world r) h (rig_filter r)) [] 0 Hf) as [f1 ->]; [lia|lia|].
  cbv zeta. cbn [rig_world rig_hwa].
  change (2 - 1 - 0) with 1. rewrite testbit_u16, Hb1 by lia. cbn [andb].
  rewrite (note_release_edge T) by done.
  unfold result, after, published. cbn [fst snd app]. fold off.
  destruct (processReading_through T index 2 (u16 states) (with_event off d)
              (mkRig (commit index false (rig_world r)) h f1)
              [(messaging.BUTTON, off)] 1 Hf) as [f2 ->]; [lia|lia|].
  cbv zeta. cbn [rig_world rig_hwa].
  change (2 - 1 - 1) with 0. rewrite testbit_u16, Hb0 by lia. cbn [andb].
  rewrite (note_press_edge T) by done.
  unfold published. cbn [fst snd app]. done.
Qed.

Lemma batch_shares_the_descriptor_witness :
  (updateSingle (Bench.board 8 false) Panel.tables 3 false
     (mkRig (mkWorld (setState 3 true Bench.buttons0) Panel.noteStore Bench.counters0)
            (Some (2, 1) : Panel.Samples) (tt : Panel.Through))).2
  = [ (messaging.BUTTON, event (Bench.descriptor MOMENTARY NOTE midi.NOTE_OFF 3 1 60 0));
      (messaging.BUTTON, event (Bench.descriptor MOMENTARY NOTE midi.NOTE_OFF 3 1 60 0)) ].
Proof.
  destruct (batch_shares_the_descriptor (Bench.board 8 false) Panel.tables 3 1
              (Some (2, 1) : Panel.Samples)
              (mkRig (mkWorld (setState 3 true Bench.buttons0) Panel.noteStore
                              Bench.counters0)
                     (Some (2, 1) : Panel.Samples) (tt : Panel.Through)))
    as [H _].
  - intros f i s. by exists f.
  - cbn. lia.
  - solve_addresses.
  - reflexivity.
  - reflexivity.
  - reflexivity.
  - reflexivity.
  - reflexivity.
  - reflexivity.
  - reflexivity.
  - reflexivity.
  - exact H.
Defined.

(** ** A forced refresh and the legato count *)

(** X16: a forced refresh runs the press branch of a held input again, and
    for NOTE_LEGATO that branch counts.  A momentary NOTE_LEGATO input
    pressed on an idle channel raises the count of its channel to 1; a
    forced refresh while it is held raises the count to 2 although no
    second input is pressed; the release then lowers the count to 1 and
    publishes nothing, so the note of the channel is left sounding.
    Without the refresh the same release publishes the Note Off. *)
Theorem forced_refresh_recounts_legato {DB G H F : Type}
    `{!Database DB} `{!Globals G} `{!Hwa H} `{!Filter F}
    (T : Target) (tables : Tables) (index : Z) (h : H) (f : F) (w : @World DB G) :
  0 <= index < DIGITAL_INPUTS T ->
  addresses (_buttonPressed (buttons w)) index ->
  state index (buttons w) = false ->
  overridden T index w = false ->
  length (_legatoButtonCount (buttons w)) = 16%nat ->
  length (_legatoActiveNote (buttons w)) = 16%nat ->
  let d := stored tables (database w) index in
  let ch := legatoChannel d in
  messageType d = NOTE_LEGATO -> type d = MOMENTARY ->
  at_ (_legatoButtonCount (buttons w)) ch = 0 ->
  let pressed := after (processButton T index true d w) in
  let refreshed := rig_world (updateSingle T tables index true (mkRig pressed h f)).1 in
  let release := processButton T index false d refreshed in
  at_ (_legatoButtonCount (buttons pressed)) ch = 1
  /\ at_ (_legatoButtonCount (buttons refreshed)) ch = 2
  /\ published release = []
  /\ at_ (_legatoButtonCount (buttons (after release))) ch = 1
  /\ at_ (_legatoActiveNote (buttons (after release))) ch = legatoNote d
  /\ state index (buttons (after release)) = false
  /\ published (processButton T index false d pressed)
     = [(messaging.BUTTON, noteOffOf (legatoNote d) (event d))].
Proof.
  intros Hi Ha Hs Ho Lc La d ch Hk Ht Hc pressed refreshed release.
  pose proof (legatoChannel_range d) as Hch. fold ch in Hch.
  assert (Hin : (Z.to_nat ch < 16)%nat) by lia.
  (* the press *)
  assert (Hp : pressed
    = mkWorld (with_legatoActiveNote
                 (put (_legatoActiveNote (buttons w)) ch (legatoNote d))
                 (with_legatoButtonCount
                    (put (_legatoButtonCount (buttons w)) ch 1)
                    (setState index true (buttons w))))
              (database w) (globals w)).
  { unfold pressed. rewrite (legato_edge T) by (rewrite ?Hs; done).
    rewrite sendMessage_legato_press by done. cbv zeta. fold ch.
    unfold after, commit. cbn [fst snd buttons database globals setState
      with_buttonPressed _legatoButtonCount _legatoActiveNote].
    by rewrite Hc. }
  assert (Hsp : state index (buttons pressed) = true).
  { rewrite Hp. cbn [buttons]. by apply state_setState_eq. }
  assert (Hcp : at_ (_legatoButtonCount (buttons pressed)) ch = 1).
  { rewrite Hp. cbn. rewrite at_put_eq; [done|lia]. }
  assert (Hdp : database pressed = database w) by (by rewrite Hp).
  assert (Hop : overridden T index pressed = false)
    by (by rewrite (overridden_ext T index w pressed Hdp)).
  (* the refresh *)
  assert (Hr : refreshed
    = mkWorld (with_legatoActiveNote
                 (put (_legatoActiveNote (buttons pressed)) ch (legatoNote d))
                 (with_legatoButtonCount
                    (put (_legatoButtonCount (buttons pressed)) ch 2)
                    (buttons pressed)))
              (database w) (globals pressed)).
  { unfold refreshed, updateSingle, maxComponentUpdateIndex.
    rewrite (proj2 (Z.leb_gt _ _)) by lia. cbn [negb rig_world rig_hwa rig_filter].
    unfold mbind, M_bind. rewrite fillDescriptor_stored. rewrite Hdp. fold d.
    unfold resend, getButtons, mbind, M_bind. rewrite Ht.
    rewrite (bool_decide_eq_false_2 (MOMENTARY = LATCHING)) by discriminate.
    rewrite Hsp. rewrite sendMessage_legato_press by done. cbv zeta. fold ch.
    cbn [fst snd app rig_world]. by rewrite Hcp, Hdp. }
  assert (Hsr : state index (buttons refreshed) = true).
  { rewrite Hr. cbn [buttons]. exact Hsp. }
  assert (Hcr : at_ (_legatoButtonCount (buttons refreshed)) ch = 2).
  { rewrite Hr. cbn. rewrite at_put_eq; [done|]. rewrite Hp. cbn.
    rewrite length_put. lia. }
  assert (Hdr : database refreshed = database w) by (by rewrite Hr).
  assert (Hor : overridden T index refreshed = false)
    by (by rewrite (overridden_ext T index w refreshed Hdr)).
  assert (Har : addresses (_buttonPressed (buttons refreshed)) index).
  { rewrite Hr, Hp. cbn. unfold addresses in *. by rewrite length_put. }
  split; [done|]. split; [done|].
  (* the release after the refresh *)
  assert (Hrel : release
    = (d, mkWorld (with_legatoButtonCount
                     (put (_legatoButtonCount (buttons refreshed)) ch 1)
                     (setState index false (buttons refreshed)))
                  (database refreshed) (globals refreshed), [])).
  { unfold release. rewrite (legato_edge T) by (rewrite ?Hsr; done).
    rewrite sendMessage_legato_release by done. cbv zeta. fold ch.
    unfold commit. cbn [buttons database globals setState with_buttonPressed
      _legatoButtonCount].
    rewrite Hcr. cbn [Z.ltb Z.compare Pos.compare Pos.compare_cont].
    change (u8 (2 - 1)) with 1.
    cbn [_legatoButtonCount with_legatoButtonCount].
    rewrite at_put_eq by (rewrite Hr, Hp; cbn; rewrite !length_put; lia).
    done. }
  rewrite Hrel. unfold published, after. cbn [fst snd buttons].
  split; [done|].
  split.
  { cbn. rewrite at_put_eq; [done|]. rewrite Hr, Hp. cbn. rewrite !length_put. lia. }
  split.
  { cbn. rewrite Hr. cbn. rewrite at_put_eq; [done|]. rewrite Hp. cbn.
    rewrite length_put. lia. }
  split.
  { rewrite (state_ext index (setState index false (buttons refreshed))) by done.
    by apply state_setState_eq. }
  (* the release without the refresh *)
  rewrite (legato_edge T) by (rewrite ?Hsp; done).
  rewrite sendMessage_legato_release by done. cbv zeta. fold ch.
  unfold commit. cbn [buttons database globals setState with_buttonPressed
    _legatoButtonCount _legatoActiveNote].
  rewrite Hcp. cbn [Z.ltb Z.compare Pos.compare Pos.compare_cont].
  change (u8 (1 - 1)) with 0.
  cbn [_legatoButtonCount with_legatoButtonCount].
  rewrite at_put_eq by (rewrite Hp; cbn; rewrite !length_put; lia).
  cbn [Z.eqb snd].
  rewrite Hp. cbn. rewrite at_put_eq by lia. done.
Qed.

Lemma forced_refresh_recounts_legato_witness :
  published
    (processButton (Bench.board 8 false) 3 false
       (stored Panel.tables Panel.legatoStore 3)
       (rig_world
          (updateSingle (Bench.board 8 false) Panel.tables 3 true
             (mkRig (after (processButton (Bench.board 8 false) 3 true
                              (stored Panel.tables Panel.legatoStore 3)
                              (Bench.world0 Panel.legatoStore)))
                    (None : Panel.Samples) (tt : Panel.Through))).1))
  = [].
Proof.
  destruct (forced_refresh_recounts_legato (Bench.board 8 false) Panel.tables 3
              (None : Panel.Samples) (tt : Panel.Through)
              (Bench.world0 Panel.legatoStore))
    as (_ & _ & H & _).
  - cbn. lia.
  - solve_addresses.
  - reflexivity.
  - reflexivity.
  - reflexivity.
  - reflexivity.
  - reflexivity.
  - reflexivity.
  - reflexivity.
  - exact H.
Defined.

(** ** The listeners *)

Section Listeners.
Context {DB G : Type} `{!Database DB} `{!Globals G} (T : Target).

Lemma resend_sax index d (w : @World DB G) :
  saxSounding (buttons (after (resend T index d w))) = saxSounding (buttons w).
Proof.
  unfold resend, getButtons, mbind, M_bind, saxSounding.
  case_bool_decide;
    match goal with
    | |- context [sendMessage T ?i ?s ?d ?w] =>
        pose proof (sendMessage_sax T i s d w) as [H1 H2];
        destruct (sendMessage T i s d w) as [[? ?] ?]
    end; unfold after in *; cbn [fst snd] in *; by rewrite H1, H2.
Qed.

(** An input outside the digital range is never taken by the override. *)
Lemma processButton_outside index reading d (w : @World DB G) :
  DIGITAL_INPUTS T <= index -> 0 <= index < 2048 ->
  saxSounding (buttons (after (processButton T index reading d w)))
  = saxSounding (buttons w)
  /\ forall j, 0 <= j < 2048 -> j <> index ->
       state j (buttons (after (processButton T index reading d w)))
       = state j (buttons w).
Proof.
  intros Hout Hi. split.
  - destruct (decide (reading = state index (buttons w))) as [E|E].
    { by rewrite processButton_no_edge. }
    rewrite processButton_plain; [|done|].
    + destruct (translate_sax T index reading d (commit index reading w)) as [H1 H2].
      unfold saxSounding. by rewrite H1, H2.
    + unfold overridden. rewrite (proj2 (Z.ltb_ge _ _)) by lia.
      by rewrite andb_false_r.
  - intros j Hj Hne.
    rewrite (state_ext j _ _ (processButton_pressed T index reading d w)).
    case_bool_decide; [done|]. by apply state_setState_ne.
Qed.
End Listeners.

(** X17: the events of analog and touchscreen inputs stay out of the
    register-chromatic voice.  When these inputs are indexed from the
    digital count on, their listeners never start or stop the
    register-chromatic note, whether the mode is on or off, and never
    change the pressed bit of another input. *)
Theorem listeners_stay_out_of_the_voice {DB G : Type} `{!Database DB} `{!Globals G}
    (T : Target) (C : Collection) (tables : Tables) (e : messaging.Event)
    (w : @World DB G) :
  DIGITAL_INPUTS T <= START_INDEX_ANALOG_INPUTS C ->
  DIGITAL_INPUTS T <= START_INDEX_TOUCHSCREEN_COMPONENTS C ->
  0 <= messaging.componentIndex e ->
  messaging.componentIndex e + START_INDEX_ANALOG_INPUTS C < 2048 ->
  messaging.componentIndex e + START_INDEX_TOUCHSCREEN_COMPONENTS C < 2048 ->
  0 <= DIGITAL_INPUTS T ->
  let wa := after (onAnalogButton T C tables e w) in
  let wt := after (onTouchscreenButton T C tables e w) in
  saxSounding (buttons wa) = saxSounding (buttons w)
  /\ saxSounding (buttons wt) = saxSounding (buttons w)
  /\ (forall j, 0 <= j < 2048 ->
      j <> messaging.componentIndex e + START_INDEX_ANALOG_INPUTS C ->
      state j (buttons wa) = state j (buttons w))
  /\ (forall j, 0 <= j < 2048 ->
      j <> messaging.componentIndex e + START_INDEX_TOUCHSCREEN_COMPONENTS C ->
      state j (buttons wt) = state j (buttons w)).
Proof.
  intros Ha Ht Hc Hia Hit Hd wa wt. subst wa wt.
  unfold onAnalogButton, onTouchscreenButton, mbind, M_bind.
  rewrite !fillDescriptor_stored.
  set (ia := messaging.componentIndex e + START_INDEX_ANALOG_INPUTS C).
  set (it := messaging.componentIndex e + START_INDEX_TOUCHSCREEN_COMPONENTS C).
  set (da := stored tables (database w) ia).
  set (dt := stored tables (database w) it).
  set (reading := negb (messaging.value e =? 0)).
  destruct (processButton_outside T ia reading da w) as [A1 A2]; [lia|lia|].
  destruct (processButton_outside T it reading dt w) as [T1 T2]; [lia|lia|].
  assert (Hpa : forall x : Descriptor * @World DB G * list Publication,
            after (let '(b, w2, o2) := x in (b, w2, [] ++ o2)) = after x)
    by (by intros [[? ?] ?]).
  rewrite !Hpa.
  split; [|split; [done|split; [|done]]].
  - destruct (messaging.forcedRefresh e); cbn [negb]; [apply resend_sax|done].
  - intros j Hj Hne.
    destruct (messaging.forcedRefresh e); cbn [negb]; [|by apply A2].
    apply state_ext. by destruct (resend_sameStore T ia da w) as (-> & _).
Qed.

Lemma listeners_stay_out_of_the_voice_witness :
  saxSounding (buttons (after (onAnalogButton (Bench.board 8 true)
     (mkCollection 16 8 12) Panel.tables
     (messaging.with_value 1 (messaging.with_componentIndex 2 messaging.empty))
     (Bench.world0 saxStore))))
  = saxSounding (buttons (Bench.world0 saxStore)).
Proof.
  destruct (listeners_stay_out_of_the_voice (Bench.board 8 true)
     (mkCollection 16 8 12) Panel.tables
     (messaging.with_value 1 (messaging.with_componentIndex 2 messaging.empty))
     (Bench.world0 saxStore)) as (H & _); cbn; try lia.
  exact H.
Defined.

(** ** The configuration adapter and the rest of the state *)

(** X18: a configuration write publishes nothing and touches no state
    but the two bits of the input it names: the bits of every other
    input, the step counters, the legato counts and notes and the
    register-chromatic note are what they were, whether the write
    succeeds or not, and a write to a section other than TYPE and
    MESSAGE_TYPE leaves the whole state of [Buttons] as it was. *)
Theorem sysConfigSet_touches_one_input {DB G : Type} `{!Database DB} `{!Globals G}
    (T : Target) (section : button_t) (index value : Z) (w : @World DB G) :
  0 <= index < 2048 ->
  let r := sysConfigSet T section index value w in
  published r = []
  /\ globals (after r) = globals w
  /\ (forall j, 0 <= j < 2048 -> j <> index ->
      state j (buttons (after r)) = state j (buttons w)
      /\ latchingState j (buttons (after r)) = latchingState j (buttons w))
  /\ _incDecValue (buttons (after r)) = _incDecValue (buttons w)
  /\ _legatoButtonCount (buttons (after r)) = _legatoButtonCount (buttons w)
  /\ _legatoActiveNote (buttons (after r)) = _legatoActiveNote (buttons w)
  /\ saxSounding (buttons (after r)) = saxSounding (buttons w)
  /\ (section <> TYPE -> section <> MESSAGE_TYPE -> buttons (after r) = buttons w).
Proof.
  intros Hi r. subst r. unfold sysConfigSet. unfold_engine.
  destruct (db_update (database w) (button (SYS_2_DB_SECTION T section) index) value)
    as [ok db'].
  destruct ok; cbn.
  - rewrite bool_decide_eq_true_2 by done.
    destruct (bool_decide (section = TYPE) || bool_decide (section = MESSAGE_TYPE)) eqn:Hb;
      cbn.
    + split; [done|]. split; [done|]. split.
      { intros j Hj Hne. unfold reset. split.
        - rewrite state_setLatchingState. by apply state_setState_ne.
        - rewrite latchingState_set_ne by done. apply latchingState_setState. }
      split; [done|]. split; [done|]. split; [done|]. split; [done|].
      intros H1 H2. apply orb_true_iff in Hb as [Hb|Hb];
        apply bool_decide_eq_true_1 in Hb; done.
    + done.
  - rewrite bool_decide_eq_false_2 by done. cbn. done.
Qed.

Lemma sysConfigSet_touches_one_input_witness :
  buttons (after (sysConfigSet (Bench.board 8 false) CHANNEL 3 5
     (mkWorld (setLatchingState 3 true (setState 3 true Bench.buttons0))
              ([] : Bench.Store) Bench.counters0)))
  = setLatchingState 3 true (setState 3 true Bench.buttons0).
Proof.
  destruct (sysConfigSet_touches_one_input (Bench.board 8 false) CHANNEL 3 5
     (mkWorld (setLatchingState 3 true (setState 3 true Bench.buttons0))
              ([] : Bench.Store) Bench.counters0))
    as (_ & _ & _ & _ & _ & _ & _ & H); [lia|].
  apply H; discriminate.
Defined.

(** ** Press and release of a momentary input *)

(** X19: a momentary input of kind NOTE, CONTROL_CHANGE_RESET, MMC_RECORD
    or MMC_PLAY_STOP answers a press with the configured event and the
    release that follows with its counterpart on the same channel and
    index: Note Off with velocity 0, the control change with value 0,
    MMC record stop, MMC stop.  The two edges leave nothing behind but the
    pressed bit set and cleared again. *)
Theorem momentary_press_release_pair {DB G : Type} `{!Database DB} `{!Globals G}
    (T : Target) (index : Z) (d : Descriptor) (w : @World DB G) :
  messageType d ∈ pairedKinds -> type d = MOMENTARY ->
  addresses (_buttonPressed (buttons w)) index ->
  state index (buttons w) = false -> overridden T index w = false ->
  edges T [(index, true, d); (index, false, d)] w
  = ([ [(messaging.BUTTON, event d)];
       [(messaging.BUTTON, releaseCounterpart (messageType d) (event d))] ],
     commit index false (commit index true w))
  /\ state index (buttons (commit index false (commit index true w))) = false.
Proof.
  intros Hk Ht Ha Hs Ho. unfold pairedKinds in Hk.
  assert (Hs1 : state index (buttons (commit index true w)) = true)
    by (by apply state_setState_eq).
  assert (Ha1 : addresses (_buttonPressed (buttons (commit index true w))) index)
    by (by apply addresses_setState).
  split; [|by apply state_setState_eq].
  assert (Hpress : processButton T index true d w
                   = (d, commit index true w, [(messaging.BUTTON, event d)])).
  { rewrite processButton_plain by (rewrite ?Hs; done).
    unfold translate. rewrite Ht.
    rewrite (bool_decide_eq_false_2 (MOMENTARY = LATCHING)) by discriminate.
    cbn [andb]. unfold sendMessage, onPress. unfold_engine.
    destruct (messageType d) eqn:E; try done;
      exfalso; repeat (apply elem_of_cons in Hk as [Hk|Hk]; [discriminate|]);
      by apply elem_of_nil in Hk. }
  assert (Hrelease : processButton T index false d (commit index true w)
                     = (with_event (releaseCounterpart (messageType d) (event d)) d,
                        commit index false (commit index true w),
                        [(messaging.BUTTON,
                          releaseCounterpart (messageType d) (event d))])).
  { rewrite processButton_plain by (rewrite ?Hs1; done).
    unfold translate. rewrite Ht.
    rewrite (bool_decide_eq_false_2 (MOMENTARY = LATCHING)) by discriminate.
    cbn [andb]. unfold sendMessage, onRelease. unfold_engine.
    destruct (messageType d) eqn:E; try done;
      exfalso; repeat (apply elem_of_cons in Hk as [Hk|Hk]; [discriminate|]);
      by apply elem_of_nil in Hk. }
  rewrite edges_cons, Hpress. unfold after, published. cbn [fst snd].
  rewrite edges_cons, Hrelease. unfold after, published. cbn [fst snd edges].
  done.
Qed.

Lemma momentary_press_release_pair_witness :
  (edges (Bench.board 8 false)
     [ (3, true, Bench.descriptor MOMENTARY NOTE midi.NOTE_ON 3 1 60 127);
       (3, false, Bench.descriptor MOMENTARY NOTE midi.NOTE_ON 3 1 60 127) ]
     (Bench.world0 [])).1
  = [ [(messaging.BUTTON, event (Bench.descriptor MOMENTARY NOTE midi.NOTE_ON 3 1 60 127))];
      [(messaging.BUTTON, event (Bench.descriptor MOMENTARY NOTE midi.NOTE_OFF 3 1 60 0))] ].
Proof.
  destruct (momentary_press_release_pair (Bench.board 8 false) 3
              (Bench.descriptor MOMENTARY NOTE midi.NOTE_ON 3 1 60 127)
              (Bench.world0 [])) as [H _].
  - apply (bool_decide_unpack _). vm_compute. exact I.
  - reflexivity.
  - solve_addresses.
  - reflexivity.
  - reflexivity.
  - rewrite H. reflexivity.
Defined.

(** X20: the program a PROGRAM_CHANGE input sends is the configured
    program plus the program offset, reduced to seven bits: whatever the
    offset, the published program number is (program + offset) mod 128, so
    that it is always one of 0 to 127, and the value is 0.  The press
    publishes this one event and changes nothing. *)
Theorem program_change_wraps {DB G : Type} `{!Database DB} `{!Globals G}
    (T : Target) (index : Z) (d : Descriptor) (w : @World DB G) :
  messageType d = PROGRAM_CHANGE ->
  let program :=
    (messaging.index (event d) + MidiProgram_offset (globals w)) mod 128 in
  let ev := messaging.with_index program (messaging.with_value 0 (event d)) in
  sendMessage T index true d w = (with_event ev d, w, [(messaging.BUTTON, ev)])
  /\ 0 <= messaging.index ev <= 127.
Proof.
  intros Hk program ev.
  assert (Hp : Z.land (messaging.index (event d) + MidiProgram_offset (globals w)) 127
               = program).
  { change 127 with (Z.ones 7). by rewrite Z.land_ones by lia. }
  split.
  - unfold sendMessage, onPress. rewrite Hk. unfold_engine. cbn. by rewrite Hp.
  - subst ev program. cbn.
    pose proof (Z.mod_pos_bound
                  (messaging.index (event d) + MidiProgram_offset (globals w)) 128).
    lia.
Qed.

Lemma program_change_wraps_witness :
  published
    (sendMessage (Bench.board 8 false) 3 true
       (Bench.descriptor MOMENTARY PROGRAM_CHANGE midi.PROGRAM_CHANGE 3 1 120 0)
       (mkWorld Bench.buttons0 ([] : Bench.Store)
                (Bench.mkCounters 10 (replicate 16 0) 120)))
  = [(messaging.BUTTON,
      event (Bench.descriptor MOMENTARY PROGRAM_CHANGE midi.PROGRAM_CHANGE 3 1 2 0))].
Proof.
  destruct (program_change_wraps (Bench.board 8 false) 3
              (Bench.descriptor MOMENTARY PROGRAM_CHANGE midi.PROGRAM_CHANGE 3 1 120 0)
              (mkWorld Bench.buttons0 ([] : Bench.Store)
                       (Bench.mkCounters 10 (replicate 16 0) 120)))
    as [H _]; [reflexivity|].
  rewrite H. reflexivity.
Defined.

(** ** A captured fingering and the scan *)

Lemma bitsSet_subset (n : nat) (a m : Z) :
  (forall i, 0 <= i -> Z.testbit a i = true -> Z.testbit m i = true) ->
  bitsSet n a <= bitsSet n m
  /\ (bitsSet n a = bitsSet n m ->
      forall i, 0 <= i < Z.of_nat n -> Z.testbit a i = Z.testbit m i).
Proof.
  revert a m. induction n as [|n IH]; intros a m Hsub.
  { split; [done|]. intros _ i Hi. lia. }
  cbn [bitsSet].
  assert (Hsub' : forall i, 0 <= i -> Z.testbit (Z.shiftr a 1) i = true ->
                    Z.testbit (Z.shiftr m 1) i = true).
  { intros i Hi. rewrite !Z.shiftr_spec by done. apply Hsub. lia. }
  destruct (IH (Z.shiftr a 1) (Z.shiftr m 1) Hsub') as [Hle Heq].
  assert (H0 : Z.testbit a 0 = true -> Z.testbit m 0 = true) by (apply Hsub; lia).
  split.
  - destruct (Z.testbit a 0), (Z.testbit m 0); cbn [Z.b2z];
      first [lia | specialize (H0 eq_refl); done].
  - intros Hsum i Hi.
    assert (Hb : Z.testbit a 0 = Z.testbit m 0
                 /\ bitsSet n (Z.shiftr a 1) = bitsSet n (Z.shiftr m 1)).
    { destruct (Z.testbit a 0) eqn:Ea, (Z.testbit m 0) eqn:Em; cbn [Z.b2z] in *.
      - split; [done|lia].
      - specialize (H0 eq_refl). done.
      - lia.
      - split; [done|lia]. }
    destruct Hb as [Hb0 Hbr].
    destruct (decide (i = 0)) as [->|Hne]; [done|].
    specialize (Heq Hbr (i - 1) ltac:(lia)).
    rewrite !Z.shiftr_spec in Heq by lia.
    by replace (i - 1 + 1) with i in Heq by lia.
Qed.

Lemma bits_below_32 (v i : Z) :
  0 <= v < 4294967296 -> 32 <= i -> Z.testbit v i = false.
Proof.
  intros Hv Hi.
  destruct (decide (v = 0)) as [->|Hne]; [apply Z.bits_0|].
  apply Z.bits_above_log2; [lia|].
  assert (Z.log2 v < 32); [|lia].
  apply Z.log2_lt_pow2; [lia|]. change (2 ^ 32) with 4294967296. lia.
Qed.

(** A mask within another one with as many bits set is that mask. *)
Lemma subset_same_count (a m : Z) :
  0 <= a < 4294967296 -> 0 <= m < 4294967296 ->
  Z.land a m = a ->
  bitsSet 32 a <= bitsSet 32 m /\ (bitsSet 32 a = bitsSet 32 m -> a = m).
Proof.
  intros Ha Hm Hsub.
  assert (Hbits : forall i, 0 <= i -> Z.testbit a i = true -> Z.testbit m i = true).
  { intros i Hi Hb. rewrite <- Hsub in Hb. rewrite Z.land_spec in Hb.
    by apply andb_true_iff in Hb as [_ Hb]. }
  destruct (bitsSet_subset 32 a m Hbits) as [Hle Heq].
  split; [done|]. intros Hs. apply Z.bits_inj'. intros i Hi.
  destruct (decide (i < 32)) as [Hlt|Hge].
  - apply Heq; [done|lia].
  - by rewrite !bits_below_32 by lia.
Qed.

(** X21: an entry that holds exactly the held fingering wins the scan.
    When an enabled table entry has the current mask of pressed keys as its
    mask and a note from 0 to 127, at least one key is pressed, and no
    earlier entry that qualifies has that same mask, the target of the
    register-chromatic engine is the note of that entry plus the
    transpose, clamped to 0..127, whatever else the table holds: every
    other qualifying entry has a mask within the held one and so at most
    as many bits. *)
Theorem exact_fingering_wins {DB G : Type} `{!Database DB} `{!Globals G}
    (T : Target) (e : Z) (w : @World DB G) :
  0 <= e < SAX_FINGERING_TABLE_ENTRIES T ->
  entryEnabled T (database w) e = true ->
  entryMask T (database w) e = saxMask T w ->
  entryNote (database w) e <= 127 ->
  saxMask T w <> 0 ->
  (forall e', 0 <= e' < e -> qualifies T (database w) (saxMask T w) e' = true ->
              entryMask T (database w) e' <> saxMask T w) ->
  let target :=
    Z.max 0 (Z.min 127 (i16 (entryNote (database w) e + saxTranspose (database w)))) in
  published (processSaxRegisterChromatic T w)
  = transition (saxChannelOf (database w)) (buttons w) target
  /\ saxSounding (buttons (after (processSaxRegisterChromatic T w))) = Some target.
Proof.
  intros He Hen Hmask Hnote Hne Hfirst target.
  set (db := database w) in *. set (mask := saxMask T w) in *.
  assert (Hq : qualifies T db mask e = true).
  { unfold qualifies. rewrite Hen, Hmask, Z.land_diag, Z.eqb_refl. cbn [andb].
    by apply Z.leb_le. }
  assert (Hr : 0 <= mask < 4294967296)
    by (rewrite <- Hmask; apply entryMask_range).
  assert (Hw : winner T db mask e).
  { split; [done|]. split; [done|]. intros e' He' Hq'.
    rewrite !entryScore_bitsSet, Hmask.
    assert (Hsub : Z.land (entryMask T db e') mask = entryMask T db e').
    { unfold qualifies in Hq'. apply andb_true_iff in Hq' as [Hq' _].
      apply andb_true_iff in Hq' as [_ Hq']. by apply Z.eqb_eq in Hq'. }
    destruct (subset_same_count (entryMask T db e') mask
                (entryMask_range T db e') Hr Hsub) as [Hle Heq].
    split; [done|]. intros Hs.
    destruct (decide (e <= e')) as [|Hlt]; [done|].
    exfalso. apply (Hfirst e'); [lia|done|]. by apply Heq. }
  destruct (scanTable_winner T db mask e Hw) as [Hm Hb].
  assert (Ha : anyEnabled (scanTable T db mask) = true)
    by (apply scanTable_anyEnabled; by exists e).
  assert (Hn0 : 0 <= entryNote db e).
  { unfold entryNote, u16.
    pose proof (Z.mod_pos_bound (db_read db (global SAX_FINGERING_NOTE e)) 65536).
    lia. }
  rewrite processSax_unfold. cbv zeta. fold db mask.
  rewrite Ha, Hm, Hb. cbn [negb orb].
  rewrite (proj2 (Z.eqb_neq _ _) Hne).
  rewrite (i16_small (entryNote db e)) by lia.
  destruct (saxSound_effect (saxChannelOf db)
              (i16 (entryNote db e + saxTranspose db)) w) as (P1 & P2 & P3).
  cbv zeta in P1, P3. fold target in P1, P3.
  split; [done|]. unfold saxSounding. by rewrite P2, P3.
Qed.

Lemma exact_fingering_wins_witness :
  published
    (processSaxRegisterChromatic (Bench.board 24 true)
       (keys012 (tableStore 3 40 7 62)))
  = transition 0 (buttons (keys012 (tableStore 3 40 7 62))) 62.
Proof.
  destruct (exact_fingering_wins (Bench.board 24 true) 1
              (keys012 (tableStore 3 40 7 62))) as [H _].
  - cbn. lia.
  - reflexivity.
  - reflexivity.
  - vm_compute. discriminate.
  - vm_compute. discriminate.
  - intros e' He' Hq'. assert (e' = 0) as -> by lia. vm_compute. discriminate.
  - exact H.
Defined.

(** * Properties of the Nextion driver *)

Section Commands.
Context {P : Type} `{!nextion.Hwa P} (N : nextion.Protocol).

Lemma writeEach_spec (cs : list Z) (d : nextion.Driver) :
  let r := nextion.writeEach cs d in
  nextion.display (nextion.next r) = nextion.display d
  /\ nextion.sent r `prefix_of` cs
  /\ (nextion.value r = true -> nextion.sent r = cs)
  /\ (accepts P -> nextion.value r = true).
Proof.
  revert d. induction cs as [|c cs IH]; intros d; cbn.
  { split; [done|]. split; [done|]. done. }
  unfold nextion.bind, nextion.write.
  destruct (nextion.hwa_write (nextion.port d) c) as [ok p] eqn:Hw.
  destruct ok.
  - specialize (IH (nextion.mkDriver (nextion.display d) p)).
    cbv zeta in IH. destruct IH as (I1 & I2 & I3 & I4).
    destruct (nextion.writeEach cs _) as [[b d'] o].
    unfold nextion.next, nextion.sent, nextion.value in *. cbn [fst snd] in *.
    split; [done|]. split; [by apply prefix_cons|].
    split; [intros Hb; by rewrite I3|done].
  - unfold nextion.ret, nextion.next, nextion.sent, nextion.value. cbn.
    split; [done|]. split; [by apply prefix_cons, prefix_nil|].
    split; [done|]. intros Ha. specialize (Ha (nextion.port d) c).
    rewrite Hw in Ha. done.
Qed.

Lemma endCommand_spec (d : nextion.Driver) :
  let r := nextion.endCommand d in
  nextion.display (nextion.next r) = nextion.display d
  /\ nextion.sent r `prefix_of` [255; 255; 255]
  /\ (nextion.value r = true -> nextion.sent r = [255; 255; 255])
  /\ (accepts P -> nextion.value r = true).
Proof. apply (writeEach_spec [255; 255; 255]). Qed.

Lemma writeCommand_spec (line : nextion.Command) (d : nextion.Driver) :
  let r := nextion.writeCommand N line d in
  nextion.display (nextion.next r) = nextion.display d
  /\ nextion.sent r `prefix_of` commandBytes N line
  /\ (nextion.value r = true ->
      0 <= (nextion.vsnprintf N line).1 /\ nextion.sent r = commandBytes N line)
  /\ ((nextion.vsnprintf N line).1 < 0 ->
      nextion.value r = false /\ nextion.sent r = [])
  /\ (accepts P -> 0 <= (nextion.vsnprintf N line).1 -> nextion.value r = true).
Proof.
  unfold nextion.writeCommand, commandBytes.
  destruct (nextion.vsnprintf N line) as [retVal text]. cbn [fst snd].
  destruct (retVal <? 0) eqn:Er.
  { apply Z.ltb_lt in Er. unfold nextion.ret, nextion.next, nextion.sent, nextion.value.
    cbn. split; [done|]. split; [apply prefix_nil|]. split; [done|].
    split; [done|]. intros _ ?. lia. }
  apply Z.ltb_ge in Er. unfold nextion.bind.
  destruct (writeEach_spec text d) as (T1 & T2 & T3 & T4).
  destruct (nextion.writeEach text d) as [[ok d1] o1].
  unfold nextion.next, nextion.sent, nextion.value in *. cbn [fst snd] in *.
  destruct ok.
  - rewrite T3 by done.
    destruct (endCommand_spec d1) as (E1 & E2 & E3 & E4).
    destruct (nextion.endCommand d1) as [[ok2 d2] o2].
    unfold nextion.next, nextion.sent, nextion.value in *. cbn [fst snd] in *.
    split; [congruence|]. split; [by apply prefix_app|].
    split; [intros Hb; split; [done|]; by rewrite E3|].
    split; [intros ?; lia|]. intros Ha _. by apply E4.
  - unfold nextion.ret. cbn. rewrite app_nil_r.
    split; [done|]. split; [by apply prefix_app_r|].
    split; [done|]. split; [intros ?; lia|].
    intros Ha _. by apply T4.
Qed.
End Commands.

(** X22: a command goes out as its characters followed by three 0xFF
    bytes, and stops at the first byte the port refuses.  Whatever the
    port does, the bytes handed to it are a prefix of that sequence; the
    call answers true only if the whole sequence was handed over, and it
    does so whenever the port accepts every byte; a formatting error
    sends nothing.  Writing a command changes no state of the driver. *)
Theorem nextion_command_framing {P : Type} `{!nextion.Hwa P}
    (N : nextion.Protocol) (line : nextion.Command) (d : nextion.Driver) :
  let r := nextion.writeCommand N line d in
  nextion.display (nextion.next r) = nextion.display d
  /\ nextion.sent r `prefix_of` commandBytes N line
  /\ (nextion.value r = true ->
      0 <= (nextion.vsnprintf N line).1 /\ nextion.sent r = commandBytes N line)
  /\ ((nextion.vsnprintf N line).1 < 0 ->
      nextion.value r = false /\ nextion.sent r = [])
  /\ (accepts P -> 0 <= (nextion.vsnprintf N line).1 -> nextion.value r = true).
Proof.
  unfold nextion.writeCommand, commandBytes.
  destruct (nextion.vsnprintf N line) as [retVal text]. cbn [fst snd].
  destruct (retVal <? 0) eqn:Er.
  { apply Z.ltb_lt in Er. unfold nextion.ret, nextion.next, nextion.sent, nextion.value.
    cbn. split; [done|]. split; [apply prefix_nil|]. split; [done|].
    split; [done|]. intros _ ?. lia. }
  apply Z.ltb_ge in Er. unfold nextion.bind.
  destruct (writeEach_spec text d) as (T1 & T2 & T3 & T4).
  destruct (nextion.writeEach text d) as [[ok d1] o1].
  unfold nextion.next, nextion.sent, nextion.value in *. cbn [fst snd] in *.
  destruct ok.
  - rewrite T3 by done.
    destruct (writeEach_spec [255; 255; 255] d1) as (E1 & E2 & E3 & E4).
    change (nextion.writeEach [255; 255; 255] d1) with (nextion.endCommand d1) in *.
    destruct (nextion.endCommand d1) as [[ok2 d2] o2].
    unfold nextion.next, nextion.sent, nextion.value in *. cbn [fst snd] in *.
    split; [congruence|]. split; [by apply prefix_app|].
    split; [intros Hb; split; [done|]; by rewrite E3|].
    split; [intros ?; lia|]. intros Ha _. by apply E4.
  - unfold nextion.ret. cbn. rewrite app_nil_r.
    split; [done|]. split; [by apply prefix_app_r|].
    split; [done|]. split; [intros ?; lia|].
    intros Ha _. by apply T4.
Qed.

(** ** Receiving *)











Section Receiving.
Context {P : Type} `{!nextion.Hwa P} (N : nextion.Protocol).

Lemma maybeFinishPostInit_idle now (d : nextion.Driver) :
  nextion._postInitPending (nextion.display d) = false ->
  nextion.maybeFinishPostInit N now d = (tt, d, []).
Proof.
  intros Hp. unfold nextion.maybeFinishPostInit, nextion.bind, nextion.getState.
  rewrite Hp. reflexivity.
Qed.

Lemma update_idle now rx data (d : nextion.Driver) :
  nextion._postInitPending (nextion.display d) = false ->
  nextion.update N now rx data d = afterLoop N rx data d.
Proof.
  intros Hp. unfold nextion.update, nextion.bind, afterLoop.
  rewrite maybeFinishPostInit_idle by done.
  unfold nextion.getState, nextion.modify, nextion.ret. cbn [nextion.display].
  destruct (nextion.receive rx (nextion.display d)) as [[[process rest] s]|]; [|by destruct d].
  by destruct process.
Qed.

Lemma afterLoop_sent rx data (d : nextion.Driver) :
  nextion.sent (afterLoop N rx data d) = [].
Proof.
  unfold afterLoop.
  destruct (nextion.receive rx (nextion.display d)) as [[[process rest] s]|]; [|done].
  by destruct process.
Qed.

End Receiving.





(** A run of bytes longer than the room left in the buffer: the call
    stores out of bounds. *)
Example nextion_update_overrun :
  nextion.value
    (nextion.update nextion.protocol 5 (replicate 51 1) (nextion.mkData 0 0)
       (nextion.mkDriver nextion.state0 (tt : nextion.Line)))
  = None.
Proof. reflexivity. Qed.

(** ** The start-up after [init] *)

Section PostInit.
Context {P : Type} `{!nextion.Hwa P} (N : nextion.Protocol).

Lemma maybeFinishPostInit_early now (d : nextion.Driver) :
  now < nextion._postInitReadyAtMs (nextion.display d) ->
  nextion.maybeFinishPostInit N now d = (tt, d, []).
Proof.
  intros Hn. unfold nextion.maybeFinishPostInit, nextion.bind, nextion.getState.
  destruct (nextion._postInitPending (nextion.display d)); cbn [negb]; [|done].
  by rewrite (proj2 (Z.ltb_lt _ _)) by done.
Qed.

(** The flush, for any port. *)
Lemma maybeFinishPostInit_due now (d : nextion.Driver) :
  nextion._postInitPending (nextion.display d) = true ->
  nextion._postInitReadyAtMs (nextion.display d) <= now ->
  let s := nextion.display d in
  let r := nextion.maybeFinishPostInit N now d in
  nextion.display (nextion.next r)
  = nextion.with_pendingBrightness false (nextion._pendingBrightness s)
      (nextion.with_pendingScreen false (nextion._pendingScreenIndex s)
         (nextion.with_postInit false (nextion._postInitReadyAtMs s) s))
  /\ (accepts P ->
      0 <= (nextion.vsnprintf N nextion.Sendxy).1 ->
      0 <= (nextion.vsnprintf N (nextion.Page (nextion._pendingScreenIndex s))).1 ->
      0 <= (nextion.vsnprintf N
              (nextion.Dims (nextion.BRIGHTNESS_MAPPING N
                               (u8 (nextion._pendingBrightness s))))).1 ->
      nextion.sent r
      = [255; 255; 255] ++ commandBytes N nextion.Sendxy
        ++ (if nextion._pendingScreenValid s
            then commandBytes N (nextion.Page (nextion._pendingScreenIndex s)) else [])
        ++ (if nextion._pendingBrightnessValid s
            then commandBytes N
                   (nextion.Dims (nextion.BRIGHTNESS_MAPPING N
                                    (u8 (nextion._pendingBrightness s))))
            else [])).
Proof.
  intros Hp Hn s r.
  remember (nextion.maybeFinishPostInit N now d) as r0 eqn:Er. subst r.
  unfold nextion.maybeFinishPostInit, nextion.bind, nextion.getState,
         nextion.modify, nextion.ret in Er.
  cbv beta iota zeta in Er. rewrite Hp in Er. cbn [negb] in Er.
  rewrite (proj2 (Z.ltb_ge _ _)) in Er by done.
  cbn [nextion.display nextion.port] in Er. fold s in Er.
  set (s1 := nextion.with_postInit false (nextion._postInitReadyAtMs s) s) in *.
  destruct (endCommand_spec (nextion.mkDriver s1 (nextion.port d)))
    as (E1 & _ & E3 & E4).
  destruct (nextion.endCommand _) as [[ok0 d0] o0].
  unfold nextion.next, nextion.sent, nextion.value in E1, E3, E4.
  cbn [fst snd nextion.display] in E1, E3, E4.
  destruct (writeCommand_spec N nextion.Sendxy d0) as (S1 & _ & S3 & _ & S5).
  destruct (nextion.writeCommand N nextion.Sendxy d0) as [[ok1 d1] o1].
  unfold nextion.next, nextion.sent, nextion.value in S1, S3, S5.
  cbn [fst snd] in S1, S3, S5.
  assert (D1 : nextion.display d1 = s1) by congruence.
  cbv beta iota zeta in Er. rewrite D1 in Er.
  change (nextion._pendingScreenValid s1) with (nextion._pendingScreenValid s) in Er.
  change (nextion._pendingScreenIndex s1) with (nextion._pendingScreenIndex s) in Er.
  assert (Hfin : forall valid1 valid2 : bool,
    nextion._pendingScreenValid s = valid1 ->
    nextion._pendingBrightnessValid s = valid2 ->
    (if valid2 then
       nextion.with_pendingBrightness false (nextion._pendingBrightness s)
         (if valid1 then
            nextion.with_pendingScreen false (nextion._pendingScreenIndex s) s1
          else s1)
     else if valid1 then
            nextion.with_pendingScreen false (nextion._pendingScreenIndex s) s1
          else s1)
    = nextion.with_pendingBrightness false (nextion._pendingBrightness s)
        (nextion.with_pendingScreen false (nextion._pendingScreenIndex s) s1)).
  { intros v1 v2 H1 H2. unfold s1. destruct s. cbn in *. subst. by destruct v1, v2. }
  destruct (nextion._pendingScreenValid s) eqn:Vs.
  - destruct (writeCommand_spec N (nextion.Page (nextion._pendingScreenIndex s)) d1)
      as (G1 & _ & G3 & _ & G5).
    destruct (nextion.writeCommand N (nextion.Page _) d1) as [[ok2 d2] o2].
    unfold nextion.next, nextion.sent, nextion.value in G1, G3, G5.
    cbn [fst snd] in G1, G3, G5.
    cbv beta iota zeta in Er. cbn [nextion.display nextion.port] in Er.
    rewrite G1, D1 in Er.
    set (s2 := nextion.with_pendingScreen false (nextion._pendingScreenIndex s) s1) in *.
    change (nextion._pendingBrightnessValid s2)
      with (nextion._pendingBrightnessValid s) in Er.
    change (nextion._pendingBrightness s2) with (nextion._pendingBrightness s) in Er.
    destruct (nextion._pendingBrightnessValid s) eqn:Vb.
    + match type of Er with
      | context [nextion.writeCommand N ?l ?x] =>
          destruct (writeCommand_spec N l x) as (B1 & _ & B3 & _ & B5);
          destruct (nextion.writeCommand N l x) as [[ok3 d3] o3]
      end.
      unfold nextion.next, nextion.sent, nextion.value in B1, B3, B5.
      cbn [fst snd nextion.display] in B1, B3, B5.
      cbv beta iota zeta in Er. subst r0.
      unfold nextion.next, nextion.sent. cbn [fst snd nextion.display].
      split; [by rewrite B1|].
      intros Ha H1 H2 H3.
      rewrite (E3 (E4 Ha)).
      destruct (S3 (S5 Ha H1)) as [_ ->].
      destruct (G3 (G5 Ha H2)) as [_ ->].
      destruct (B3 (B5 Ha H3)) as [_ ->].
      by rewrite !app_nil_r, <- ?app_assoc.
    + cbv beta iota zeta in Er. subst r0.
      unfold nextion.next, nextion.sent. cbn [fst snd nextion.display].
      split; [exact (Hfin true false eq_refl eq_refl)|].
      intros Ha H1 H2 H3.
      rewrite (E3 (E4 Ha)).
      destruct (S3 (S5 Ha H1)) as [_ ->].
      destruct (G3 (G5 Ha H2)) as [_ ->].
      by rewrite !app_nil_r, <- ?app_assoc.
  - cbv beta iota zeta in Er. rewrite D1 in Er.
    change (nextion._pendingBrightnessValid s1)
      with (nextion._pendingBrightnessValid s) in Er.
    change (nextion._pendingBrightness s1) with (nextion._pendingBrightness s) in Er.
    destruct (nextion._pendingBrightnessValid s) eqn:Vb.
    + match type of Er with
      | context [nextion.writeCommand N ?l ?x] =>
          destruct (writeCommand_spec N l x) as (B1 & _ & B3 & _ & B5);
          destruct (nextion.writeCommand N l x) as [[ok3 d3] o3]
      end.
      unfold nextion.next, nextion.sent, nextion.value in B1, B3, B5.
      cbn [fst snd nextion.display] in B1, B3, B5.
      cbv beta iota zeta in Er. subst r0.
      unfold nextion.next, nextion.sent. cbn [fst snd nextion.display].
      split; [rewrite B1, D1; exact (Hfin false true eq_refl eq_refl)|].
      intros Ha H1 H2 H3.
      rewrite (E3 (E4 Ha)).
      destruct (S3 (S5 Ha H1)) as [_ ->].
      destruct (B3 (B5 Ha H3)) as [_ ->].
      by rewrite !app_nil_r, <- ?app_assoc.
    + cbv beta iota zeta in Er. subst r0.
      unfold nextion.next, nextion.sent. cbn [fst snd nextion.display].
      split; [rewrite D1; exact (Hfin false false eq_refl eq_refl)|].
      intros Ha H1 H2 H3.
      rewrite (E3 (E4 Ha)).
      destruct (S3 (S5 Ha H1)) as [_ ->].
      by rewrite !app_nil_r, <- ?app_assoc.
Qed.

(** A call that ends the start-up begins with the bare terminator. *)
Lemma maybeFinishPostInit_starts now (d : nextion.Driver) :
  nextion._postInitPending (nextion.display d) = true ->
  nextion._postInitReadyAtMs (nextion.display d) <= now ->
  accepts P ->
  [255; 255; 255] `prefix_of` nextion.sent (nextion.maybeFinishPostInit N now d).
Proof.
  intros Hp Hn Ha.
  unfold nextion.maybeFinishPostInit, nextion.bind, nextion.getState, nextion.modify.
  cbv beta iota zeta. rewrite Hp. cbn [negb].
  rewrite (proj2 (Z.ltb_ge _ _)) by done.
  match goal with
  | |- context [nextion.endCommand ?x] =>
      destruct (endCommand_spec x) as (_ & _ & E3 & E4);
      destruct (nextion.endCommand x) as [[ok0 d0] o0]
  end.
  unfold nextion.sent, nextion.value in E3, E4. cbn [fst snd] in E3, E4.
  rewrite (E3 (E4 Ha)).
  unfold nextion.sent.
  repeat case_match; simplify_eq; cbn [snd app]; by eexists.
Qed.
End PostInit.

(** X25: after a successful [init] the driver holds back until the clock
    reaches the ready time it has stored, the time of [init] plus 1000 ms
    in 32 bits.  While the clock reads less than that, nothing is written
    to the display: a screen or a brightness asked for is answered with
    true and kept for later, the last one asked for replacing the one
    before; an icon state asked for is dropped; [update] writes nothing.
    From the ready time on a call ends the start-up at once: a screen
    asked for is not kept, what the start-up sends comes first, and on a
    port that accepts every byte that begins with the bare terminator.
    Where the sum fits 32 bits the time held back is the first second
    after [init]; where it does not, the ready time lies below the time of
    [init] and no call made before the clock wraps is held back.  An
    [init] the port refuses leaves the driver as it was, but for the
    emptied receive buffer. *)
Theorem nextion_defers_after_init {P : Type} `{!nextion.Hwa P}
    (N : nextion.Protocol) (t0 now index index' brightness : Z)
    (icon : nextion.Icon) (on : bool) (rx : list Z) (data : nextion.Data)
    (d : nextion.Driver) :
  let i := nextion.init t0 d in
  let d1 := nextion.next i in
  let ready := (t0 + 1000) mod 4294967296 in
  let heldBack :=
    nextion.setScreen N now index d1
    = (true, nextion.mkDriver (nextion.with_pendingScreen true index (nextion.display d1))
                              (nextion.port d1), [])
    /\ nextion._pendingScreenIndex
         (nextion.display
            (nextion.next (nextion.setScreen N now index'
                             (nextion.next (nextion.setScreen N now index d1)))))
       = index'
    /\ nextion.setBrightness N now brightness d1
       = (true,
          nextion.mkDriver
            (nextion.with_pendingBrightness true brightness (nextion.display d1))
            (nextion.port d1), [])
    /\ nextion.setIconState N now icon on d1 = (tt, d1, [])
    /\ nextion.sent (nextion.update N now rx data d1) = [] in
  let atOnce :=
    nextion._postInitPending
      (nextion.display (nextion.next (nextion.setScreen N now index d1))) = false
    /\ nextion._pendingScreenValid
         (nextion.display (nextion.next (nextion.setScreen N now index d1))) = false
    /\ nextion.sent (nextion.maybeFinishPostInit N now d1)
       `prefix_of` nextion.sent (nextion.setScreen N now index d1)
    /\ (accepts P ->
        [255; 255; 255] `prefix_of` nextion.sent (nextion.setScreen N now index d1)) in
  (nextion.value i = (nextion.hwa_init (nextion.port d)).1 /\ nextion.sent i = [])
  /\ (nextion.value i = false ->
      nextion.display d1
      = nextion.with_rx (nextion._rxBuffer (nextion.display d)) 0 (nextion.display d))
  /\ (nextion.value i = true ->
      nextion._postInitPending (nextion.display d1) = true
      /\ nextion._postInitReadyAtMs (nextion.display d1) = ready
      /\ (now < ready -> heldBack)
      /\ (ready <= now -> atOnce)
      /\ (0 <= t0 -> t0 + 1000 < 4294967296 -> t0 <= now < t0 + 1000 -> heldBack)
      /\ (t0 < 4294967296 <= t0 + 1000 -> t0 <= now < 4294967296 -> atOnce)).
Proof.
  intros i d1 ready heldBack atOnce. subst heldBack atOnce d1 i. unfold nextion.init.
  destruct (nextion.hwa_init (nextion.port d)) as [ok p].
  destruct ok; unfold nextion.value, nextion.next, nextion.sent; cbn [fst snd].
  2:{ split; [done|]. split; [done|]. discriminate. }
  split; [done|]. split; [discriminate|]. intros _.
  set (d1 := nextion.mkDriver _ p).
  assert (Hp : nextion._postInitPending (nextion.display d1) = true) by done.
  assert (Hr : nextion._postInitReadyAtMs (nextion.display d1) = ready) by done.
  assert (Hs : forall k (x : nextion.Driver),
            nextion._postInitPending (nextion.display x) = true ->
            now < nextion._postInitReadyAtMs (nextion.display x) ->
            nextion.setScreen N now k x
            = (true, nextion.mkDriver (nextion.with_pendingScreen true k (nextion.display x))
                                      (nextion.port x), [])).
  { intros k x Hpx Hrx. unfold nextion.setScreen, nextion.bind.
    rewrite maybeFinishPostInit_early by done.
    unfold nextion.getState, nextion.modify, nextion.ret. by rewrite Hpx. }
  assert (Held : now < ready ->
    nextion.setScreen N now index d1
    = (true, nextion.mkDriver (nextion.with_pendingScreen true index (nextion.display d1))
                              (nextion.port d1), [])
    /\ nextion._pendingScreenIndex
         (nextion.display
            (nextion.setScreen N now index' (nextion.setScreen N now index d1).1.2).1.2)
       = index'
    /\ nextion.setBrightness N now brightness d1
       = (true,
          nextion.mkDriver
            (nextion.with_pendingBrightness true brightness (nextion.display d1))
            (nextion.port d1), [])
    /\ nextion.setIconState N now icon on d1 = (tt, d1, [])
    /\ (nextion.update N now rx data d1).2 = []).
  { intros Hn. rewrite <- Hr in Hn.
    split; [by apply Hs|].
    split. { rewrite (Hs index d1) by done. cbn [fst snd]. by rewrite Hs. }
    split.
    { unfold nextion.setBrightness, nextion.bind.
      rewrite maybeFinishPostInit_early by done.
      unfold nextion.getState, nextion.modify, nextion.ret. by rewrite Hp. }
    split.
    { unfold nextion.setIconState, nextion.bind.
      rewrite maybeFinishPostInit_early by done.
      unfold nextion.getState, nextion.ret. by rewrite Hp. }
    unfold nextion.update, nextion.bind.
    rewrite maybeFinishPostInit_early by done.
    unfold nextion.getState, nextion.modify, nextion.ret.
    destruct (nextion.receive rx (nextion.display d1)) as [[[process rest] s]|]; [|done].
    by destruct process. }
  assert (Once : ready <= now ->
    nextion._postInitPending (nextion.display (nextion.setScreen N now index d1).1.2) = false
    /\ nextion._pendingScreenValid
         (nextion.display (nextion.setScreen N now index d1).1.2) = false
    /\ (nextion.maybeFinishPostInit N now d1).2
       `prefix_of` (nextion.setScreen N now index d1).2
    /\ (accepts P -> [255; 255; 255] `prefix_of` (nextion.setScreen N now index d1).2)).
  { intros Hn. rewrite <- Hr in Hn.
    destruct (maybeFinishPostInit_due N now d1 Hp Hn) as [Hd _].
    pose proof (maybeFinishPostInit_starts N now d1 Hp Hn) as Hstart.
    unfold nextion.setScreen, nextion.bind, nextion.getState.
    destruct (nextion.maybeFinishPostInit N now d1) as [[u d2] o2].
    unfold nextion.next, nextion.sent in Hd, Hstart. cbn [fst snd] in Hd, Hstart.
    cbv beta iota zeta. rewrite Hd.
    cbn [nextion._postInitPending nextion.with_pendingBrightness
         nextion.with_pendingScreen nextion.with_postInit].
    destruct (writeCommand_spec N (nextion.Page index) d2) as (W1 & _).
    destruct (nextion.writeCommand N (nextion.Page index) d2) as [[ok3 d3] o3].
    unfold nextion.next in W1. cbn [fst snd] in W1 |- *.
    rewrite W1, Hd.
    split; [done|]. split; [done|].
    split; [by apply prefix_app_r|].
    intros Ha. by apply prefix_app_r, Hstart. }
  split; [done|]. split; [done|].
  split; [exact Held|]. split; [exact Once|].
  split.
  - intros H0 Hfit Hnow. apply Held. unfold ready.
    rewrite Z.mod_small by lia. lia.
  - intros Hwrap Hnow. apply Once. unfold ready.
    replace (t0 + 1000) with (t0 + 1000 - 4294967296 + 1 * 4294967296) by lia.
    rewrite Z.mod_add by lia. rewrite Z.mod_small by lia. lia.
Qed.

Lemma nextion_defers_after_init_witness :
  nextion.setIconState nextion.protocol 500 (nextion.mkIcon 1 2 30 40 5 6) true
    (nextion.next (nextion.init 100
       (nextion.mkDriver nextion.state0 (tt : nextion.Line))))
  = (tt,
     nextion.next (nextion.init 100
       (nextion.mkDriver nextion.state0 (tt : nextion.Line))), []).
Proof.
  destruct (nextion_defers_after_init nextion.protocol 100 500 3 4 2
              (nextion.mkIcon 1 2 30 40 5 6) true [] (nextion.mkData 0 0)
              (nextion.mkDriver nextion.state0 (tt : nextion.Line)))
    as (_ & _ & H).
  destruct H as (_ & _ & H & _); [reflexivity|].
  destruct H as (_ & _ & _ & H & _); [vm_compute; reflexivity | exact H].
Defined.

(** An [init] at 4294967000 ms stores the ready time 704: a call at
    4294967100 ms, a tenth of a second later, already ends the start-up and
    draws. *)
Example nextion_ready_time_wraps :
  let d1 := nextion.next (nextion.init 4294967000
              (nextion.mkDriver nextion.state0 (tt : nextion.Line))) in
  nextion._postInitReadyAtMs (nextion.display d1) = 704
  /\ nextion.sent
       (nextion.setIconState nextion.protocol 4294967100
          (nextion.mkIcon 1 2 30 40 5 6) true d1)
     = [255; 255; 255] ++ [115; 101; 110; 100; 120; 121; 61; 49] ++ [255; 255; 255]
       ++ [112; 105; 99; 113; 32; 49; 44; 50; 44; 51; 48; 44; 52; 48; 44; 53]
       ++ [255; 255; 255].
Proof. split; reflexivity. Qed.

(** X26: what was kept is sent once.  The first call at or after the
    ready time clears the pending mark and both kept requests, whether
    the port takes the bytes or not, so that no later call sends them
    again; on a port that accepts every byte it writes a bare terminator,
    the [sendxy=1] line, the kept screen if there is one and the kept
    brightness if there is one, in that order. *)
Theorem nextion_flushes_once {P : Type} `{!nextion.Hwa P}
    (N : nextion.Protocol) (now later : Z) (d : nextion.Driver) :
  nextion._postInitPending (nextion.display d) = true ->
  nextion._postInitReadyAtMs (nextion.display d) <= now ->
  let s := nextion.display d in
  let r := nextion.maybeFinishPostInit N now d in
  nextion._postInitPending (nextion.display (nextion.next r)) = false
  /\ nextion._pendingScreenValid (nextion.display (nextion.next r)) = false
  /\ nextion._pendingBrightnessValid (nextion.display (nextion.next r)) = false
  /\ nextion.maybeFinishPostInit N later (nextion.next r) = (tt, nextion.next r, [])
  /\ (accepts P ->
      0 <= (nextion.vsnprintf N nextion.Sendxy).1 ->
      0 <= (nextion.vsnprintf N (nextion.Page (nextion._pendingScreenIndex s))).1 ->
      0 <= (nextion.vsnprintf N
              (nextion.Dims (nextion.BRIGHTNESS_MAPPING N
                               (u8 (nextion._pendingBrightness s))))).1 ->
      nextion.sent r
      = [255; 255; 255] ++ commandBytes N nextion.Sendxy
        ++ (if nextion._pendingScreenValid s
            then commandBytes N (nextion.Page (nextion._pendingScreenIndex s)) else [])
        ++ (if nextion._pendingBrightnessValid s
            then commandBytes N
                   (nextion.Dims (nextion.BRIGHTNESS_MAPPING N
                                    (u8 (nextion._pendingBrightness s))))
            else [])).
Proof.
  intros Hp Hn s r.
  destruct (maybeFinishPostInit_due N now d Hp Hn) as [Hd Hs].
  fold s in Hd, Hs. fold r in Hd, Hs.
  assert (Hq : nextion._postInitPending (nextion.display (nextion.next r)) = false)
    by (by rewrite Hd).
  split; [done|]. split; [by rewrite Hd|]. split; [by rewrite Hd|].
  split; [by apply maybeFinishPostInit_idle|]. exact Hs.
Qed.

Lemma nextion_flushes_once_witness :
  nextion.sent
    (nextion.maybeFinishPostInit nextion.protocol 2000
       (nextion.next (nextion.setScreen nextion.protocol 500 3
          (nextion.next (nextion.init 100
             (nextion.mkDriver nextion.state0 (tt : nextion.Line)))))))
  = [255; 255; 255] ++ [115; 101; 110; 100; 120; 121; 61; 49] ++ [255; 255; 255]
    ++ [112; 97; 103; 101; 32; 51] ++ [255; 255; 255].
Proof.
  destruct (nextion_flushes_once nextion.protocol 2000 3000
     (nextion.next (nextion.setScreen nextion.protocol 500 3
        (nextion.next (nextion.init 100
           (nextion.mkDriver nextion.state0 (tt : nextion.Line)))))))
    as (_ & _ & _ & _ & H).
  - reflexivity.
  - vm_compute. discriminate.
  - rewrite H.
    + reflexivity.
    + intros p c. reflexivity.
    + vm_compute. discriminate.
    + vm_compute. discriminate.
    + vm_compute. discriminate.
Defined.

(** X27: what the driver does not draw and does not keep.  Once the
    start-up is over, an icon of zero width or zero height is never
    drawn: [setIconState] writes nothing for it, and for any other icon
    it writes one [picq] line that names the on-screen for the state on
    and the off-screen for the state off.  [deInit] forgets the start-up
    and whatever was kept for it: after it no call of [update] writes
    anything, at any time. *)
Theorem nextion_icons_and_deInit {P : Type} `{!nextion.Hwa P}
    (N : nextion.Protocol) (now : Z) (icon : nextion.Icon) (on : bool)
    (rx : list Z) (data : nextion.Data) (d : nextion.Driver) :
  nextion._postInitPending (nextion.display d) = false ->
  let picq := nextion.Picq (nextion.xPos icon) (nextion.yPos icon)
                (nextion.width icon) (nextion.height icon)
                (if on then nextion.onScreen icon else nextion.offScreen icon) in
  (nextion.width icon = 0 \/ nextion.height icon = 0 ->
   nextion.setIconState N now icon on d = (tt, d, []))
  /\ (nextion.width icon <> 0 -> nextion.height icon <> 0 ->
      nextion.sent (nextion.setIconState N now icon on d) `prefix_of` commandBytes N picq
      /\ (accepts P -> 0 <= (nextion.vsnprintf N picq).1 ->
          nextion.sent (nextion.setIconState N now icon on d) = commandBytes N picq))
  /\ (forall d0 : nextion.Driver,
      nextion.value (nextion.deInit d0) = (nextion.hwa_deInit (nextion.port d0)).1
      /\ nextion.sent (nextion.deInit d0) = []
      /\ nextion._postInitPending (nextion.display (nextion.next (nextion.deInit d0)))
         = false
      /\ nextion._pendingScreenValid (nextion.display (nextion.next (nextion.deInit d0)))
         = false
      /\ nextion._pendingBrightnessValid
           (nextion.display (nextion.next (nextion.deInit d0))) = false
      /\ nextion.sent (nextion.update N now rx data (nextion.next (nextion.deInit d0))) = []).
Proof.
  intros Hp picq. split; [|split].
  - intros Hz. unfold nextion.setIconState, nextion.bind.
    rewrite maybeFinishPostInit_idle by done.
    unfold nextion.getState, nextion.ret. rewrite Hp.
    destruct Hz as [-> | ->]; [done|].
    by destruct (nextion.width icon =? 0).
  - intros Hw Hh.
    assert (Hs : nextion.sent (nextion.setIconState N now icon on d)
                 = nextion.sent (nextion.writeCommand N picq d)).
    { unfold nextion.setIconState, nextion.bind.
      rewrite maybeFinishPostInit_idle by done.
      unfold nextion.getState, nextion.ret. rewrite Hp.
      rewrite (proj2 (Z.eqb_neq _ _) Hw), (proj2 (Z.eqb_neq _ _) Hh).
      fold picq. destruct (nextion.writeCommand N picq d) as [[ok d'] o].
      unfold nextion.sent. cbn. by rewrite app_nil_r. }
    rewrite Hs.
    destruct (writeCommand_spec N picq d) as (_ & W2 & W3 & _ & W5).
    split; [done|]. intros Ha Hr. by destruct (W3 (W5 Ha Hr)) as [_ ->].
  - intros d0.
    unfold nextion.deInit.
    destruct (nextion.hwa_deInit (nextion.port d0)) as [ok p].
    unfold nextion.value, nextion.sent, nextion.next. cbn [fst snd].
    split; [done|]. split; [done|]. split; [done|]. split; [done|]. split; [done|].
    rewrite update_idle by done. apply afterLoop_sent.
Qed.

Lemma nextion_icons_and_deInit_witness :
  nextion.setIconState nextion.protocol 5 (nextion.mkIcon 1 2 0 40 5 6) true
    (nextion.mkDriver nextion.state0 (tt : nextion.Line))
  = (tt, nextion.mkDriver nextion.state0 (tt : nextion.Line), []).
Proof.
  destruct (nextion_icons_and_deInit nextion.protocol 5 (nextion.mkIcon 1 2 0 40 5 6)
              true [] (nextion.mkData 0 0)
              (nextion.mkDriver nextion.state0 (tt : nextion.Line)))
    as (H & _); [reflexivity|].
  apply H. left. reflexivity.
Defined.
